(** * CityPulse: the data-normalisation and scoring pipeline

    A shallow embedding of the TypeScript sources of the CityPulse dashboard:

    - [src/types/index.ts]            the data model ([CityVitals], the raw
                                      provider responses, [DiagnosticResult]);
    - [src/services/airQualityAPI.ts] [AirQualityService];
    - [src/services/weatherAPI.ts]    [WeatherService];
    - the earthquake service          [EarthquakeService];
    - the diagnostic engine           [DiagnosticEngine];
    - [App.tsx]                       [processCityVitals];
    - the mock data service           [MockDataService];
    - [src/services/dataValidator.ts] [DataValidator];
    - the API tester                  [APITester];
    - the cache manager               [CacheManager].

    JavaScript numbers.  Every function is written once, over an interface
    [JSNumber] of the arithmetic, comparisons and [Math] functions the sources
    use, and is read in two models of that interface:

    - [Q], exact rational arithmetic: a JavaScript number is the rational it
      denotes, rounding error set aside (there is no NaN and no infinity in
      this model).  Statements over all finite numbers are proved here.
      They hold of the program up to the rounding of binary64, which next
      to a threshold can put a computed value on the other side of it.
    - [float], the kernel's IEEE 754 binary64 numbers, which is what a
      JavaScript engine computes with.  Statements about the value at given
      inputs are evaluated here as well, and the threshold functions are
      characterised for every binary64 value, NaN included.

    Effects.  [Math.random] and [Date.now] read an explicit [World]; the code
    that calls them lives in a state monad over it.

    Inputs.  The normalisers are embedded on the provider interfaces of
    [src/types/index.ts].  [processCityVitals] takes its results as [any]:
    [processCityVitals_any] is the same function on bodies that may lack
    what the normalisers dereference, where reading a property of
    [undefined] throws a TypeError. *)

From Stdlib Require Import QArith Qround Qabs ZArith List String Ascii Bool Lia Lqa.
From Stdlib Require Import Floats Uint63 DecimalString.
From ExtLib Require Import Structures.Monad Structures.MonadState.
From ExtLib Require Import Data.Monads.StateMonad.
Import ListNotations.
Import MonadNotation.

Set Warnings "-inexact-float".

(* ===================================================================== *)
(** * JavaScript numbers *)
(* ===================================================================== *)

(** What the sources do with numbers.  [lit q] is the number a decimal
    literal of the source denotes; [leb a b] is [a <= b], [ltb a b] is
    [a < b] (so [a > b] is [ltb b a]). *)
Class JSNumber (num : Type) : Type := {
  lit        : Q -> num;
  add        : num -> num -> num;
  sub        : num -> num -> num;
  mul        : num -> num -> num;
  div        : num -> num -> num;
  leb        : num -> num -> bool;
  ltb        : num -> num -> bool;
  Math_max   : num -> num -> num;
  Math_min   : num -> num -> num;
  Math_floor : num -> num;
  Math_round : num -> num
}.

Arguments lit {num _} q%_Q.

(** [Number.prototype.toFixed]. *)
Class JSNumberFormat (num : Type) : Type := {
  toFixed : num -> nat -> string
}.

Declare Scope js_scope.
Delimit Scope js_scope with js.
Infix "+" := add : js_scope.
Infix "-" := sub : js_scope.
Infix "*" := mul : js_scope.
Infix "/" := div : js_scope.
Infix "<=?" := leb (at level 70, no associativity) : js_scope.
Infix "<?" := ltb (at level 70, no associativity) : js_scope.
Notation "a >? b" := (ltb b a) (at level 70, no associativity) : js_scope.

(** The number of elements of an array, as a number. *)
Definition of_length {num : Type} `{JSNumber num} (n : nat) : num :=
  lit (inject_Z (Z.of_nat n)).

(** ** Exact arithmetic *)

(** [Math.round] rounds to the nearest integer, a tie going up:
    floor (x + 1/2). *)
Definition Q_round (x : Q) : Q := inject_Z (Qfloor (x + (1 # 2))).

#[global] Instance Q_JSNumber : JSNumber Q := {|
  lit q := q;
  add := Qplus;
  sub := Qminus;
  mul := Qmult;
  div := Qdiv;
  leb := Qle_bool;
  ltb a b := negb (Qle_bool b a);
  Math_max a b := if Qle_bool a b then b else a;
  Math_min a b := if Qle_bool a b then a else b;
  Math_floor x := inject_Z (Qfloor x);
  Math_round := Q_round
|}.

(** Decimal digits of a natural number. *)
Definition digits (n : N) : string :=
  NilZero.string_of_uint (N.to_uint n).

(** The last [f] digits of [n], padded on the left with zeros. *)
Fixpoint fraction_digits (f : nat) (n : N) : string :=
  match f with
  | O => EmptyString
  | S f' =>
      String.append (fraction_digits f' (N.div n 10))
                    (digits (N.modulo n 10))
  end.

(** [x.toFixed(f)]: the sign, then the integer n closest to |x| * 10^f
    (the larger one at a tie) written with [f] digits after the point. *)
Definition Q_toFixed (x : Q) (f : nat) : string :=
  let s := if Qle_bool 0 x then EmptyString else "-"%string in
  let scaled := Qabs x * inject_Z (10 ^ Z.of_nat f) in
  let n := Z.to_N (Qfloor (scaled + (1 # 2))) in
  let p := (10 ^ N.of_nat f)%N in
  let whole := digits (N.div n p) in
  match f with
  | O => String.append s whole
  | _ => String.append s (String.append whole
                            (String.append "."%string (fraction_digits f n)))
  end.

#[global] Instance Q_JSNumberFormat : JSNumberFormat Q := {|
  toFixed := Q_toFixed
|}.

(** ** IEEE 754 binary64 *)

Definition float_of_Z (z : Z) : float :=
  match z with
  | Z0 => PrimFloat.zero
  | Zpos p => PrimFloat.of_uint63 (Uint63.of_pos p)
  | Zneg p => PrimFloat.opp (PrimFloat.of_uint63 (Uint63.of_pos p))
  end.

(** A decimal literal n/d with n and d below 2^53 denotes the binary64
    number nearest to it, which is what the correctly rounded quotient of
    the two integers is. *)
Definition float_lit (q : Q) : float :=
  PrimFloat.div (float_of_Z (Qnum q)) (float_of_Z (Zpos (Qden q))).

Definition two52 : float := 4503599627370496%float.

(** [Math.floor]: below 2^52 in magnitude, adding and subtracting 2^52
    rounds to an integer, which is then corrected downwards; from 2^52 on
    every binary64 number is an integer.  Zeros, infinities and NaN are
    returned as they are. *)
Definition float_floor (x : float) : float :=
  if PrimFloat.is_zero x then x
  else if PrimFloat.ltb (PrimFloat.abs x) two52 then
    let r := if PrimFloat.ltb x 0%float
             then PrimFloat.add (PrimFloat.sub x two52) two52
             else PrimFloat.sub (PrimFloat.add x two52) two52 in
    if PrimFloat.ltb x r then PrimFloat.sub r 1%float else r
  else x.

(** [Math.round]: the nearest integer, a tie going towards +infinity; a
    zero result keeps the sign of a negative argument. *)
Definition float_round (x : float) : float :=
  let f := float_floor x in
  let r := if PrimFloat.ltb (PrimFloat.sub x f) 0.5%float
           then f else PrimFloat.add f 1%float in
  if PrimFloat.is_zero r && PrimFloat.ltb x 0%float
  then PrimFloat.neg_zero else r.

(** [Math.max] and [Math.min]: NaN if an argument is NaN, and -0 below +0. *)
Definition float_max (a b : float) : float :=
  if PrimFloat.is_nan a then a
  else if PrimFloat.is_nan b then b
  else if PrimFloat.ltb a b then b
  else if PrimFloat.ltb b a then a
  else if PrimFloat.get_sign a then b else a.

Definition float_min (a b : float) : float :=
  if PrimFloat.is_nan a then a
  else if PrimFloat.is_nan b then b
  else if PrimFloat.ltb a b then a
  else if PrimFloat.ltb b a then b
  else if PrimFloat.get_sign a then a else b.

#[global] Instance float_JSNumber : JSNumber float := {|
  lit := float_lit;
  add := PrimFloat.add;
  sub := PrimFloat.sub;
  mul := PrimFloat.mul;
  div := PrimFloat.div;
  leb := PrimFloat.leb;
  ltb := PrimFloat.ltb;
  Math_max := float_max;
  Math_min := float_min;
  Math_floor := float_floor;
  Math_round := float_round
|}.

(* ===================================================================== *)
(** * The data model: src/types/index.ts *)
(* ===================================================================== *)

(** The string unions of [CityVitals] and [DiagnosticResult]. *)
Inductive HeartRateStatus : Type :=
  HR_normal | HR_elevated | HR_critical.

Inductive Trend : Type :=
  Trend_increasing | Trend_stable | Trend_decreasing.

Inductive TemperatureStatus : Type :=
  Temp_normal | Temp_fever | Temp_critical.

Inductive AirQualityStatus : Type :=
  Air_healthy | Air_unhealthy | Air_hazardous.

Inductive AirQualityTrend : Type :=
  AirTrend_improving | AirTrend_stable | AirTrend_worsening.

Inductive GreenSpaceStatus : Type :=
  Green_strong | Green_weak | Green_compromised.

Inductive GreenSpaceTrend : Type :=
  GreenTrend_improving | GreenTrend_stable | GreenTrend_declining.

Inductive InfectionStatus : Type :=
  Inf_clean | Inf_infected | Inf_critical.

Inductive OverallStatus : Type :=
  Overall_excellent | Overall_good | Overall_fair | Overall_poor
| Overall_critical.

Inductive Severity : Type :=
  Sev_low | Sev_medium | Sev_high | Sev_critical.

(** The strings the unions stand for ([HealthScore.status] is a string). *)
Definition HeartRateStatus_string (s : HeartRateStatus) : string :=
  match s with
  | HR_normal => "normal"
  | HR_elevated => "elevated"
  | HR_critical => "critical"
  end.

Definition TemperatureStatus_string (s : TemperatureStatus) : string :=
  match s with
  | Temp_normal => "normal"
  | Temp_fever => "fever"
  | Temp_critical => "critical"
  end.

Definition AirQualityStatus_string (s : AirQualityStatus) : string :=
  match s with
  | Air_healthy => "healthy"
  | Air_unhealthy => "unhealthy"
  | Air_hazardous => "hazardous"
  end.

Definition GreenSpaceStatus_string (s : GreenSpaceStatus) : string :=
  match s with
  | Green_strong => "strong"
  | Green_weak => "weak"
  | Green_compromised => "compromised"
  end.

Definition InfectionStatus_string (s : InfectionStatus) : string :=
  match s with
  | Inf_clean => "clean"
  | Inf_infected => "infected"
  | Inf_critical => "critical"
  end.

(** [PromiseSettledResult<T>], what [Promise.allSettled] hands over. *)
Inductive PromiseSettledResult (T : Type) : Type :=
| fulfilled (value : T)
| rejected (reason : string).

Arguments fulfilled {T} value.
Arguments rejected {T} reason.

Section DataModel.
Context {num : Type}.

Record HeartRate : Type := {
  hr_value : num;
  hr_status : HeartRateStatus;
  hr_trend : Trend;
  hr_description : string
}.

Record Temperature : Type := {
  temp_value : num;
  heatIslandEffect : num;
  temp_status : TemperatureStatus;
  temp_trend : Trend;
  temp_description : string
}.

Record Pollutants : Type := {
  no2 : num;
  pm25 : num;
  o3 : num
}.

Record BloodOxygen : Type := {
  bo_value : num;
  pollutants : Pollutants;
  bo_status : AirQualityStatus;
  bo_trend : AirQualityTrend;
  bo_description : string
}.

Record ImmuneSystem : Type := {
  greenSpaceCoverage : num;
  ndvi : num;
  im_status : GreenSpaceStatus;
  im_trend : GreenSpaceTrend;
  im_description : string
}.

Record Infections : Type := {
  disasterEvents : num;
  pollutionHotspots : num;
  inf_status : InfectionStatus;
  inf_description : string
}.

Record OverallHealth : Type := {
  score : num;
  status : OverallStatus;
  oh_diagnosis : string;
  oh_recommendations : list string
}.

Record CityVitals : Type := {
  heartRate : HeartRate;
  temperature : Temperature;
  bloodOxygen : BloodOxygen;
  immuneSystem : ImmuneSystem;
  infections : Infections;
  overallHealth : OverallHealth
}.

Record LocationData : Type := {
  lat : num;
  lon : num;
  city : option string;
  country : option string;
  timestamp : num
}.

(** [OpenAQResponse].  A measurement's [value] may come as null, which
    [getAverageMeasurement] filters out; [results] may be missing, which
    [processAirQualityData] tests for. *)
Record Measurement : Type := {
  parameter : string;
  value : option num;
  m_unit : string;
  lastUpdated : string
}.

Record OpenAQResult : Type := {
  location : string;
  measurements : list Measurement
}.

Record OpenAQResponse : Type := {
  results : option (list OpenAQResult)
}.

(** [USGSEarthquakeResponse]; of the properties of a feature the code reads
    [time] only, and the properties kept here are [mag], [place] and
    [time]. *)
Record EarthquakeProperties : Type := {
  mag : num;
  place : string;
  time : num
}.

Record EarthquakeFeature : Type := {
  properties : EarthquakeProperties;
  coordinates : num * num * num;
  feature_id : string
}.

Record USGSEarthquakeResponse : Type := {
  type : string;
  features : option (list EarthquakeFeature)
}.

Record WeatherMain : Type := {
  temp : num;
  feels_like : num;
  temp_min : num;
  temp_max : num;
  pressure : num;
  humidity : num
}.

Record WeatherResponse : Type := {
  main : WeatherMain;
  coord : num * num;
  name : string
}.

Record HealthScore : Type := {
  category : string;
  hs_score : num;
  weight : num;
  hs_status : string
}.

Record DiagnosticResult : Type := {
  overallScore : num;
  categoryScores : list HealthScore;
  diagnosis : string;
  recommendations : list string;
  severity : Severity
}.

End DataModel.

Arguments HeartRate : clear implicits.
Arguments Temperature : clear implicits.
Arguments Pollutants : clear implicits.
Arguments BloodOxygen : clear implicits.
Arguments ImmuneSystem : clear implicits.
Arguments Infections : clear implicits.
Arguments OverallHealth : clear implicits.
Arguments CityVitals : clear implicits.
Arguments LocationData : clear implicits.
Arguments Measurement : clear implicits.
Arguments OpenAQResult : clear implicits.
Arguments OpenAQResponse : clear implicits.
Arguments EarthquakeProperties : clear implicits.
Arguments EarthquakeFeature : clear implicits.
Arguments USGSEarthquakeResponse : clear implicits.
Arguments WeatherMain : clear implicits.
Arguments WeatherResponse : clear implicits.
Arguments HealthScore : clear implicits.
Arguments DiagnosticResult : clear implicits.

(* ===================================================================== *)
(** * The host: Math.random, Date.now, Date *)
(* ===================================================================== *)

Section Host.
Context {num : Type} {N : JSNumber num}.
Local Open Scope js_scope.
Local Open Scope monad_scope.

(** The world a run reads: the wall clock in epoch milliseconds, held fixed
    over one synchronous run, and the sequence of numbers [Math.random] is
    going to return, with the count of those already drawn. *)
Record World : Type := {
  clock : num;
  entropy : nat -> num;
  drawn : nat
}.

Definition JS : Type -> Type := state World.

Definition Math_random : JS num :=
  w <- get ;;
  put {| clock := clock w; entropy := entropy w; drawn := S (drawn w) |} ;;
  ret (entropy w (drawn w)).

Definition Date_now : JS num :=
  w <- get ;;
  ret (clock w).

(** [new Date(t).getTime()] for a number [t] is TimeClip(t): the time
    truncated to an integer when it lies within 8.64e15 milliseconds of the
    epoch, and NaN ([None] here) otherwise. *)
Definition ToIntegerOrInfinity (x : num) : num :=
  if x <? lit 0 then lit 0 - Math_floor (lit 0 - x) else Math_floor x.

Definition TimeClip (t : num) : option num :=
  let magnitude := if t <? lit 0 then lit 0 - t else t in
  if magnitude <=? lit 8640000000000000
  then Some (ToIntegerOrInfinity t) else None.

(** [Array.prototype.filter] with a callback that reads the world. *)
Fixpoint filterM {A : Type} (f : A -> JS bool) (l : list A) : JS (list A) :=
  match l with
  | [] => ret []
  | x :: xs =>
      keep <- f x ;;
      rest <- filterM f xs ;;
      ret (if keep then x :: rest else rest)
  end.

End Host.

Arguments World : clear implicits.
Arguments JS : clear implicits.

(* ===================================================================== *)
(** * AirQualityService: src/services/airQualityAPI.ts *)
(* ===================================================================== *)

Section AirQualityService.
Context {num : Type} {N : JSNumber num}.
Local Open Scope js_scope.

(** What [processAirQualityData] returns. *)
Record AirQualityData : Type := {
  aqi : num;
  aq_pollutants : Pollutants num;
  aq_status : AirQualityStatus;
  aq_trend : AirQualityTrend
}.

(** The values that are neither null nor undefined. *)
Definition defined (vs : list (option num)) : list num :=
  flat_map (fun v => match v with Some x => [x] | None => [] end) vs.

Definition getAverageMeasurement
    (measurements : list (Measurement num)) (param : string) : num :=
  let values :=
    defined (map value
      (filter (fun m => String.eqb (parameter m) param) measurements)) in
  if Nat.eqb (List.length values) 0 then lit 0
  else fold_left (fun sum val => sum + val) values (lit 0)
       / of_length (List.length values).

Definition calculateAQI (p : Pollutants num) : num :=
  let pm25 := pm25 p in
  if pm25 <=? lit 12 then Math_max (lit 0) ((pm25 / lit 12) * lit 50)
  else if pm25 <=? lit 35.4
    then lit 50 + ((pm25 - lit 12) / lit 23.4) * lit 50
  else if pm25 <=? lit 55.4
    then lit 100 + ((pm25 - lit 35.4) / lit 20) * lit 50
  else if pm25 <=? lit 150.4
    then lit 150 + ((pm25 - lit 55.4) / lit 95) * lit 100
  else if pm25 <=? lit 250.4
    then lit 250 + ((pm25 - lit 150.4) / lit 100) * lit 100
  else Math_min (lit 500) (lit 350 + ((pm25 - lit 250.4) / lit 149.6) * lit 150).

Definition determineAirQualityStatus (aqi : num) : AirQualityStatus :=
  if aqi <=? lit 50 then Air_healthy
  else if aqi <=? lit 150 then Air_unhealthy
  else Air_hazardous.

Definition determineTrend (p : Pollutants num) : AirQualityTrend :=
  let avgPollution := (no2 p + pm25 p + o3 p) / lit 3 in
  if avgPollution <? lit 10 then AirTrend_improving
  else if avgPollution >? lit 30 then AirTrend_worsening
  else AirTrend_stable.

Definition noAirQualityData : AirQualityData :=
  {| aqi := lit 0;
     aq_pollutants := {| no2 := lit 0; pm25 := lit 0; o3 := lit 0 |};
     aq_status := Air_healthy;
     aq_trend := AirTrend_stable |}.

Definition processAirQualityData (response : OpenAQResponse num)
    : AirQualityData :=
  match results response with
  | None => noAirQualityData
  | Some [] => noAirQualityData
  | Some results =>
      let measurements := flat_map measurements results in
      let pollutants :=
        {| no2 := getAverageMeasurement measurements "no2";
           pm25 := getAverageMeasurement measurements "pm25";
           o3 := getAverageMeasurement measurements "o3" |} in
      let aqi := calculateAQI pollutants in
      let status := determineAirQualityStatus aqi in
      let trend := determineTrend pollutants in
      {| aqi := aqi;
         aq_pollutants := pollutants;
         aq_status := status;
         aq_trend := trend |}
  end.

End AirQualityService.

Arguments AirQualityData : clear implicits.

(* ===================================================================== *)
(** * WeatherService: src/services/weatherAPI.ts *)
(* ===================================================================== *)

Section WeatherService.
Context {num : Type} {N : JSNumber num} {F : JSNumberFormat num}.
Local Open Scope js_scope.

(** What [processWeatherData] returns. *)
Record TemperatureData : Type := {
  td_temperature : num;
  td_heatIslandEffect : num;
  td_status : TemperatureStatus;
  td_trend : Trend;
  td_description : string
}.

Definition estimateHeatIslandEffect (temperature : num) : num :=
  if temperature >? lit 35 then lit 5.0
  else if temperature >? lit 30 then lit 3.0
  else if temperature >? lit 25 then lit 1.5
  else if temperature >? lit 20 then lit 0.5
  else lit 0.

Definition determineTemperatureStatus (temperature : num)
    : TemperatureStatus :=
  if temperature >? lit 40 then Temp_critical
  else if temperature >? lit 35 then Temp_fever
  else Temp_normal.

Definition determineTemperatureTrend (temperature : num) : Trend :=
  if temperature >? lit 30 then Trend_increasing
  else if temperature <? lit 15 then Trend_decreasing
  else Trend_stable.

Definition generateTemperatureDescription
    (temperature heatIslandEffect : num) (status : TemperatureStatus)
    : string :=
  let description :=
    ("Current temperature: " ++ toFixed temperature 1 ++ "°C")%string in
  let description :=
    if heatIslandEffect >? lit 3 then
      (description ++ ". Strong urban heat island effect detected (+"
         ++ toFixed heatIslandEffect 1 ++ "°C above surrounding areas).")%string
    else if heatIslandEffect >? lit 1 then
      (description ++ ". Moderate heat island effect (+"
         ++ toFixed heatIslandEffect 1 ++ "°C).")%string
    else
      (description ++ ". Minimal heat island effect.")%string in
  match status with
  | Temp_critical =>
      (description
         ++ " CRITICAL: Extreme heat conditions require immediate attention.")%string
  | Temp_fever =>
      (description
         ++ " Elevated temperatures detected - heat management needed.")%string
  | Temp_normal => description
  end.

Definition processWeatherData (response : WeatherResponse num)
    : TemperatureData :=
  let temperature := temp (main response) in
  let heatIslandEffect := estimateHeatIslandEffect temperature in
  let status := determineTemperatureStatus temperature in
  let trend := determineTemperatureTrend temperature in
  let description :=
    generateTemperatureDescription temperature heatIslandEffect status in
  {| td_temperature := temperature;
     td_heatIslandEffect := heatIslandEffect;
     td_status := status;
     td_trend := trend;
     td_description := description |}.

End WeatherService.

Arguments TemperatureData : clear implicits.

(* ===================================================================== *)
(** * EarthquakeService *)
(* ===================================================================== *)

Section EarthquakeService.
Context {num : Type} {N : JSNumber num}.
Local Open Scope js_scope.
Local Open Scope monad_scope.

(** What [processEarthquakeData] returns. *)
Record DisasterData : Type := {
  dd_disasterEvents : num;
  dd_pollutionHotspots : num;
  dd_status : InfectionStatus;
  dd_description : string
}.

Definition noDisasterData : DisasterData :=
  {| dd_disasterEvents := lit 0;
     dd_pollutionHotspots := lit 0;
     dd_status := Inf_clean;
     dd_description := "No recent natural disasters detected in the area." |}.

(** The age in days of an event, against a reading [now] of the clock:
    (Date.now() - eventTime.getTime()) / (1000 * 60 * 60 * 24); NaN for an
    invalid date. *)
Definition daysAgo (now : num) (earthquake : EarthquakeFeature num)
    : option num :=
  match TimeClip (time (properties earthquake)) with
  | Some eventTime =>
      Some ((now - eventTime) / (lit 1000 * lit 60 * lit 60 * lit 24))
  | None => None
  end.

(** The filter's callback: daysAgo <= 30, false when daysAgo is NaN. *)
Definition isRecent (earthquake : EarthquakeFeature num) : JS num bool :=
  now <- Date_now ;;
  ret match daysAgo now earthquake with
      | Some d => d <=? lit 30
      | None => false
      end.

Definition processEarthquakeData (response : USGSEarthquakeResponse num)
    : JS num DisasterData :=
  match features response with
  | None => ret noDisasterData
  | Some [] => ret noDisasterData
  | Some features =>
      recentEarthquakes <- filterM isRecent features ;;
      let disasterEvents := List.length recentEarthquakes in
      let pollutionHotspots := lit 0 in
      let count := digits (N.of_nat disasterEvents) in
      let '(status, description) :=
        if Nat.eqb disasterEvents 0 then
          (Inf_clean,
           "No recent natural disasters detected in the area."%string)
        else if Nat.leb disasterEvents 2 then
          (Inf_infected,
           ("Low disaster activity: " ++ count
              ++ " earthquake(s) in the last 30 days.")%string)
        else
          (Inf_critical,
           ("High disaster activity: " ++ count
              ++ " earthquake(s) in the last 30 days.")%string) in
      ret {| dd_disasterEvents := of_length disasterEvents;
             dd_pollutionHotspots := pollutionHotspots;
             dd_status := status;
             dd_description := description |}
  end.

End EarthquakeService.

Arguments DisasterData : clear implicits.

(* ===================================================================== *)
(** * DiagnosticEngine *)
(* ===================================================================== *)

Section DiagnosticEngine.
Context {num : Type} {N : JSNumber num}.
Local Open Scope string_scope.
Local Open Scope js_scope.

Record Thresholds : Type := {
  th_excellent : num;
  th_good : num;
  th_fair : num;
  th_poor : num;
  th_critical : num
}.

Definition HEALTH_THRESHOLDS : Thresholds :=
  {| th_excellent := lit 90;
     th_good := lit 75;
     th_fair := lit 60;
     th_poor := lit 40;
     th_critical := lit 0 |}.

Record Weights : Type := {
  w_heartRate : num;
  w_temperature : num;
  w_bloodOxygen : num;
  w_immuneSystem : num;
  w_infections : num
}.

Definition CATEGORY_WEIGHTS : Weights :=
  {| w_heartRate := lit 0.15;
     w_temperature := lit 0.20;
     w_bloodOxygen := lit 0.25;
     w_immuneSystem := lit 0.25;
     w_infections := lit 0.15 |}.

Definition calculateHeartRateScore (heartRate : HeartRate num) : num :=
  let score := hr_value heartRate in
  let score :=
    match hr_trend heartRate with
    | Trend_increasing => score + lit 5
    | Trend_decreasing => score - lit 5
    | Trend_stable => score
    end in
  let score :=
    match hr_status heartRate with
    | HR_critical => score * lit 0.5
    | HR_elevated => score * lit 0.8
    | HR_normal => score
    end in
  Math_max (lit 0) (Math_min (lit 100) score).

Definition calculateTemperatureScore (temperature : Temperature num) : num :=
  let score := lit 100 in
  let score :=
    if temp_value temperature >? lit 35 then score - lit 30
    else if temp_value temperature >? lit 30 then score - lit 20
    else if temp_value temperature >? lit 25 then score - lit 10
    else score in
  let score :=
    if heatIslandEffect temperature >? lit 5 then score - lit 25
    else if heatIslandEffect temperature >? lit 3 then score - lit 15
    else if heatIslandEffect temperature >? lit 1 then score - lit 5
    else score in
  let score :=
    match temp_trend temperature with
    | Trend_increasing => score - lit 10
    | Trend_decreasing => score + lit 5
    | Trend_stable => score
    end in
  let score :=
    match temp_status temperature with
    | Temp_critical => score * lit 0.3
    | Temp_fever => score * lit 0.6
    | Temp_normal => score
    end in
  Math_max (lit 0) (Math_min (lit 100) score).

Definition calculateAirQualityScore (bloodOxygen : BloodOxygen num) : num :=
  let score := lit 100 - bo_value bloodOxygen in
  let avgPollutants :=
    (no2 (pollutants bloodOxygen) + pm25 (pollutants bloodOxygen)
       + o3 (pollutants bloodOxygen)) / lit 3 in
  let score :=
    if avgPollutants >? lit 50 then score - lit 30
    else if avgPollutants >? lit 30 then score - lit 20
    else if avgPollutants >? lit 15 then score - lit 10
    else score in
  let score :=
    match bo_trend bloodOxygen with
    | AirTrend_worsening => score - lit 15
    | AirTrend_improving => score + lit 10
    | AirTrend_stable => score
    end in
  let score :=
    match bo_status bloodOxygen with
    | Air_hazardous => score * lit 0.2
    | Air_unhealthy => score * lit 0.5
    | Air_healthy => score
    end in
  Math_max (lit 0) (Math_min (lit 100) score).

Definition calculateGreenSpaceScore (immuneSystem : ImmuneSystem num) : num :=
  let score := greenSpaceCoverage immuneSystem in
  let score :=
    if ndvi immuneSystem >? lit 0.7 then score + lit 20
    else if ndvi immuneSystem >? lit 0.5 then score + lit 10
    else if ndvi immuneSystem <? lit 0.2 then score - lit 20
    else score in
  let score :=
    match im_trend immuneSystem with
    | GreenTrend_improving => score + lit 10
    | GreenTrend_declining => score - lit 15
    | GreenTrend_stable => score
    end in
  let score :=
    match im_status immuneSystem with
    | Green_compromised => score * lit 0.4
    | Green_weak => score * lit 0.7
    | Green_strong => score
    end in
  Math_max (lit 0) (Math_min (lit 100) score).

Definition calculateInfectionsScore (infections : Infections num) : num :=
  let score := lit 100 in
  let totalHazards :=
    disasterEvents infections + pollutionHotspots infections in
  let score := score - totalHazards * lit 15 in
  let score :=
    match inf_status infections with
    | Inf_critical => score * lit 0.2
    | Inf_infected => score * lit 0.5
    | Inf_clean => score
    end in
  Math_max (lit 0) (Math_min (lit 100) score).

Definition calculateCategoryScores (vitals : CityVitals num)
    : list (HealthScore num) :=
  [ {| category := "Heart Rate (Urban Activity)";
       hs_score := calculateHeartRateScore (heartRate vitals);
       weight := w_heartRate CATEGORY_WEIGHTS;
       hs_status := HeartRateStatus_string (hr_status (heartRate vitals)) |};
    {| category := "Temperature (Heat Island)";
       hs_score := calculateTemperatureScore (temperature vitals);
       weight := w_temperature CATEGORY_WEIGHTS;
       hs_status :=
         TemperatureStatus_string (temp_status (temperature vitals)) |};
    {| category := "Air Quality";
       hs_score := calculateAirQualityScore (bloodOxygen vitals);
       weight := w_bloodOxygen CATEGORY_WEIGHTS;
       hs_status :=
         AirQualityStatus_string (bo_status (bloodOxygen vitals)) |};
    {| category := "Green Space";
       hs_score := calculateGreenSpaceScore (immuneSystem vitals);
       weight := w_immuneSystem CATEGORY_WEIGHTS;
       hs_status :=
         GreenSpaceStatus_string (im_status (immuneSystem vitals)) |};
    {| category := "Environmental Hazards";
       hs_score := calculateInfectionsScore (infections vitals);
       weight := w_infections CATEGORY_WEIGHTS;
       hs_status :=
         InfectionStatus_string (inf_status (infections vitals)) |} ].

Definition calculateOverallScore (categoryScores : list (HealthScore num))
    : num :=
  let weightedSum :=
    fold_left (fun sum category => sum + hs_score category * weight category)
              categoryScores (lit 0) in
  Math_round weightedSum.

(** [a >= b] is [b <= a]. *)
Definition generateDiagnosisText (score : num) (vitals : CityVitals num)
    : string :=
  if lit 90 <=? score then
    "This city is in excellent health! All vital signs are strong, showing a well-balanced urban ecosystem with good air quality, adequate green space, and minimal environmental hazards."
  else if lit 75 <=? score then
    "The city shows good overall health with minor areas for improvement. Most vital signs are within normal ranges, but there may be some environmental concerns to address."
  else if lit 60 <=? score then
    "The city's health is fair but requires attention. Several vital signs indicate moderate stress, particularly in air quality or heat management. Immediate action is recommended."
  else if lit 40 <=? score then
    "The city is showing signs of poor health with multiple concerning vital signs. Environmental stress is evident, and comprehensive intervention is needed to restore urban wellness."
  else
    "CRITICAL: The city is in poor health with multiple critical vital signs. Immediate environmental intervention is required to prevent further degradation of urban health.".

Definition airQualityAdvice : list string :=
  [ "ðŸš— Implement low-emission zones and promote electric vehicle adoption";
       "ðŸŒ³ Increase urban tree canopy to filter air pollutants";
       "ðŸš´ Develop comprehensive bike lane networks to reduce vehicle emissions" ].

Definition heatIslandAdvice : list string :=
  [ "ðŸ¢ Mandate cool roof technologies for new and existing buildings";
       "ðŸŒ¿ Create green corridors to channel cool air through the city";
       "ðŸ’§ Implement water features and reflective surfaces in public spaces" ].

Definition greenSpaceAdvice : list string :=
  [ "ðŸŒ³ Establish pocket parks and community gardens in underserved areas";
       "ðŸ›¤ï¸ Develop green infrastructure corridors connecting parks and natural areas";
       "ðŸ˜ï¸ Require green space minimums in new development projects" ].

Definition disasterAdvice : list string :=
  [ "ðŸ›¡ï¸ Strengthen infrastructure resilience against natural disasters";
       "ðŸ“Š Implement early warning systems for environmental hazards";
       "ðŸ—ï¸ Develop climate-adaptive building codes and zoning regulations" ].

Definition urbanActivityAdvice : list string :=
  [ "ðŸ™ï¸ Promote mixed-use development to reduce urban sprawl";
       "ðŸšŒ Improve public transportation to reduce traffic congestion";
       "ðŸ’¡ Implement smart city technologies for efficient resource management" ].

Definition generalAdvice : list string :=
  [ "âœ… Continue monitoring urban health indicators";
       "ðŸ“ˆ Set up long-term environmental monitoring systems";
       "ðŸ¤ Engage community in urban health initiatives" ].

(** The pushes of [generateRecommendations], block by block. *)
Definition generateRecommendations
    (vitals : CityVitals num) (categoryScores : list (HealthScore num))
    : list string :=
  let recommendations : list string := [] in
  let recommendations :=
    match bo_status (bloodOxygen vitals) with
    | Air_hazardous | Air_unhealthy => recommendations ++ airQualityAdvice
    | Air_healthy => recommendations
    end%list in
  let recommendations :=
    match temp_status (temperature vitals) with
    | Temp_critical | Temp_fever => recommendations ++ heatIslandAdvice
    | Temp_normal => recommendations
    end%list in
  let recommendations :=
    match im_status (immuneSystem vitals) with
    | Green_weak | Green_compromised => recommendations ++ greenSpaceAdvice
    | Green_strong => recommendations
    end%list in
  let recommendations :=
    match inf_status (infections vitals) with
    | Inf_critical | Inf_infected => recommendations ++ disasterAdvice
    | Inf_clean => recommendations
    end%list in
  let recommendations :=
    match hr_status (heartRate vitals) with
    | HR_critical | HR_elevated => recommendations ++ urbanActivityAdvice
    | HR_normal => recommendations
    end%list in
  let recommendations :=
    if Nat.eqb (List.length recommendations) 0
    then (recommendations ++ generalAdvice)%list
    else recommendations in
  firstn 5 recommendations.

Definition determineSeverity (score : num) : Severity :=
  if lit 75 <=? score then Sev_low
  else if lit 60 <=? score then Sev_medium
  else if lit 40 <=? score then Sev_high
  else Sev_critical.

Definition generateDiagnosis (vitals : CityVitals num)
    : DiagnosticResult num :=
  let categoryScores := calculateCategoryScores vitals in
  let overallScore := calculateOverallScore categoryScores in
  let diagnosis := generateDiagnosisText overallScore vitals in
  let recommendations := generateRecommendations vitals categoryScores in
  let severity := determineSeverity overallScore in
  {| overallScore := overallScore;
     categoryScores := categoryScores;
     diagnosis := diagnosis;
     recommendations := recommendations;
     severity := severity |}.

End DiagnosticEngine.

(* ===================================================================== *)
(** * App: processCityVitals *)
(* ===================================================================== *)

Section App.
Context {num : Type} {N : JSNumber num} {F : JSNumberFormat num}.
Local Open Scope string_scope.
Local Open Scope js_scope.
Local Open Scope monad_scope.

(** The three results of [Promise.allSettled] are processed in turn, a
    rejected one leaving the default in place; the two categories without a
    provider are drawn from [Math.random], in the order the object literal
    evaluates them; the diagnosis is then written into [overallHealth]. *)
Definition processCityVitals
    (location : LocationData num)
    (airQualityResult : PromiseSettledResult (OpenAQResponse num))
    (earthquakeResult : PromiseSettledResult (USGSEarthquakeResponse num))
    (weatherResult : PromiseSettledResult (WeatherResponse num))
    : JS num (CityVitals num) :=
  let airQuality :=
    {| aqi := lit 0;
       aq_pollutants := {| no2 := lit 0; pm25 := lit 0; o3 := lit 0 |};
       aq_status := Air_healthy;
       aq_trend := AirTrend_stable |} in
  let airQuality :=
    match airQualityResult with
    | fulfilled value => processAirQualityData value
    | rejected _ => airQuality
    end in
  let disasterData :=
    {| dd_disasterEvents := lit 0;
       dd_pollutionHotspots := lit 0;
       dd_status := Inf_clean;
       dd_description := "No recent natural disasters detected." |} in
  disasterData <-
    match earthquakeResult with
    | fulfilled value => processEarthquakeData value
    | rejected _ => ret disasterData
    end ;;
  let temperatureData :=
    {| td_temperature := lit 20;
       td_heatIslandEffect := lit 0;
       td_status := Temp_normal;
       td_trend := Trend_stable;
       td_description := "Temperature data unavailable." |} in
  let temperatureData :=
    match weatherResult with
    | fulfilled value => processWeatherData value
    | rejected _ => temperatureData
    end in
  random1 <- Math_random ;;
  random2 <- Math_random ;;
  random3 <- Math_random ;;
  let mockVitals :=
    {| heartRate :=
         {| hr_value := Math_floor (random1 * lit 40) + lit 60;
            hr_status := HR_normal;
            hr_trend := Trend_stable;
            hr_description :=
              "Urban activity levels are normal based on nighttime light intensity." |};
       temperature :=
         {| temp_value := td_temperature temperatureData;
            heatIslandEffect := td_heatIslandEffect temperatureData;
            temp_status := td_status temperatureData;
            temp_trend := td_trend temperatureData;
            temp_description := td_description temperatureData |};
       bloodOxygen :=
         {| bo_value := aqi airQuality;
            pollutants := aq_pollutants airQuality;
            bo_status := aq_status airQuality;
            bo_trend := aq_trend airQuality;
            bo_description :=
              "Air quality index: " ++ toFixed (aqi airQuality) 0 ++ ". "
                ++ match aq_status airQuality with
                   | Air_healthy => "Good air quality."
                   | _ => "Air quality concerns detected."
                   end |};
       immuneSystem :=
         {| greenSpaceCoverage := Math_floor (random2 * lit 30) + lit 10;
            ndvi := random3 * lit 0.8 + lit 0.2;
            im_status := Green_strong;
            im_trend := GreenTrend_stable;
            im_description :=
              "Vegetation coverage and health are within normal ranges." |};
       infections :=
         {| disasterEvents := dd_disasterEvents disasterData;
            pollutionHotspots := dd_pollutionHotspots disasterData;
            inf_status := dd_status disasterData;
            inf_description := dd_description disasterData |};
       overallHealth :=
         {| score := lit 0;
            status := Overall_fair;
            oh_diagnosis := EmptyString;
            oh_recommendations := [] |} |} in
  let result := generateDiagnosis mockVitals in
  ret {| heartRate := heartRate mockVitals;
         temperature := temperature mockVitals;
         bloodOxygen := bloodOxygen mockVitals;
         immuneSystem := immuneSystem mockVitals;
         infections := infections mockVitals;
         overallHealth :=
           {| score := overallScore result;
              status :=
                match severity result with
                | Sev_low => Overall_excellent
                | Sev_medium => Overall_good
                | Sev_high => Overall_fair
                | Sev_critical => Overall_poor
                end;
              oh_diagnosis := diagnosis result;
              oh_recommendations := recommendations result |} |}.

End App.

(* ===================================================================== *)
(** * More of the host: Math.abs, isNaN, string conversion *)
(* ===================================================================== *)

(** [Math.abs] and the global [isNaN], on a number. *)
Class JSNumberTests (num : Type) : Type := {
  Math_abs : num -> num;
  isNaN : num -> bool
}.

(** No rational is NaN. *)
#[global] Instance Q_JSNumberTests : JSNumberTests Q := {|
  Math_abs := Qabs;
  isNaN _ := false
|}.

#[global] Instance float_JSNumberTests : JSNumberTests float := {|
  Math_abs := PrimFloat.abs;
  isNaN := PrimFloat.is_nan
|}.

(** The string a number turns into inside a template literal. *)
Class JSNumberToString (num : Type) : Type := {
  Number_toString : num -> string
}.

(* ===================================================================== *)
(** * MockDataService *)
(* ===================================================================== *)

Section MockDataService.
Context {num : Type} {N : JSNumber num} {T : JSNumberTests num}
        {F : JSNumberFormat num} {S : JSNumberToString num}.
Local Open Scope string_scope.
Local Open Scope js_scope.
Local Open Scope monad_scope.

Record MockLocation : Type := {
  ml_lat : num;
  ml_lon : num;
  ml_city : string;
  ml_country : string
}.

(** The entries of [MOCK_LOCATIONS], in the order [Object.entries] lists
    them. *)
Definition MOCK_LOCATIONS : list (string * MockLocation) :=
  [ ("Los Angeles",
     {| ml_lat := lit 34.0522; ml_lon := lit (-118.2437);
        ml_city := "Los Angeles"; ml_country := "USA" |});
    ("New York",
     {| ml_lat := lit 40.7128; ml_lon := lit (-74.0060);
        ml_city := "New York"; ml_country := "USA" |});
    ("London",
     {| ml_lat := lit 51.5074; ml_lon := lit (-0.1278);
        ml_city := "London"; ml_country := "UK" |});
    ("Tokyo",
     {| ml_lat := lit 35.6762; ml_lon := lit 139.6503;
        ml_city := "Tokyo"; ml_country := "Japan" |});
    ("Paris",
     {| ml_lat := lit 48.8566; ml_lon := lit 2.3522;
        ml_city := "Paris"; ml_country := "France" |}) ].

Record BaseVitals : Type := {
  b_heartRate : num;
  b_temperature : num;
  b_heatIslandEffect : num;
  b_airQuality : num;
  b_pollutants : Pollutants num;
  b_greenSpace : num;
  b_ndvi : num;
  b_disasters : num;
  b_pollutionHotspots : num
}.

Definition losAngelesVitals : BaseVitals :=
  {| b_heartRate := lit 75; b_temperature := lit 22;
     b_heatIslandEffect := lit 3.5; b_airQuality := lit 45;
     b_pollutants := {| no2 := lit 25; pm25 := lit 15; o3 := lit 35 |};
     b_greenSpace := lit 25; b_ndvi := lit 0.6;
     b_disasters := lit 1; b_pollutionHotspots := lit 3 |}.

(** [cityData[cityName] || cityData['Los Angeles']], for the names
    [getCityName] returns. *)
Definition getBaseVitalsForCity (cityName : string) : BaseVitals :=
  if String.eqb cityName "Los Angeles" then losAngelesVitals
  else if String.eqb cityName "New York" then
    {| b_heartRate := lit 85; b_temperature := lit 18;
       b_heatIslandEffect := lit 4.2; b_airQuality := lit 55;
       b_pollutants := {| no2 := lit 35; pm25 := lit 20; o3 := lit 40 |};
       b_greenSpace := lit 20; b_ndvi := lit 0.5;
       b_disasters := lit 0; b_pollutionHotspots := lit 5 |}
  else if String.eqb cityName "London" then
    {| b_heartRate := lit 70; b_temperature := lit 15;
       b_heatIslandEffect := lit 2.8; b_airQuality := lit 35;
       b_pollutants := {| no2 := lit 20; pm25 := lit 12; o3 := lit 25 |};
       b_greenSpace := lit 35; b_ndvi := lit 0.7;
       b_disasters := lit 0; b_pollutionHotspots := lit 2 |}
  else if String.eqb cityName "Tokyo" then
    {| b_heartRate := lit 90; b_temperature := lit 20;
       b_heatIslandEffect := lit 5.1; b_airQuality := lit 65;
       b_pollutants := {| no2 := lit 45; pm25 := lit 25; o3 := lit 50 |};
       b_greenSpace := lit 15; b_ndvi := lit 0.4;
       b_disasters := lit 2; b_pollutionHotspots := lit 4 |}
  else if String.eqb cityName "Paris" then
    {| b_heartRate := lit 65; b_temperature := lit 16;
       b_heatIslandEffect := lit 2.5; b_airQuality := lit 30;
       b_pollutants := {| no2 := lit 15; pm25 := lit 10; o3 := lit 20 |};
       b_greenSpace := lit 40; b_ndvi := lit 0.8;
       b_disasters := lit 0; b_pollutionHotspots := lit 1 |}
  else losAngelesVitals.

(** The test of the loop of [getCityName] on one entry. *)
Definition nearCity (location : LocationData num)
    (entry : string * MockLocation) : bool :=
  let cityData := snd entry in
  let latDiff := Math_abs (lat location - ml_lat cityData) in
  let lonDiff := Math_abs (lon location - ml_lon cityData) in
  (latDiff <? lit 0.1) && (lonDiff <? lit 0.1).

(** The loop returns at the first entry that passes the test. *)
Definition getCityName (location : LocationData num) : string :=
  match find (nearCity location) MOCK_LOCATIONS with
  | Some (cityName, _) => cityName
  | None => "Los Angeles"
  end.

(** [determineStatus]; of the three thresholds the third is not read. *)
Definition determineStatus (value : num) (thresholds : num * num * num)
    : HeartRateStatus :=
  let '(t0, t1, _) := thresholds in
  if value <=? t0 then HR_normal
  else if value <=? t1 then HR_elevated
  else HR_critical.

Definition Mock_determineTemperatureStatus (temperature : num)
    : TemperatureStatus :=
  if temperature >? lit 35 then Temp_critical
  else if temperature >? lit 30 then Temp_fever
  else Temp_normal.

Definition Mock_determineAirQualityStatus (aqi : num) : AirQualityStatus :=
  if aqi <=? lit 50 then Air_healthy
  else if aqi <=? lit 150 then Air_unhealthy
  else Air_hazardous.

Definition determineGreenSpaceStatus (coverage : num) : GreenSpaceStatus :=
  if lit 30 <=? coverage then Green_strong
  else if lit 15 <=? coverage then Green_weak
  else Green_compromised.

(** [total === 0]: equal as numbers. *)
Definition determineInfectionStatus (disasters pollution : num)
    : InfectionStatus :=
  let total := disasters + pollution in
  if (total <=? lit 0) && (lit 0 <=? total) then Inf_clean
  else if total <=? lit 3 then Inf_infected
  else Inf_critical.

(** [trends[Math.floor(Math.random() * trends.length)]]: an index off the
    array gives undefined, [None] here. *)
Definition trendAt (index : num) : option Trend :=
  if (index <=? lit 0) && (lit 0 <=? index) then Some Trend_increasing
  else if (index <=? lit 1) && (lit 1 <=? index) then Some Trend_stable
  else if (index <=? lit 2) && (lit 2 <=? index) then Some Trend_decreasing
  else None.

Definition getRandomTrend : JS num (option Trend) :=
  random <- Math_random ;;
  ret (trendAt (Math_floor (random * of_length 3))).

Definition generateHeartRateDescription (value : num) : string :=
  if value >? lit 90 then
    "High urban activity detected (" ++ toFixed value 0
      ++ " bpm). The city's heartbeat is elevated, indicating intense urban activity."
  else if value >? lit 70 then
    "Normal urban activity levels (" ++ toFixed value 0
      ++ " bpm). The city's heartbeat is steady and healthy."
  else
    "Low urban activity detected (" ++ toFixed value 0
      ++ " bpm). The city's heartbeat is calm and relaxed.".

Definition Mock_generateTemperatureDescription (temp heatIsland : num)
    : string :=
  let description := "Current temperature: " ++ toFixed temp 1 ++ "°C" in
  if heatIsland >? lit 4 then
    description ++ ". Strong urban heat island effect detected (+"
      ++ toFixed heatIsland 1 ++ "°C above surrounding areas)."
  else if heatIsland >? lit 2 then
    description ++ ". Moderate heat island effect (+"
      ++ toFixed heatIsland 1 ++ "°C)."
  else
    description ++ ". Minimal heat island effect.".

Definition generateAirQualityDescription (aqi : num) : string :=
  if aqi <=? lit 50 then
    "Excellent air quality (AQI: " ++ toFixed aqi 0
      ++ "). The city's air is clean and healthy."
  else if aqi <=? lit 100 then
    "Good air quality (AQI: " ++ toFixed aqi 0
      ++ "). Minor air quality concerns."
  else if aqi <=? lit 150 then
    "Moderate air quality (AQI: " ++ toFixed aqi 0
      ++ "). Sensitive groups should take precautions."
  else
    "Poor air quality (AQI: " ++ toFixed aqi 0
      ++ "). Air quality is unhealthy for all residents.".

Definition generateGreenSpaceDescription (coverage : num) : string :=
  if lit 30 <=? coverage then
    "Excellent green space coverage (" ++ toFixed coverage 0
      ++ "%). The city has a strong natural immune system."
  else if lit 15 <=? coverage then
    "Moderate green space coverage (" ++ toFixed coverage 0
      ++ "%). The city's natural immune system needs strengthening."
  else
    "Low green space coverage (" ++ toFixed coverage 0
      ++ "%). The city's natural immune system is compromised.".

Definition generateInfectionDescription (disasters pollution : num)
    : string :=
  let total := disasters + pollution in
  if (total <=? lit 0) && (lit 0 <=? total) then
    "No recent environmental hazards detected. The city is clean and healthy."
  else if total <=? lit 2 then
    "Low environmental stress (" ++ Number_toString total
      ++ " hazard(s) detected). Minor environmental concerns."
  else if total <=? lit 5 then
    "Moderate environmental stress (" ++ Number_toString total
      ++ " hazard(s) detected). Environmental monitoring needed."
  else
    "High environmental stress (" ++ Number_toString total
      ++ " hazard(s) detected). Immediate environmental intervention required.".

(** What [generateMockVitals] builds.  It is declared a [CityVitals], but
    its four trends all come from [getRandomTrend], whose strings are
    'increasing', 'stable' and 'decreasing' (or undefined), also where
    [CityVitals] has 'improving', 'worsening' or 'declining'. *)
Record MockHeartRate : Type := {
  mh_value : num;
  mh_status : HeartRateStatus;
  mh_trend : option Trend;
  mh_description : string
}.

Record MockTemperature : Type := {
  mt_value : num;
  mt_heatIslandEffect : num;
  mt_status : TemperatureStatus;
  mt_trend : option Trend;
  mt_description : string
}.

Record MockBloodOxygen : Type := {
  mb_value : num;
  mb_pollutants : Pollutants num;
  mb_status : AirQualityStatus;
  mb_trend : option Trend;
  mb_description : string
}.

Record MockImmuneSystem : Type := {
  mi_greenSpaceCoverage : num;
  mi_ndvi : num;
  mi_status : GreenSpaceStatus;
  mi_trend : option Trend;
  mi_description : string
}.

Record MockVitals : Type := {
  mv_heartRate : MockHeartRate;
  mv_temperature : MockTemperature;
  mv_bloodOxygen : MockBloodOxygen;
  mv_immuneSystem : MockImmuneSystem;
  mv_infections : Infections num;
  mv_overallHealth : OverallHealth num
}.

(** The draws come in the order the object literal evaluates them: the
    random factor, then the trends of heart rate, temperature, blood oxygen
    and immune system. *)
Definition generateMockVitals (location : LocationData num)
    : JS num MockVitals :=
  let cityName := getCityName location in
  let baseVitals := getBaseVitalsForCity cityName in
  random <- Math_random ;;
  let randomFactor := random * lit 0.3 - lit 0.15 in
  heartRateTrend <- getRandomTrend ;;
  temperatureTrend <- getRandomTrend ;;
  bloodOxygenTrend <- getRandomTrend ;;
  immuneSystemTrend <- getRandomTrend ;;
  ret {| mv_heartRate :=
           {| mh_value :=
                Math_round (b_heartRate baseVitals * (lit 1 + randomFactor));
              mh_status :=
                determineStatus
                  (b_heartRate baseVitals * (lit 1 + randomFactor))
                  (lit 60, lit 80, lit 100);
              mh_trend := heartRateTrend;
              mh_description :=
                generateHeartRateDescription
                  (b_heartRate baseVitals * (lit 1 + randomFactor)) |};
         mv_temperature :=
           {| mt_value :=
                Math_round ((b_temperature baseVitals + randomFactor * lit 5)
                            * lit 10) / lit 10;
              mt_heatIslandEffect :=
                Math_round ((b_heatIslandEffect baseVitals
                             + randomFactor * lit 2) * lit 10) / lit 10;
              mt_status :=
                Mock_determineTemperatureStatus
                  (b_temperature baseVitals + randomFactor * lit 5);
              mt_trend := temperatureTrend;
              mt_description :=
                Mock_generateTemperatureDescription
                  (b_temperature baseVitals + randomFactor * lit 5)
                  (b_heatIslandEffect baseVitals + randomFactor * lit 2) |};
         mv_bloodOxygen :=
           {| mb_value :=
                Math_round (b_airQuality baseVitals * (lit 1 + randomFactor));
              mb_pollutants :=
                {| no2 := Math_round (no2 (b_pollutants baseVitals)
                                      * (lit 1 + randomFactor * lit 0.5));
                   pm25 := Math_round (pm25 (b_pollutants baseVitals)
                                       * (lit 1 + randomFactor * lit 0.5));
                   o3 := Math_round (o3 (b_pollutants baseVitals)
                                     * (lit 1 + randomFactor * lit 0.5)) |};
              mb_status :=
                Mock_determineAirQualityStatus
                  (b_airQuality baseVitals * (lit 1 + randomFactor));
              mb_trend := bloodOxygenTrend;
              mb_description :=
                generateAirQualityDescription
                  (b_airQuality baseVitals * (lit 1 + randomFactor)) |};
         mv_immuneSystem :=
           {| mi_greenSpaceCoverage :=
                Math_round (b_greenSpace baseVitals * (lit 1 + randomFactor));
              mi_ndvi :=
                Math_round ((b_ndvi baseVitals + randomFactor * lit 0.2)
                            * lit 100) / lit 100;
              mi_status :=
                determineGreenSpaceStatus
                  (b_greenSpace baseVitals * (lit 1 + randomFactor));
              mi_trend := immuneSystemTrend;
              mi_description :=
                generateGreenSpaceDescription
                  (b_greenSpace baseVitals * (lit 1 + randomFactor)) |};
         mv_infections :=
           {| disasterEvents :=
                Math_max (lit 0)
                  (Math_round (b_disasters baseVitals + randomFactor * lit 2));
              pollutionHotspots :=
                Math_max (lit 0)
                  (Math_round (b_pollutionHotspots baseVitals
                               + randomFactor * lit 1));
              inf_status :=
                determineInfectionStatus
                  (b_disasters baseVitals + randomFactor * lit 2)
                  (b_pollutionHotspots baseVitals + randomFactor * lit 1);
              inf_description :=
                generateInfectionDescription
                  (b_disasters baseVitals + randomFactor * lit 2)
                  (b_pollutionHotspots baseVitals + randomFactor * lit 1) |};
         mv_overallHealth :=
           {| score := lit 0;
              status := Overall_fair;
              oh_diagnosis := EmptyString;
              oh_recommendations := [] |} |}.

End MockDataService.

Arguments MockLocation : clear implicits.
Arguments BaseVitals : clear implicits.
Arguments MockHeartRate : clear implicits.
Arguments MockTemperature : clear implicits.
Arguments MockBloodOxygen : clear implicits.
Arguments MockImmuneSystem : clear implicits.
Arguments MockVitals : clear implicits.

(* ===================================================================== *)
(** * DataValidator: src/services/dataValidator.ts *)
(* ===================================================================== *)

Section DataValidator.
Context {num : Type} {N : JSNumber num} {T : JSNumberTests num}.
Local Open Scope string_scope.
Local Open Scope list_scope.
Local Open Scope js_scope.
Local Open Scope monad_scope.

Record ValidationResult (D : Type) : Type := {
  isValid : bool;
  errors : list string;
  warnings : list string;
  data : option D
}.

Arguments isValid {D} _.
Arguments errors {D} _.
Arguments warnings {D} _.
Arguments data {D} _.

Record DataQualityReport : Type := {
  qr_overallScore : num;
  qr_issues : list string;
  qr_recommendations : list string;
  qr_timestamp : num
}.

(** The messages a check pushes: none, or the one given. *)
Definition pushIf (condition : bool) (message : string) : list string :=
  if condition then [message] else [].

(** [validateLocation].  The fields are numbers by their type, so of
    [typeof x !== 'number' || isNaN(x)] the second test is what is left. *)
Definition validateLocation (location : LocationData num)
    : JS num (ValidationResult (LocationData num)) :=
  let errors :=
    (if isNaN (lat location) then
       ["Latitude must be a valid number"]
     else
       pushIf ((lat location <? lit (-90)) || (lat location >? lit 90))
              "Latitude must be between -90 and 90 degrees")
    ++ (if isNaN (lon location) then
          ["Longitude must be a valid number"]
        else
          pushIf ((lon location <? lit (-180)) || (lon location >? lit 180))
                 "Longitude must be between -180 and 180 degrees") in
  if isNaN (timestamp location) then
    let errors := errors ++ ["Timestamp must be a valid number"] in
    ret {| isValid := Nat.eqb (List.length errors) 0;
           errors := errors;
           warnings := [];
           data := Some location |}
  else
    now <- Date_now ;;
    let age := now - timestamp location in
    let warnings :=
      pushIf (age >? lit 24 * lit 60 * lit 60 * lit 1000)
             "Location data is more than 24 hours old" in
    ret {| isValid := Nat.eqb (List.length errors) 0;
           errors := errors;
           warnings := warnings;
           data := Some location |}.

(** The errors of [validateCityVitals], in the order they are pushed. *)
Definition cityVitalsErrors (vitals : CityVitals num) : list string :=
  pushIf (isNaN (hr_value (heartRate vitals))) "Invalid heart rate value"
  ++ pushIf (isNaN (temp_value (temperature vitals)))
            "Invalid temperature value"
  ++ pushIf (isNaN (bo_value (bloodOxygen vitals)))
            "Invalid air quality value"
  ++ pushIf (isNaN (greenSpaceCoverage (immuneSystem vitals)))
            "Invalid green space coverage value"
  ++ pushIf (isNaN (ndvi (immuneSystem vitals))) "Invalid NDVI value"
  ++ pushIf (isNaN (score (overallHealth vitals)))
            "Invalid overall health score".

(** A range check, made only on a value that is a number. *)
Definition outside (value low high : num) : bool :=
  negb (isNaN value) && ((value <? low) || (value >? high)).

(** The warnings of [validateCityVitals], in the order they are pushed. *)
Definition cityVitalsWarnings (vitals : CityVitals num) : list string :=
  let pollutants := pollutants (bloodOxygen vitals) in
  pushIf (outside (hr_value (heartRate vitals)) (lit 0) (lit 200))
         "Heart rate value seems unrealistic"
  ++ pushIf (outside (temp_value (temperature vitals)) (lit (-50)) (lit 60))
            "Temperature value seems unrealistic"
  ++ pushIf (outside (bo_value (bloodOxygen vitals)) (lit 0) (lit 500))
            "Air quality value out of expected range"
  ++ pushIf (no2 pollutants <? lit 0) "Invalid NO2 value"
  ++ pushIf (pm25 pollutants <? lit 0) "Invalid PM2.5 value"
  ++ pushIf (o3 pollutants <? lit 0) "Invalid O3 value"
  ++ pushIf (outside (greenSpaceCoverage (immuneSystem vitals))
                     (lit 0) (lit 100))
            "Green space coverage out of expected range (0-100%)"
  ++ pushIf (outside (ndvi (immuneSystem vitals)) (lit (-1)) (lit 1))
            "NDVI value out of expected range (-1 to 1)"
  ++ pushIf (disasterEvents (infections vitals) <? lit 0)
            "Invalid disaster events count"
  ++ pushIf (pollutionHotspots (infections vitals) <? lit 0)
            "Invalid pollution hotspots count"
  ++ pushIf (outside (score (overallHealth vitals)) (lit 0) (lit 100))
            "Overall health score out of expected range (0-100)".

Definition validateCityVitals (vitals : CityVitals num)
    : ValidationResult (CityVitals num) :=
  let errors := cityVitalsErrors vitals in
  let warnings := cityVitalsWarnings vitals in
  {| isValid := Nat.eqb (List.length errors) 0;
     errors := errors;
     warnings := warnings;
     data := Some vitals |}.

Definition generateQualityReport (vitals : CityVitals num)
    : JS num DataQualityReport :=
  let validation := validateCityVitals vitals in
  let issues := errors validation ++ warnings validation in
  let overallScore := lit 100 in
  let overallScore :=
    overallScore - of_length (List.length (errors validation)) * lit 20 in
  let overallScore :=
    overallScore - of_length (List.length (warnings validation)) * lit 5 in
  let overallScore := Math_max (lit 0) overallScore in
  let recommendations :=
    pushIf (Nat.ltb 0 (List.length (errors validation)))
           "Fix critical data validation errors"
    ++ pushIf (Nat.ltb 0 (List.length (warnings validation)))
              "Review and address data quality warnings"
    ++ pushIf (overallScore <? lit 80) "Improve data quality and validation"
    ++ pushIf (overallScore <? lit 60)
              "Consider using alternative data sources" in
  now <- Date_now ;;
  ret {| qr_overallScore := overallScore;
         qr_issues := issues;
         qr_recommendations := recommendations;
         qr_timestamp := now |}.

(** [isDataStale]; a [maxAgeMs] left out is five minutes. *)
Definition isDataStale (timestamp : num) (maxAgeMs : option num)
    : JS num bool :=
  let maxAgeMs :=
    match maxAgeMs with
    | Some m => m
    | None => lit 5 * lit 60 * lit 1000
    end in
  now <- Date_now ;;
  ret (now - timestamp >? maxAgeMs).

End DataValidator.

Arguments ValidationResult : clear implicits.
Arguments isValid {D} _.
Arguments errors {D} _.
Arguments warnings {D} _.
Arguments data {D} _.
Arguments DataQualityReport : clear implicits.

(* ===================================================================== *)
(** * APITester *)
(* ===================================================================== *)

Inductive APITestStatus : Type :=
  Test_success | Test_error | Test_timeout.

Inductive APISuiteStatus : Type :=
  Suite_healthy | Suite_degraded | Suite_critical.

Section APITester.
Context {num : Type} {N : JSNumber num} {T : JSNumberTests num}.
Local Open Scope js_scope.

(** [APITestResult], without the sample data. *)
Record APITestResult : Type := {
  service : string;
  test_status : APITestStatus;
  responseTime : num;
  dataReceived : bool;
  errorMessage : option string
}.

Definition isSuccess (r : APITestResult) : bool :=
  match test_status r with
  | Test_success => true
  | _ => false
  end.

Definition isError (r : APITestResult) : bool :=
  match test_status r with
  | Test_error => true
  | _ => false
  end.

Definition determineOverallStatus (results : list APITestResult)
    : APISuiteStatus :=
  let successCount := of_length (List.length (filter isSuccess results)) in
  let totalCount := of_length (List.length results) in
  let successRate := successCount / totalCount in
  if lit 0.8 <=? successRate then Suite_healthy
  else if lit 0.5 <=? successRate then Suite_degraded
  else Suite_critical.

Record HealthSummary : Type := {
  totalAPIs : num;
  healthyAPIs : num;
  degradedAPIs : num;
  criticalAPIs : num;
  averageResponseTime : num
}.

(** [x || 0] on a number: 0 when [x] is NaN or a zero. *)
Definition orZero (x : num) : num :=
  if isNaN x || ((x <=? lit 0) && (lit 0 <=? x)) then lit 0 else x.

Definition getHealthSummary (results : list APITestResult) : HealthSummary :=
  let totalAPIs := of_length (List.length results) in
  let healthyAPIs := of_length (List.length (filter isSuccess results)) in
  let degradedAPIs :=
    of_length (List.length
      (filter (fun r => isError r && (responseTime r <? lit 10000))
              results)) in
  let criticalAPIs :=
    of_length (List.length
      (filter (fun r => isError r && (lit 10000 <=? responseTime r))
              results)) in
  let averageResponseTime :=
    orZero (fold_left (fun sum r => sum + responseTime r)
                      (filter isSuccess results) (lit 0)
            / healthyAPIs) in
  {| totalAPIs := totalAPIs;
     healthyAPIs := healthyAPIs;
     degradedAPIs := degradedAPIs;
     criticalAPIs := criticalAPIs;
     averageResponseTime := Math_round averageResponseTime |}.

End APITester.

Arguments APITestResult : clear implicits.
Arguments HealthSummary : clear implicits.

(* ===================================================================== *)
(** * CacheManager *)
(* ===================================================================== *)

(** A JavaScript [Map] with string keys: the entries in insertion order,
    no key twice.  [set] on a key that is there replaces its value where it
    stands. *)
Fixpoint Map_get {V : Type} (key : string) (m : list (string * V))
    : option V :=
  match m with
  | [] => None
  | (k, v) :: rest => if String.eqb k key then Some v else Map_get key rest
  end.

Fixpoint Map_set {V : Type} (key : string) (value : V)
    (m : list (string * V)) : list (string * V) :=
  match m with
  | [] => [(key, value)]
  | (k, v) :: rest =>
      if String.eqb k key then (k, value) :: rest
      else (k, v) :: Map_set key value rest
  end.

Fixpoint Map_delete {V : Type} (key : string) (m : list (string * V))
    : list (string * V) :=
  match m with
  | [] => []
  | (k, v) :: rest =>
      if String.eqb k key then rest else (k, v) :: Map_delete key rest
  end.

Module CacheManager.

Section Methods.
Context {num : Type} {N : JSNumber num} {T : JSNumberTests num} {D : Type}.
Local Open Scope js_scope.

Record CacheEntry : Type := {
  data : D;
  timestamp : num;
  ttl : num
}.

Record CacheConfig : Type := {
  defaultTTL : num;
  maxSize : num;
  cleanupInterval : num
}.

(** The counters start at 0 and go up by one: natural numbers. *)
Record Counters : Type := {
  hits : nat;
  misses : nat;
  totalRequests : nat;
  successfulRequests : nat;
  failedRequests : nat;
  totalResponseTime : num
}.

(** The fields of an instance, the cleanup timer left out. *)
Record Manager : Type := {
  cache : list (string * CacheEntry);
  config : CacheConfig;
  stats : Counters
}.

Record CacheStats : Type := {
  cs_size : num;
  cs_hitRate : num;
  cs_missRate : num;
  cs_totalRequests : num;
  cs_successfulRequests : num;
  cs_failedRequests : num;
  cs_averageResponseTime : num
}.

Definition noRequests : Counters :=
  {| hits := 0; misses := 0; totalRequests := 0; successfulRequests := 0;
     failedRequests := 0; totalResponseTime := lit 0 |}.

(** The constructor; a field the partial configuration does not have keeps
    its default. *)
Definition new (defaultTTL' maxSize' cleanupInterval' : option num)
    : Manager :=
  let orDefault (given : option num) (default : num) :=
    match given with Some x => x | None => default end in
  {| cache := [];
     config :=
       {| defaultTTL := orDefault defaultTTL' (lit 5 * lit 60 * lit 1000);
          maxSize := orDefault maxSize' (lit 100);
          cleanupInterval := orDefault cleanupInterval' (lit 60 * lit 1000) |};
     stats := noRequests |}.

Definition countMiss (s : Counters) : Counters :=
  {| hits := hits s; misses := S (misses s);
     totalRequests := S (totalRequests s);
     successfulRequests := successfulRequests s;
     failedRequests := failedRequests s;
     totalResponseTime := totalResponseTime s |}.

Definition countHit (s : Counters) : Counters :=
  {| hits := S (hits s); misses := misses s;
     totalRequests := S (totalRequests s);
     successfulRequests := successfulRequests s;
     failedRequests := failedRequests s;
     totalResponseTime := totalResponseTime s |}.

(** [Date.now() - entry.timestamp > entry.ttl], for a reading [now] of the
    clock. *)
Definition expired (now : num) (entry : CacheEntry) : bool :=
  now - timestamp entry >? ttl entry.

(** [get]: the data, or null, and the instance afterwards. *)
Definition get (now : num) (key : string) (this : Manager)
    : option D * Manager :=
  match Map_get key (cache this) with
  | None =>
      (None,
       {| cache := cache this; config := config this;
          stats := countMiss (stats this) |})
  | Some entry =>
      if expired now entry then
        (None,
         {| cache := Map_delete key (cache this); config := config this;
            stats := countMiss (stats this) |})
      else
        (Some (data entry),
         {| cache := cache this; config := config this;
            stats := countHit (stats this) |})
  end.

(** The loop of [evictOldest]: the key and time of the oldest entry so
    far, starting from the empty key and the clock. *)
Definition oldest (now : num) (entries : list (string * CacheEntry))
    : string * num :=
  fold_left
    (fun (acc : string * num) (e : string * CacheEntry) =>
       if timestamp (snd e) <? snd acc then (fst e, timestamp (snd e))
       else acc)
    entries (EmptyString, now).

(** [if (oldestKey)]: the empty key is falsy, and then nothing is
    deleted. *)
Definition evictOldest (now : num) (this : Manager) : Manager :=
  let oldestKey := fst (oldest now (cache this)) in
  if String.eqb oldestKey EmptyString then this
  else {| cache := Map_delete oldestKey (cache this);
          config := config this; stats := stats this |}.

(** A number is truthy unless it is NaN or a zero. *)
Definition truthy (x : num) : bool :=
  negb (isNaN x || ((x <=? lit 0) && (lit 0 <=? x))).

(** [ttl || this.config.defaultTTL], for a [ttl] that may be left out. *)
Definition ttlOrDefault (ttl' : option num) (this : Manager) : num :=
  match ttl' with
  | Some t => if truthy t then t else defaultTTL (config this)
  | None => defaultTTL (config this)
  end.

Definition set (now : num) (key : string) (data' : D) (ttl' : option num)
    (this : Manager) : Manager :=
  let this :=
    if maxSize (config this) <=? of_length (List.length (cache this))
    then evictOldest now this else this in
  let entry :=
    {| data := data'; timestamp := now; ttl := ttlOrDefault ttl' this |} in
  {| cache := Map_set key entry (cache this);
     config := config this; stats := stats this |}.

(** [has] deletes an expired entry, and counts nothing. *)
Definition has (now : num) (key : string) (this : Manager)
    : bool * Manager :=
  match Map_get key (cache this) with
  | None => (false, this)
  | Some entry =>
      if expired now entry then
        (false,
         {| cache := Map_delete key (cache this); config := config this;
            stats := stats this |})
      else (true, this)
  end.

Definition delete (key : string) (this : Manager) : bool * Manager :=
  (match Map_get key (cache this) with Some _ => true | None => false end,
   {| cache := Map_delete key (cache this); config := config this;
      stats := stats this |}).

Definition clear (this : Manager) : Manager :=
  {| cache := []; config := config this; stats := noRequests |}.

Definition recordRequest (success : bool) (responseTime : num)
    (this : Manager) : Manager :=
  let s := stats this in
  {| cache := cache this; config := config this;
     stats :=
       {| hits := hits s; misses := misses s;
          totalRequests := totalRequests s;
          successfulRequests :=
            if success then S (successfulRequests s)
            else successfulRequests s;
          failedRequests :=
            if success then failedRequests s else S (failedRequests s);
          totalResponseTime := totalResponseTime s + responseTime |} |}.

Definition getStats (this : Manager) : CacheStats :=
  let s := stats this in
  let hitRate :=
    if Nat.ltb 0 (totalRequests s)
    then of_length (hits s) / of_length (totalRequests s) else lit 0 in
  let missRate :=
    if Nat.ltb 0 (totalRequests s)
    then of_length (misses s) / of_length (totalRequests s) else lit 0 in
  let averageResponseTime :=
    if Nat.ltb 0 (successfulRequests s)
    then totalResponseTime s / of_length (successfulRequests s)
    else lit 0 in
  {| cs_size := of_length (List.length (cache this));
     cs_hitRate := Math_round (hitRate * lit 100) / lit 100;
     cs_missRate := Math_round (missRate * lit 100) / lit 100;
     cs_totalRequests := of_length (totalRequests s);
     cs_successfulRequests := of_length (successfulRequests s);
     cs_failedRequests := of_length (failedRequests s);
     cs_averageResponseTime := Math_round averageResponseTime |}.

Definition getSize (this : Manager) : num :=
  of_length (List.length (cache this)).

Definition isFull (this : Manager) : bool :=
  maxSize (config this) <=? of_length (List.length (cache this)).

(** [cleanup]: the expired keys are collected, then deleted. *)
Definition cleanup (now : num) (this : Manager) : Manager :=
  let expiredKeys :=
    map fst (filter (fun e => expired now (snd e)) (cache this)) in
  {| cache := fold_left (fun m key => Map_delete key m) expiredKeys
                        (cache this);
     config := config this; stats := stats this |}.

End Methods.

Arguments CacheEntry : clear implicits.
Arguments CacheConfig : clear implicits.
Arguments Counters : clear implicits.
Arguments Manager : clear implicits.
Arguments CacheStats : clear implicits.

End CacheManager.

(* ===================================================================== *)
(** * Fulfilled values of type [any] *)
(* ===================================================================== *)

(** [processCityVitals] declares its three results as
    [PromiseSettledResult<any>], and nothing checks the shape of a
    fulfilled value before a normaliser reads it.  Reading a property of
    [undefined] throws a TypeError, and a throw inside the async function
    rejects the promise it returns: no [CityVitals] comes back.

    The bodies below are the provider interfaces with what the two
    normalisers dereference made optional: the body itself, [main] of a
    weather body and [temp] of it ([response.main.temp], and then
    [temperature.toFixed(1)]), and [measurements] of a station
    ([result.measurements], whose elements [getAverageMeasurement] reads
    [parameter] of).  The earthquake result keeps its typed form. *)

(** How a call ends: with a value, or with a TypeError thrown on reading
    the named property of [undefined]. *)
Inductive Completion (A : Type) : Type :=
| Normal (value : A)
| Throw_TypeError (reading : string).

Arguments Normal {A} value.
Arguments Throw_TypeError {A} reading.

Section AnyBodies.
Context {num : Type} {N : JSNumber num} {F : JSNumberFormat num}.
Local Open Scope string_scope.
Local Open Scope monad_scope.

Record WeatherMainBody : Type := {
  body_temp : option num;
  body_feels_like : num;
  body_temp_min : num;
  body_temp_max : num;
  body_pressure : num;
  body_humidity : num
}.

Record WeatherBody : Type := {
  body_main : option WeatherMainBody;
  body_coord : num * num;
  body_name : string
}.

Record OpenAQResultBody : Type := {
  body_location : string;
  body_measurements : option (list (Measurement num))
}.

Record OpenAQBody : Type := {
  body_results : option (list OpenAQResultBody)
}.

(** [response.main.temp] throws a TypeError when [response] or
    [response.main] is undefined.  When it is [temp] that is undefined the
    comparisons of the normaliser are all false, and
    [temperature.toFixed(1)] in [generateTemperatureDescription] throws.
    Otherwise the body is a [WeatherResponse]. *)
Definition asWeatherResponse (response : option WeatherBody)
    : Completion (WeatherResponse num) :=
  match response with
  | None => Throw_TypeError "main"
  | Some response =>
      match body_main response with
      | None => Throw_TypeError "temp"
      | Some main =>
          match body_temp main with
          | None => Throw_TypeError "toFixed"
          | Some temp =>
              Normal {| main := {| temp := temp;
                                   feels_like := body_feels_like main;
                                   temp_min := body_temp_min main;
                                   temp_max := body_temp_max main;
                                   pressure := body_pressure main;
                                   humidity := body_humidity main |};
                        coord := body_coord response;
                        name := body_name response |}
          end
      end
  end.

Definition processWeatherData_any (response : option WeatherBody)
    : Completion (TemperatureData num) :=
  match asWeatherResponse response with
  | Normal response => Normal (processWeatherData response)
  | Throw_TypeError reading => Throw_TypeError reading
  end.

(** The stations of a body with their measurements, when no station is
    without them. *)
Fixpoint stationsOf (results : list OpenAQResultBody)
    : option (list (OpenAQResult num)) :=
  match results with
  | [] => Some []
  | result :: rest =>
      match body_measurements result, stationsOf rest with
      | Some measurements, Some stations =>
          Some ({| location := body_location result;
                   measurements := measurements |} :: stations)
      | _, _ => None
      end
  end.

(** [response.results] throws when [response] is undefined.  With results,
    [flatMap(result => result.measurements)] puts [undefined] into the
    array for a station without measurements, and the first filter of
    [getAverageMeasurement] then throws on [m.parameter]. *)
Definition asOpenAQResponse (response : option OpenAQBody)
    : Completion (OpenAQResponse num) :=
  match response with
  | None => Throw_TypeError "results"
  | Some response =>
      match body_results response with
      | None => Normal {| results := None |}
      | Some results =>
          match stationsOf results with
          | Some stations => Normal {| results := Some stations |}
          | None => Throw_TypeError "parameter"
          end
      end
  end.

Definition processAirQualityData_any (response : option OpenAQBody)
    : Completion (AirQualityData num) :=
  match asOpenAQResponse response with
  | Normal response => Normal (processAirQualityData response)
  | Throw_TypeError reading => Throw_TypeError reading
  end.

(** A settled result with its fulfilled value read as the interface has it,
    or the TypeError that reading it throws. *)
Definition settled {A B : Type} (read : A -> Completion B)
    (result : PromiseSettledResult A) : Completion (PromiseSettledResult B) :=
  match result with
  | fulfilled value =>
      match read value with
      | Normal value => Normal (fulfilled value)
      | Throw_TypeError reading => Throw_TypeError reading
      end
  | rejected reason => Normal (rejected reason)
  end.

(** [processCityVitals] on results of type [any].  Its statements run in
    order: the air-quality normaliser, which may throw; the earthquake
    normaliser, which reads the clock and changes nothing; the weather
    normaliser, which may throw; and the rest, which does not.  A throw ends
    the run before any number is drawn from [Math.random]. *)
Definition processCityVitals_any
    (location : LocationData num)
    (airQualityResult : PromiseSettledResult (option OpenAQBody))
    (earthquakeResult : PromiseSettledResult (USGSEarthquakeResponse num))
    (weatherResult : PromiseSettledResult (option WeatherBody))
    : JS num (Completion (CityVitals num)) :=
  match settled asOpenAQResponse airQualityResult with
  | Throw_TypeError reading => ret (Throw_TypeError reading)
  | Normal airQualityResult =>
      match settled asWeatherResponse weatherResult with
      | Throw_TypeError reading => ret (Throw_TypeError reading)
      | Normal weatherResult =>
          vitals <- processCityVitals location airQualityResult
                      earthquakeResult weatherResult ;;
          ret (Normal vitals)
      end
  end.

End AnyBodies.

Arguments WeatherMainBody : clear implicits.
Arguments WeatherBody : clear implicits.
Arguments OpenAQResultBody : clear implicits.
Arguments OpenAQBody : clear implicits.

(* ===================================================================== *)
(** * Readings of the code that the statements use *)
(* ===================================================================== *)

(** The index as a function of PM2.5, the one pollutant [calculateAQI]
    reads. *)
Definition aqiOfPM25 {num : Type} `{JSNumber num} (x : num) : num :=
  calculateAQI {| no2 := lit 0; pm25 := x; o3 := lit 0 |}.

(** Two snapshots agree on what the engine reads when they differ at most
    in the description strings and in [overallHealth]. *)
Definition sameReadings {num : Type} (v1 v2 : CityVitals num) : Prop :=
  hr_value (heartRate v1) = hr_value (heartRate v2)
  /\ hr_status (heartRate v1) = hr_status (heartRate v2)
  /\ hr_trend (heartRate v1) = hr_trend (heartRate v2)
  /\ temp_value (temperature v1) = temp_value (temperature v2)
  /\ heatIslandEffect (temperature v1) = heatIslandEffect (temperature v2)
  /\ temp_status (temperature v1) = temp_status (temperature v2)
  /\ temp_trend (temperature v1) = temp_trend (temperature v2)
  /\ bo_value (bloodOxygen v1) = bo_value (bloodOxygen v2)
  /\ pollutants (bloodOxygen v1) = pollutants (bloodOxygen v2)
  /\ bo_status (bloodOxygen v1) = bo_status (bloodOxygen v2)
  /\ bo_trend (bloodOxygen v1) = bo_trend (bloodOxygen v2)
  /\ greenSpaceCoverage (immuneSystem v1) = greenSpaceCoverage (immuneSystem v2)
  /\ ndvi (immuneSystem v1) = ndvi (immuneSystem v2)
  /\ im_status (immuneSystem v1) = im_status (immuneSystem v2)
  /\ im_trend (immuneSystem v1) = im_trend (immuneSystem v2)
  /\ disasterEvents (infections v1) = disasterEvents (infections v2)
  /\ pollutionHotspots (infections v1) = pollutionHotspots (infections v2)
  /\ inf_status (infections v1) = inf_status (infections v2).

(** An event lies within the last 30 days of a clock reading [now] when its
    age (now - time) / (1000 * 60 * 60 * 24) is at most 30. *)
Definition withinLast30Days {num : Type} `{JSNumber num}
    (now : num) (earthquake : EarthquakeFeature num) : bool :=
  match daysAgo now earthquake with
  | Some d => leb d (lit 30)
  | None => false
  end.

(** The events of a response, none when [features] is missing. *)
Definition eventsOf {num : Type} (response : USGSEarthquakeResponse num)
    : list (EarthquakeFeature num) :=
  match features response with
  | Some fs => fs
  | None => []
  end.

(** The count of the events of a response within the last 30 days. *)
Definition recentEvents {num : Type} `{JSNumber num}
    (now : num) (response : USGSEarthquakeResponse num) : nat :=
  List.length (filter (withinLast30Days now) (eventsOf response)).

(** ** "Within the last 30 days", in the words of the specification

    The two definitions below do not read [daysAgo]: they say in
    milliseconds what the specification says in days, and are what the
    filter of [processEarthquakeData] is compared with. *)





(** The infections [processCityVitals] starts from, and keeps when the
    earthquake request was rejected. *)
Definition defaultInfections {num : Type} `{JSNumber num} : Infections num :=
  {| disasterEvents := lit 0;
     pollutionHotspots := lit 0;
     inf_status := Inf_clean;
     inf_description := "No recent natural disasters detected." |}.

(** ** Sample inputs *)

(** A record whose five category scores are all 100. *)
Definition perfectVitals : CityVitals Q :=
  {| heartRate :=
       {| hr_value := 100; hr_status := HR_normal; hr_trend := Trend_stable;
          hr_description := "steady" |};
     temperature :=
       {| temp_value := 18; heatIslandEffect := 0.5;
          temp_status := Temp_normal; temp_trend := Trend_stable;
          temp_description := "mild" |};
     bloodOxygen :=
       {| bo_value := 0;
          pollutants := {| no2 := 0; pm25 := 0; o3 := 0 |};
          bo_status := Air_healthy; bo_trend := AirTrend_stable;
          bo_description := "clear" |};
     immuneSystem :=
       {| greenSpaceCoverage := 80; ndvi := 0.9;
          im_status := Green_strong; im_trend := GreenTrend_stable;
          im_description := "green" |};
     infections :=
       {| disasterEvents := 0; pollutionHotspots := 0;
          inf_status := Inf_clean; inf_description := "none" |};
     overallHealth :=
       {| score := 0; status := Overall_fair; oh_diagnosis := "pending";
          oh_recommendations := [] |} |}.

(** A run of the assembler: Los Angeles, one station reporting PM2.5 = 40
    and NO2 = 20 (and one reading that is null), a clock, and the three
    random draws 0.5, 0.25 and 0.75. *)
Definition sampleWorld : World Q :=
  {| clock := 1700000000000;
     entropy := fun n => match n with
                         | O => 0.5
                         | S O => 0.25
                         | _ => 0.75
                         end;
     drawn := 0 |}.

Definition sampleLocation : LocationData Q :=
  {| lat := 34.0522; lon := -118.2437; city := Some "Los Angeles"%string;
     country := Some "USA"%string; timestamp := 1700000000000 |}.

Definition sampleAirQuality : OpenAQResponse Q :=
  {| results :=
       Some [ {| location := "Downtown";
                 measurements :=
                   [ {| parameter := "pm25"; value := Some 40;
                        m_unit := "ug/m3"; lastUpdated := "2023-11-14" |};
                     {| parameter := "no2"; value := Some 20;
                        m_unit := "ug/m3"; lastUpdated := "2023-11-14" |};
                     {| parameter := "pm25"; value := None;
                        m_unit := "ug/m3"; lastUpdated := "2023-11-14" |} ]
              |} ] |}.

Definition sampleWeather (t : Q) : WeatherResponse Q :=
  {| main := {| temp := t; feels_like := t; temp_min := t; temp_max := t;
                pressure := 1013; humidity := 40 |};
     coord := (-118.2437, 34.0522);
     name := "Los Angeles" |}.

(** The same two responses as bodies of type [any], and three bodies that
    lack what a normaliser reads: a weather body without [main], one
    without [main.temp], and an air-quality body whose station has no
    [measurements]. *)
Definition sampleAirBody : OpenAQBody Q :=
  {| body_results :=
       Some [ {| body_location := "Downtown";
                 body_measurements :=
                   Some [ {| parameter := "pm25"; value := Some 40;
                             m_unit := "ug/m3"; lastUpdated := "2023-11-14" |};
                          {| parameter := "no2"; value := Some 20;
                             m_unit := "ug/m3"; lastUpdated := "2023-11-14" |};
                          {| parameter := "pm25"; value := None;
                             m_unit := "ug/m3"; lastUpdated := "2023-11-14" |} ]
              |} ] |}.

Definition sampleWeatherBody (t : Q) : WeatherBody Q :=
  {| body_main :=
       Some {| body_temp := Some t; body_feels_like := t;
               body_temp_min := t; body_temp_max := t;
               body_pressure := 1013; body_humidity := 40 |};
     body_coord := (-118.2437, 34.0522);
     body_name := "Los Angeles" |}.

Definition weatherBodyWithoutTemp : WeatherBody Q :=
  {| body_main :=
       Some {| body_temp := None; body_feels_like := 20;
               body_temp_min := 20; body_temp_max := 20;
               body_pressure := 1013; body_humidity := 40 |};
     body_coord := (-118.2437, 34.0522);
     body_name := "Los Angeles" |}.

Definition weatherBodyWithoutMain : WeatherBody Q :=
  {| body_main := None;
     body_coord := (-118.2437, 34.0522);
     body_name := "Los Angeles" |}.

Definition airBodyWithoutMeasurements : OpenAQBody Q :=
  {| body_results :=
       Some [ {| body_location := "Downtown"; body_measurements := None |} ]
  |}.

Definition sampleQuake (t : Q) : EarthquakeFeature Q :=
  {| properties := {| mag := 3.1; place := "10km N of somewhere"; time := t |};
     coordinates := (-118.2, 34.1, 10);
     feature_id := "ci0001" |}.

Definition sampleQuakes (ts : list Q) : USGSEarthquakeResponse Q :=
  {| type := "FeatureCollection"; features := Some (map sampleQuake ts) |}.

(** ** Further readings of the code *)

(** The values [getAverageMeasurement] averages: those of the
    measurements of the parameter that are neither null nor undefined. *)
Definition valuesOf {num : Type}
    (measurements : list (Measurement num)) (param : string) : list num :=
  defined (map value
    (filter (fun m => String.eqb (parameter m) param) measurements)).

(** The random numbers of a world lie in the interval [0, 1), as those of
    [Math.random] do. *)
Definition unitEntropy (w : World Q) : Prop :=
  forall n : nat, (0 <= entropy w n /\ entropy w n < 1)%Q.

(** A station, and a measurement of it. *)
Definition station {num : Type} (ms : list (Measurement num))
    : OpenAQResult num :=
  {| location := "station"; measurements := ms |}.

Definition reading {num : Type} (param : string) (v : option num)
    : Measurement num :=
  {| parameter := param; value := v; m_unit := "ug/m3";
     lastUpdated := "2023-11-14" |}.

(** A record with unhealthy air, a fever and weak green space. *)
Definition strainedVitals : CityVitals Q :=
  {| heartRate := heartRate perfectVitals;
     temperature :=
       {| temp_value := 37; heatIslandEffect := 5;
          temp_status := Temp_fever; temp_trend := Trend_increasing;
          temp_description := "hot" |};
     bloodOxygen :=
       {| bo_value := 120;
          pollutants := {| no2 := 30; pm25 := 43; o3 := 20 |};
          bo_status := Air_unhealthy; bo_trend := AirTrend_worsening;
          bo_description := "smog" |};
     immuneSystem :=
       {| greenSpaceCoverage := 12; ndvi := 0.3;
          im_status := Green_weak; im_trend := GreenTrend_declining;
          im_description := "sparse" |};
     infections := infections perfectVitals;
     overallHealth := overallHealth perfectVitals |}.

(** A result of a test of one API, and the nine results of a full suite
    in which one test failed. *)
Definition sampleResult (ok : bool) : APITestResult float :=
  {| service := "OpenWeatherMap";
     test_status := if ok then Test_success else Test_error;
     responseTime := 250%float;
     dataReceived := ok;
     errorMessage := if ok then None else Some "HTTP 503"%string |}.

Definition sampleSuite : list (APITestResult float) :=
  map sampleResult [true; true; true; true; false; true; true; true; true].

(** The results of a suite that timed out. *)
Definition timeouts {num : Type} (results : list (APITestResult num))
    : list (APITestResult num) :=
  filter (fun r => match test_status r with
                   | Test_timeout => true
                   | _ => false
                   end) results.

(** The counters of a cache add up: every request counted is a hit or a
    miss. *)
Definition countersAddUp {num : Type} (s : CacheManager.Counters num)
    : Prop :=
  (CacheManager.hits s + CacheManager.misses s
   = CacheManager.totalRequests s)%nat.

(** An entry of a cache written at [t], to live for five minutes. *)
Definition sampleEntry (t : Q) : CacheManager.CacheEntry Q string :=
  {| CacheManager.data := "payload"%string;
     CacheManager.timestamp := t;
     CacheManager.ttl := 300000 |}.

(** A cache for two entries. *)
Definition smallCache (entries : list (string * CacheManager.CacheEntry Q string))
    : CacheManager.Manager Q string :=
  {| CacheManager.cache := entries;
     CacheManager.config :=
       {| CacheManager.defaultTTL := 300000;
          CacheManager.maxSize := 2;
          CacheManager.cleanupInterval := 60000 |};
     CacheManager.stats := CacheManager.noRequests |}.

(* ===================================================================== *)
(** * Numbers: the facts the proofs use *)
(* ===================================================================== *)

(** ** Rationals *)

Lemma Qle_bool_spec (a b : Q) : BoolSpec (a <= b)%Q (b < a)%Q (Qle_bool a b).
Proof.
  destruct (Qle_bool a b) eqn:E; constructor.
  - now apply Qle_bool_iff.
  - apply Qnot_le_lt. intro H. apply Qle_bool_iff in H. congruence.
Qed.

(** Turns every comparison of the goal into its two cases, each with the
    inequality it stands for. *)
Ltac q_compare :=
  repeat match goal with
         | |- context [Qle_bool ?a ?b] => destruct (Qle_bool_spec a b)
         end.

(** Linear arithmetic, the divisions by a constant turned into products. *)
Ltac q_lra := unfold Qdiv in *; cbn [Qinv Qnum Qden] in *; lra.

Lemma Q_round_integer (z : Z) : Q_round (inject_Z z) = inject_Z z.
Proof.
  unfold Q_round. f_equal.
  assert (H : (Qfloor (inject_Z z + (1 # 2)) = z)%Z); [| exact H].
  assert (Hlo := Qfloor_le (inject_Z z + (1 # 2))).
  assert (Hhi := Qlt_floor (inject_Z z + (1 # 2))).
  set (f := Qfloor (inject_Z z + (1 # 2))) in *.
  assert (H1 : (inject_Z f < inject_Z (z + 1))%Q).
  { rewrite inject_Z_plus. change (inject_Z 1) with 1%Q.
    eapply Qle_lt_trans; [exact Hlo |]. lra. }
  assert (H2 : (inject_Z z < inject_Z (f + 1))%Q).
  { eapply Qle_lt_trans; [| exact Hhi]. lra. }
  rewrite <- Zlt_Qlt in H1, H2. lia.
Qed.

Lemma Q_round_comp (x y : Q) : (x == y)%Q -> Q_round x = Q_round y.
Proof.
  intros H. unfold Q_round. f_equal. apply Qfloor_comp. now rewrite H.
Qed.

(** Closes a case of a threshold lemma: the status read off is the one
    named, or the inequalities at hand contradict each other. *)
Ltac q_finish :=
  unfold not; intros; try discriminate; try reflexivity;
  repeat match goal with H : _ /\ _ |- _ => destruct H end;
  try lra;
  try (exfalso; match goal with H : _ -> False |- _ => apply H end;
       first [lra | split; lra]).

(** ** Binary64 *)

Lemma SFcompare_antisym (x y : SpecFloat.spec_float) :
  SpecFloat.SFcompare y x = option_map CompOpp (SpecFloat.SFcompare x y).
Proof.
  destruct x as [sx | sx | | sx mx ex], y as [sy | sy | | sy my ey];
    try destruct sx; try destruct sy; try reflexivity; simpl.
  all: rewrite (Z.compare_antisym ex ey);
    destruct (ex ?= ey)%Z; simpl; try reflexivity.
  all: rewrite (Pos.compare_cont_antisym mx my Eq); simpl;
    try rewrite CompOpp_involutive; reflexivity.
Qed.

(** a < b excludes b <= a. *)
Lemma float_ltb_not_leb (a b : float) :
  PrimFloat.ltb a b = true -> PrimFloat.leb b a = false.
Proof.
  rewrite FloatAxioms.ltb_spec, FloatAxioms.leb_spec. unfold SpecFloat.SFltb, SpecFloat.SFleb.
  rewrite (SFcompare_antisym (Prim2SF a) (Prim2SF b)).
  destruct (SpecFloat.SFcompare (Prim2SF a) (Prim2SF b)) as [[]|];
    simpl; congruence.
Qed.

Lemma SFcompare_None (x y : SpecFloat.spec_float) :
  SpecFloat.SFcompare x y = None ->
  x = SpecFloat.S754_nan \/ y = SpecFloat.S754_nan.
Proof.
  destruct x, y; simpl; try discriminate; auto.
Qed.

(** Of two numbers neither of which is NaN, one not below the other is
    above it. *)
Lemma float_not_leb_ltb (a b : float) :
  PrimFloat.leb a b = false ->
  PrimFloat.eqb a a = true -> PrimFloat.eqb b b = true ->
  PrimFloat.ltb b a = true.
Proof.
  rewrite FloatAxioms.ltb_spec, FloatAxioms.leb_spec, !FloatAxioms.eqb_spec.
  unfold SpecFloat.SFltb, SpecFloat.SFleb, SpecFloat.SFeqb.
  rewrite (SFcompare_antisym (Prim2SF a) (Prim2SF b)).
  destruct (SpecFloat.SFcompare (Prim2SF a) (Prim2SF b)) as [[]|] eqn:E;
    simpl; try congruence.
  intros _ Ha Hb. apply SFcompare_None in E.
  destruct E as [E | E]; rewrite E in *; simpl in *; discriminate.
Qed.

(** Whatever is below some number is no NaN. *)
Lemma float_leb_eqb (a b : float) :
  PrimFloat.leb a b = true -> PrimFloat.eqb a a = true.
Proof.
  rewrite FloatAxioms.leb_spec, FloatAxioms.eqb_spec. unfold SpecFloat.SFleb, SpecFloat.SFeqb.
  destruct (Prim2SF a) as [sa | sa | | sa ma ea],
           (Prim2SF b) as [sb | sb | | sb mb eb];
    simpl; try congruence; try (destruct sa; reflexivity).
  all: destruct sa; rewrite ?Z.compare_refl, ?Pos.compare_cont_refl;
    reflexivity.
Qed.

Lemma float_ltb_eqb (a b : float) :
  PrimFloat.ltb a b = true -> PrimFloat.eqb b b = true.
Proof.
  rewrite FloatAxioms.ltb_spec, FloatAxioms.eqb_spec. unfold SpecFloat.SFltb, SpecFloat.SFeqb.
  destruct (Prim2SF a) as [sa | sa | | sa ma ea],
           (Prim2SF b) as [sb | sb | | sb mb eb];
    simpl; try congruence; try (destruct sb; reflexivity).
  all: destruct sb; rewrite ?Z.compare_refl, ?Pos.compare_cont_refl;
    reflexivity.
Qed.

(** Of two numbers neither of which is NaN, one not above the other is
    below it or equal to it. *)
Lemma float_not_ltb_leb (a b : float) :
  PrimFloat.ltb a b = false ->
  PrimFloat.eqb a a = true -> PrimFloat.eqb b b = true ->
  PrimFloat.leb b a = true.
Proof.
  rewrite FloatAxioms.ltb_spec, FloatAxioms.leb_spec, !FloatAxioms.eqb_spec.
  unfold SpecFloat.SFltb, SpecFloat.SFleb, SpecFloat.SFeqb.
  rewrite (SFcompare_antisym (Prim2SF a) (Prim2SF b)).
  destruct (SpecFloat.SFcompare (Prim2SF a) (Prim2SF b)) as [[]|] eqn:E;
    simpl; try congruence.
  intros _ Ha Hb. apply SFcompare_None in E.
  destruct E as [E | E]; rewrite E in *; simpl in *; discriminate.
Qed.

Lemma SFcompare_Lt_trans (x y z : SpecFloat.spec_float) :
  SpecFloat.SFcompare x y = Some Lt ->
  SpecFloat.SFcompare y z = Some Lt ->
  SpecFloat.SFcompare x z = Some Lt.
Proof.
  destruct x as [sx | sx | | sx mx ex], y as [sy | sy | | sy my ey],
           z as [sz | sz | | sz mz ez];
    try destruct sx; try destruct sy; try destruct sz;
    simpl; try congruence.
  all: destruct (Z.compare_spec ex ey), (Z.compare_spec ey ez); subst;
    simpl; try congruence;
    rewrite ?Z.compare_refl; simpl;
    rewrite ?Pos.compare_cont_spec; simpl.
  all: try (destruct (Z.compare_spec ex ez); try lia; simpl; congruence).
  all: try (destruct (Z.compare_spec ey ez); try lia; simpl; congruence).
  all: idtac.
  all: repeat match goal with
       | |- context [(?a ?= ?b)%positive] =>
           destruct (Pos.compare_spec a b); subst; simpl
       end; try congruence; try lia.
Qed.

(** The order of binary64 numbers is transitive. *)
Lemma float_ltb_trans (a b c : float) :
  PrimFloat.ltb a b = true -> PrimFloat.ltb b c = true ->
  PrimFloat.ltb a c = true.
Proof.
  rewrite !FloatAxioms.ltb_spec. unfold SpecFloat.SFltb.
  destruct (SpecFloat.SFcompare (Prim2SF a) (Prim2SF b)) as [[]|] eqn:E1;
    try discriminate.
  destruct (SpecFloat.SFcompare (Prim2SF b) (Prim2SF c)) as [[]|] eqn:E2;
    try discriminate.
  now rewrite (SFcompare_Lt_trans _ _ _ E1 E2).
Qed.

(** The same for comparisons of binary64 numbers, kept as booleans. *)
Ltac f_finish :=
  unfold not; intros; try discriminate; try reflexivity;
  repeat match goal with H : _ /\ _ |- _ => destruct H end;
  try congruence; auto;
  try (exfalso; match goal with H : _ -> False |- _ => apply H end;
       first [congruence | split; congruence]).

(* ===================================================================== *)
(** * The status functions of the normalisers *)
(* ===================================================================== *)

(** C6.  The air-quality status is 'healthy' exactly when AQI <= 50,
    'unhealthy' exactly when 50 < AQI <= 150, and 'hazardous' in every other
    case; so 50 is healthy, 51 and 150 are unhealthy, 151 is hazardous.
    Stated over the rationals and over every binary64 number (a NaN is
    hazardous), with the four values evaluated in both. *)
Theorem determineAirQualityStatus_thresholds :
  (forall aqi : Q,
      (determineAirQualityStatus aqi = Air_healthy <-> aqi <= 50) /\
      (determineAirQualityStatus aqi = Air_unhealthy
         <-> 50 < aqi /\ aqi <= 150) /\
      (determineAirQualityStatus aqi = Air_hazardous
         <-> ~ aqi <= 50 /\ ~ (50 < aqi /\ aqi <= 150)))%Q
  /\ (forall aqi : float,
      (determineAirQualityStatus aqi = Air_healthy
         <-> PrimFloat.leb aqi 50 = true) /\
      (determineAirQualityStatus aqi = Air_unhealthy
         <-> PrimFloat.ltb 50 aqi = true /\ PrimFloat.leb aqi 150 = true) /\
      (determineAirQualityStatus aqi = Air_hazardous
         <-> PrimFloat.leb aqi 50 <> true
             /\ ~ (PrimFloat.ltb 50 aqi = true
                   /\ PrimFloat.leb aqi 150 = true)))%float
  /\ (determineAirQualityStatus 50%Q = Air_healthy
      /\ determineAirQualityStatus 51%Q = Air_unhealthy
      /\ determineAirQualityStatus 150%Q = Air_unhealthy
      /\ determineAirQualityStatus 151%Q = Air_hazardous)
  /\ (determineAirQualityStatus 50%float = Air_healthy
      /\ determineAirQualityStatus 51%float = Air_unhealthy
      /\ determineAirQualityStatus 150%float = Air_unhealthy
      /\ determineAirQualityStatus 151%float = Air_hazardous).
Proof.
  split; [| split; [| split; [| repeat split; vm_compute; reflexivity]]].
  - intros aqi. unfold determineAirQualityStatus. cbn.
    q_compare; repeat split; q_finish.
  - intros aqi. unfold determineAirQualityStatus. cbn.
    change (float_lit 50) with 50%float.
    change (float_lit 150) with 150%float.
    destruct (PrimFloat.leb aqi 50) eqn:E50.
    + repeat split; f_finish.
      apply float_ltb_not_leb in H. congruence.
    + destruct (PrimFloat.leb aqi 150) eqn:E150.
      * assert (Hlt : PrimFloat.ltb 50 aqi = true).
        { apply float_not_leb_ltb; [exact E50 | | reflexivity].
          exact (float_leb_eqb _ _ E150). }
        repeat split; f_finish.
      * repeat split; f_finish.
  - repeat split; vm_compute; reflexivity.
Qed.

(** C7.  The temperature status is 'critical' exactly when t > 40, 'fever'
    exactly when 35 < t <= 40, and 'normal' in every other case, both
    comparisons strict: 40 is 'fever' and 35 is 'normal', while 40.0001 is
    'critical' and 35.0001 is 'fever'.  Stated over the rationals and over
    every binary64 number (a NaN is normal). *)
Theorem determineTemperatureStatus_thresholds :
  (forall t : Q,
      (determineTemperatureStatus t = Temp_critical <-> 40 < t) /\
      (determineTemperatureStatus t = Temp_fever <-> 35 < t /\ t <= 40) /\
      (determineTemperatureStatus t = Temp_normal
         <-> ~ 40 < t /\ ~ (35 < t /\ t <= 40)))%Q
  /\ (forall t : float,
      (determineTemperatureStatus t = Temp_critical
         <-> PrimFloat.ltb 40 t = true) /\
      (determineTemperatureStatus t = Temp_fever
         <-> PrimFloat.ltb 35 t = true /\ PrimFloat.leb t 40 = true) /\
      (determineTemperatureStatus t = Temp_normal
         <-> PrimFloat.ltb 40 t <> true
             /\ ~ (PrimFloat.ltb 35 t = true
                   /\ PrimFloat.leb t 40 = true)))%float
  /\ (determineTemperatureStatus 40.0%Q = Temp_fever
      /\ determineTemperatureStatus 35.0%Q = Temp_normal
      /\ determineTemperatureStatus 40.0001%Q = Temp_critical
      /\ determineTemperatureStatus 35.0001%Q = Temp_fever)
  /\ (determineTemperatureStatus 40.0%float = Temp_fever
      /\ determineTemperatureStatus 35.0%float = Temp_normal
      /\ determineTemperatureStatus 40.0001%float = Temp_critical
      /\ determineTemperatureStatus 35.0001%float = Temp_fever).
Proof.
  split; [| split; [| split; [| repeat split; vm_compute; reflexivity]]].
  - intros t. unfold determineTemperatureStatus. cbn.
    q_compare; cbn; repeat split; q_finish.
  - intros t. unfold determineTemperatureStatus. cbn.
    change (float_lit 40) with 40%float.
    change (float_lit 35) with 35%float.
    destruct (PrimFloat.ltb 40 t) eqn:E40.
    + apply float_ltb_not_leb in E40 as E40'.
      repeat split; f_finish.
    + destruct (PrimFloat.ltb 35 t) eqn:E35.
      * assert (Hle : PrimFloat.leb t 40 = true).
        { apply float_not_ltb_leb; [exact E40 | reflexivity |].
          exact (float_ltb_eqb _ _ E35). }
        repeat split; f_finish.
      * repeat split; f_finish.
  - repeat split; vm_compute; reflexivity.
Qed.

(* ===================================================================== *)
(** * The air-quality index *)
(* ===================================================================== *)

(** The index depends on PM2.5 alone. *)
Lemma calculateAQI_pm25 {num : Type} `{JSNumber num} (p : Pollutants num) :
  calculateAQI p = aqiOfPM25 (pm25 p).
Proof. reflexivity. Qed.

(** Between two PM2.5 levels the index does not fall, and rises by at most
    five times the distance between them. *)
Lemma aqiOfPM25_slope (x y : Q) :
  (x <= y -> 0 <= aqiOfPM25 y - aqiOfPM25 x <= 5 * (y - x))%Q.
Proof.
  intros Hxy. unfold aqiOfPM25, calculateAQI. cbn.
  q_compare; q_lra.
Qed.

Lemma aqiOfPM25_range (x : Q) : (0 <= aqiOfPM25 x <= 500)%Q.
Proof.
  unfold aqiOfPM25, calculateAQI. cbn.
  q_compare; q_lra.
Qed.

(** C4.  The index is continuous at the breakpoints, where it takes the
    values 50, 100, 150, 250 and 350 exactly (in rational and in binary64
    arithmetic alike); it is non-decreasing in PM2.5, it changes by at most
    five times the change of PM2.5, which makes it continuous everywhere,
    and it never exceeds 500. *)
Theorem calculateAQI_breakpoints_monotone_capped :
  (forall p : Pollutants Q,
      (pm25 p == 12 -> calculateAQI p == 50) /\
      (pm25 p == 35.4 -> calculateAQI p == 100) /\
      (pm25 p == 55.4 -> calculateAQI p == 150) /\
      (pm25 p == 150.4 -> calculateAQI p == 250) /\
      (pm25 p == 250.4 -> calculateAQI p == 350))%Q
  /\ (forall p q : Pollutants Q,
      pm25 p <= pm25 q ->
      calculateAQI p <= calculateAQI q /\
      Qabs (calculateAQI q - calculateAQI p) <= 5 * Qabs (pm25 q - pm25 p))%Q
  /\ (forall p : Pollutants Q, calculateAQI p <= 500)%Q
  /\ (forall n o : float,
      calculateAQI {| no2 := n; pm25 := 12; o3 := o |} = 50 /\
      calculateAQI {| no2 := n; pm25 := 35.4; o3 := o |} = 100 /\
      calculateAQI {| no2 := n; pm25 := 55.4; o3 := o |} = 150 /\
      calculateAQI {| no2 := n; pm25 := 150.4; o3 := o |} = 250 /\
      calculateAQI {| no2 := n; pm25 := 250.4; o3 := o |} = 350)%float.
Proof.
  split; [| split; [| split]].
  - intros p. rewrite calculateAQI_pm25. generalize (pm25 p) as x. intros x.
    unfold aqiOfPM25, calculateAQI. cbn.
    repeat split; intros Hx; q_compare; q_lra.
  - intros p q Hpq. rewrite !calculateAQI_pm25.
    destruct (aqiOfPM25_slope _ _ Hpq) as [Hlo Hhi].
    split; [lra |].
    rewrite !Qabs_pos by lra. exact Hhi.
  - intros p. rewrite calculateAQI_pm25. apply aqiOfPM25_range.
  - intros n o. repeat split; vm_compute; reflexivity.
Qed.

(** The theorem at PM2.5 levels 30 and 40, one on each side of the
    breakpoint 35.4. *)
Lemma calculateAQI_breakpoints_monotone_capped_witness :
  let p := {| no2 := 0; pm25 := 30; o3 := 0 |} in
  let q := {| no2 := 0; pm25 := 40; o3 := 0 |} in
  (calculateAQI p <= calculateAQI q /\
   Qabs (calculateAQI q - calculateAQI p) <= 5 * Qabs (pm25 q - pm25 p))%Q.
Proof.
  intros p q.
  apply (proj1 (proj2 calculateAQI_breakpoints_monotone_capped) p q).
  vm_compute. discriminate.
Defined.

(** The index of a response lies between 0 and 500, the default of an empty
    response included. *)
Lemma processAirQualityData_range (response : OpenAQResponse Q) :
  (0 <= aqi (processAirQualityData response) <= 500)%Q.
Proof.
  unfold processAirQualityData.
  destruct (results response) as [[| r rs] |];
    cbn -[calculateAQI getAverageMeasurement flat_map]; try lra.
  rewrite calculateAQI_pm25. apply aqiOfPM25_range.
Qed.

(** C9, as the claim has it, fails for the weather normaliser: a reading of
    1000 degrees is handed on as 1000, above the 60 degrees from which the
    validator calls a temperature unrealistic, and is not clamped. *)
Lemma processWeatherData_not_clamped :
  (td_temperature (processWeatherData (sampleWeather 1000)) == 1000
   /\ 60 < td_temperature (processWeatherData (sampleWeather 1000))
   /\ td_temperature (processWeatherData (sampleWeather (-300))) < -50)%Q
  /\ td_status (processWeatherData (sampleWeather 1000)) = Temp_critical.
Proof. vm_compute. repeat split. Qed.

(** A message is among those a check pushes exactly when the check fires
    and the message is the one it pushes. *)
Lemma In_pushIf (condition : bool) (message m : string) :
  In m (pushIf condition message) <-> condition = true /\ message = m.
Proof.
  destruct condition; cbn; split; intros H.
  - destruct H as [H | []]. now split.
  - left. apply H.
  - destruct H.
  - destruct H. discriminate.
Qed.

(** The validator's warning about the temperature fires exactly on the
    range check of the temperature. *)
Lemma cityVitalsWarnings_temperature
    {num : Type} {N : JSNumber num} {T : JSNumberTests num}
    (vitals : CityVitals num) :
  In "Temperature value seems unrealistic"%string (cityVitalsWarnings vitals)
  <-> outside (temp_value (temperature vitals)) (lit (-50)) (lit 60) = true.
Proof.
  unfold cityVitalsWarnings. rewrite !in_app_iff, !In_pushIf.
  split.
  - intros H. repeat destruct H as [H | H]; destruct H as [H H'];
      try discriminate H'. exact H.
  - intros H. right. left. now split.
Qed.

(** C9, amended.  The air-quality index stays within 0 and 500 for every
    PM2.5 level that is a number, for [calculateAQI] and for the index of a
    normalised response; in binary64, levels of -5, 1000 and the two
    infinities give 0, 500, 500 and 0.  Only a NaN level gives an index
    outside the range (NaN), and a station that reports +Infinity and
    -Infinity has such an average.  The weather normaliser does not clamp:
    the temperature of its result is the provider's [main.temp], unchanged,
    in every model of numbers.  A temperature out of range is only flagged:
    [validateCityVitals] pushes the warning 'Temperature value seems
    unrealistic' exactly when the value is a number below -50 or above 60,
    and pushes no error for it. *)
Theorem calculateAQI_bounded_temperature_passed_on :
  (forall p : Pollutants Q, 0 <= calculateAQI p <= 500)%Q
  /\ (forall response : OpenAQResponse Q,
        0 <= aqi (processAirQualityData response) <= 500)%Q
  /\ (aqiOfPM25 (-5)%float = 0%float
      /\ aqiOfPM25 1000%float = 500%float
      /\ aqiOfPM25 infinity = 500%float
      /\ aqiOfPM25 neg_infinity = 0%float
      /\ PrimFloat.is_nan (aqiOfPM25 nan) = true)
  /\ (let reading (v : float) : Measurement float :=
        {| parameter := "pm25"; value := Some v; m_unit := "ug/m3";
           lastUpdated := "2023-11-14" |} in
      let response : OpenAQResponse float :=
        {| results :=
             Some [ {| location := "Downtown";
                       measurements := [reading infinity;
                                        reading neg_infinity] |} ] |} in
      PrimFloat.is_nan (pm25 (aq_pollutants (processAirQualityData response)))
      = true
      /\ PrimFloat.is_nan (aqi (processAirQualityData response)) = true)
  /\ (forall (num : Type) (N : JSNumber num) (F : JSNumberFormat num)
             (response : WeatherResponse num),
        td_temperature (processWeatherData response) = temp (main response))
  /\ (forall (num : Type) (N : JSNumber num) (T : JSNumberTests num)
             (vitals : CityVitals num),
        let value := temp_value (temperature vitals) in
        (In "Temperature value seems unrealistic"%string
            (warnings (validateCityVitals vitals))
         <-> isNaN value = false
             /\ (ltb value (lit (-50)) = true \/ ltb (lit 60) value = true))
        /\ (In "Invalid temperature value"%string
               (errors (validateCityVitals vitals))
            <-> isNaN value = true))
  /\ (forall vitals : CityVitals Q,
        In "Temperature value seems unrealistic"%string
           (warnings (validateCityVitals vitals))
        <-> (temp_value (temperature vitals) < -50
             \/ 60 < temp_value (temperature vitals))%Q).
Proof.
  split; [| split; [| split; [| split; [| split; [| split]]]]].
  - intros p. rewrite calculateAQI_pm25. apply aqiOfPM25_range.
  - apply processAirQualityData_range.
  - repeat split; vm_compute; reflexivity.
  - vm_compute. split; reflexivity.
  - intros num N F response. reflexivity.
  - intros num N T vitals value. split.
    + cbn [warnings validateCityVitals].
      rewrite cityVitalsWarnings_temperature. fold value. unfold outside.
      destruct (isNaN value), (ltb value (lit (-50))), (ltb (lit 60) value);
        cbn; intuition discriminate.
    + cbn [errors validateCityVitals]. unfold cityVitalsErrors.
      rewrite !in_app_iff, !In_pushIf. fold value.
      split.
      * intros H. repeat destruct H as [H | H]; destruct H as [H H'];
          try discriminate H'. exact H.
      * intros H. right. left. now split.
  - intros vitals. cbn [warnings validateCityVitals].
    rewrite cityVitalsWarnings_temperature. unfold outside.
    cbn [isNaN Q_JSNumberTests lit ltb Q_JSNumber negb andb].
    destruct (Qle_bool_spec (-50) (temp_value (temperature vitals)));
      destruct (Qle_bool_spec (temp_value (temperature vitals)) 60);
      cbn [negb orb]; split; intros H'; try reflexivity; try discriminate;
      try (destruct H'; lra); try (left; lra); try (right; lra).
Qed.

(* ===================================================================== *)
(** * The diagnostic engine *)
(* ===================================================================== *)

(** C1.  The overall score is [Math.round] of the weighted sum of the five
    category scores, as the reduce computes it from 0, with the weights
    0.15, 0.20, 0.25, 0.25 and 0.15, whatever the model of numbers; the
    weights add up to 1; and when the five category scores are 100 the
    overall score is 100.  The last two are stated in rational and in
    binary64 arithmetic.  A tie rounds up: 74.5 gives 75. *)
Theorem calculateOverallScore_weighted_sum :
  (forall (num : Type) (N : JSNumber num) (v : CityVitals num),
      overallScore (generateDiagnosis v)
      = Math_round
          (lit 0
           + calculateHeartRateScore (heartRate v) * lit 0.15
           + calculateTemperatureScore (temperature v) * lit 0.20
           + calculateAirQualityScore (bloodOxygen v) * lit 0.25
           + calculateGreenSpaceScore (immuneSystem v) * lit 0.25
           + calculateInfectionsScore (infections v) * lit 0.15)%js)
  /\ (w_heartRate CATEGORY_WEIGHTS + w_temperature CATEGORY_WEIGHTS
      + w_bloodOxygen CATEGORY_WEIGHTS + w_immuneSystem CATEGORY_WEIGHTS
      + w_infections CATEGORY_WEIGHTS == 1)%Q
  /\ (w_heartRate CATEGORY_WEIGHTS + w_temperature CATEGORY_WEIGHTS
      + w_bloodOxygen CATEGORY_WEIGHTS + w_immuneSystem CATEGORY_WEIGHTS
      + w_infections CATEGORY_WEIGHTS = 1)%float
  /\ (forall v : CityVitals Q,
      (calculateHeartRateScore (heartRate v) == 100 ->
       calculateTemperatureScore (temperature v) == 100 ->
       calculateAirQualityScore (bloodOxygen v) == 100 ->
       calculateGreenSpaceScore (immuneSystem v) == 100 ->
       calculateInfectionsScore (infections v) == 100 ->
       overallScore (generateDiagnosis v) = 100)%Q)
  /\ (forall v : CityVitals float,
      (calculateHeartRateScore (heartRate v) = 100 ->
       calculateTemperatureScore (temperature v) = 100 ->
       calculateAirQualityScore (bloodOxygen v) = 100 ->
       calculateGreenSpaceScore (immuneSystem v) = 100 ->
       calculateInfectionsScore (infections v) = 100 ->
       overallScore (generateDiagnosis v) = 100)%float)
  /\ (Math_round 74.5%Q = 75%Q /\ Math_round 74.5%float = 75%float).
Proof.
  split; [| split; [| split; [| split; [| split]]]].
  - intros num N v. reflexivity.
  - vm_compute. reflexivity.
  - vm_compute. reflexivity.
  - intros v H1 H2 H3 H4 H5.
    change (overallScore (generateDiagnosis v))
      with (Q_round
              (0 + calculateHeartRateScore (heartRate v) * 0.15
               + calculateTemperatureScore (temperature v) * 0.20
               + calculateAirQualityScore (bloodOxygen v) * 0.25
               + calculateGreenSpaceScore (immuneSystem v) * 0.25
               + calculateInfectionsScore (infections v) * 0.15)%Q).
    transitivity (Q_round (inject_Z 100)); [| apply Q_round_integer].
    apply Q_round_comp. rewrite H1, H2, H3, H4, H5. vm_compute. reflexivity.
  - intros v H1 H2 H3 H4 H5.
    change (overallScore (generateDiagnosis v))
      with (float_round
              (float_lit 0
               + calculateHeartRateScore (heartRate v) * float_lit 0.15
               + calculateTemperatureScore (temperature v) * float_lit 0.20
               + calculateAirQualityScore (bloodOxygen v) * float_lit 0.25
               + calculateGreenSpaceScore (immuneSystem v) * float_lit 0.25
               + calculateInfectionsScore (infections v) * float_lit 0.15)%float).
    rewrite H1, H2, H3, H4, H5. vm_compute. reflexivity.
  - split; vm_compute; reflexivity.
Qed.

(** The theorem at [perfectVitals]. *)
Lemma calculateOverallScore_weighted_sum_witness :
  overallScore (generateDiagnosis perfectVitals) = 100%Q.
Proof.
  apply (proj1 (proj2 (proj2 (proj2 calculateOverallScore_weighted_sum)))
           perfectVitals);
    vm_compute; reflexivity.
Defined.


(** C2.  The recommendations of a diagnosis are at least one and at most
    five; when every status is the good one (heart rate 'normal', blood
    oxygen 'healthy', temperature 'normal', immune system 'strong',
    infections 'clean') they are exactly the three general ones. *)
Theorem generateDiagnosis_recommendations :
  forall (num : Type) (N : JSNumber num) (v : CityVitals num),
    (1 <= List.length (recommendations (generateDiagnosis v)) <= 5)%nat
    /\ (hr_status (heartRate v) = HR_normal ->
        bo_status (bloodOxygen v) = Air_healthy ->
        temp_status (temperature v) = Temp_normal ->
        im_status (immuneSystem v) = Green_strong ->
        inf_status (infections v) = Inf_clean ->
        recommendations (generateDiagnosis v) = generalAdvice
        /\ List.length (recommendations (generateDiagnosis v)) = 3%nat).
Proof.
  intros num N v. unfold generateDiagnosis, generateRecommendations. cbn.
  split.
  - destruct (bo_status (bloodOxygen v)), (temp_status (temperature v)),
      (im_status (immuneSystem v)), (inf_status (infections v)),
      (hr_status (heartRate v)); cbn; lia.
  - intros -> -> -> -> ->. split; reflexivity.
Qed.

(** The theorem at [perfectVitals], whose statuses are all good. *)
Lemma generateDiagnosis_recommendations_witness :
  recommendations (generateDiagnosis perfectVitals) = generalAdvice
  /\ List.length (recommendations (generateDiagnosis perfectVitals)) = 3%nat.
Proof.
  apply (proj2 (generateDiagnosis_recommendations Q _ perfectVitals));
    reflexivity.
Defined.

(** The diagnosis is a function of the readings alone: the engine reads
    neither the descriptions nor [overallHealth], so snapshots that agree
    on the readings are diagnosed alike. *)
Lemma generateDiagnosis_reads {num : Type} {N : JSNumber num}
    (v1 v2 : CityVitals num) :
  sameReadings v1 v2 -> generateDiagnosis v1 = generateDiagnosis v2.
Proof.
  destruct v1 as [[] [] [] [] [] ?], v2 as [[] [] [] [] [] ?].
  unfold sameReadings. cbn.
  intros (-> & -> & -> & -> & -> & -> & -> & -> & -> & -> & -> & -> & ->
          & -> & -> & -> & -> & ->).
  reflexivity.
Qed.

(* ===================================================================== *)
(** * The earthquake normaliser *)
(* ===================================================================== *)

(** The filter of [processEarthquakeData] keeps the events within the last
    30 days of the clock, and leaves the world as it was. *)
Lemma filterM_isRecent {num : Type} {N : JSNumber num}
    (l : list (EarthquakeFeature num)) (w : World num) :
  runState (filterM isRecent l) w
  = (filter (withinLast30Days (clock w)) l, w).
Proof.
  induction l as [| e l IH]; [reflexivity |].
  cbn in *. rewrite IH. cbn. unfold withinLast30Days.
  destruct (daysAgo (clock w) e) as [d |]; [destruct (leb d (lit 30)) |];
    reflexivity.
Qed.

Lemma processEarthquakeData_run {num : Type} {N : JSNumber num}
    (response : USGSEarthquakeResponse num) (w : World num) :
  let n := recentEvents (clock w) response in
  let r := fst (runState (processEarthquakeData response) w) in
  snd (runState (processEarthquakeData response) w) = w
  /\ dd_disasterEvents r = of_length n
  /\ dd_pollutionHotspots r = lit 0
  /\ dd_status r
     = (if Nat.eqb n 0 then Inf_clean
        else if Nat.leb n 2 then Inf_infected else Inf_critical).
Proof.
  unfold recentEvents, eventsOf, processEarthquakeData.
  destruct (features response) as [[| e l] |]; cbn -[filterM filter];
    try (repeat split; reflexivity).
  rewrite (filterM_isRecent (e :: l) w). cbn -[filter].
  set (n := List.length (filter (withinLast30Days (clock w)) (e :: l))).
  destruct (Nat.eqb n 0); [| destruct (Nat.leb n 2)]; repeat split.
Qed.






(* ===================================================================== *)
(** * The assembler *)
(* ===================================================================== *)

(** Runs the binds of [processCityVitals], leaving the normalisers and the
    engine folded. *)
Ltac run_assembler :=
  cbn -[processAirQualityData processWeatherData processEarthquakeData
        generateDiagnosis calculateHeartRateScore calculateTemperatureScore
        calculateAirQualityScore calculateGreenSpaceScore
        calculateInfectionsScore determineSeverity Math_round Math_floor
        add mul lit toFixed String.append].

(** The severity of a diagnosis is the band of its score. *)
Lemma generateDiagnosis_severity {num : Type} {N : JSNumber num}
    (v : CityVitals num) :
  severity (generateDiagnosis v)
  = determineSeverity (overallScore (generateDiagnosis v)).
Proof. reflexivity. Qed.

(** What [processCityVitals] writes into [overallHealth], for every
    combination of settled results: the diagnosis of the record it
    returns. *)
Lemma processCityVitals_overallHealth
    {num : Type} {N : JSNumber num} {F : JSNumberFormat num}
    (location : LocationData num)
    (airQualityResult : PromiseSettledResult (OpenAQResponse num))
    (earthquakeResult : PromiseSettledResult (USGSEarthquakeResponse num))
    (weatherResult : PromiseSettledResult (WeatherResponse num))
    (w : World num) :
  let v := evalState (processCityVitals location airQualityResult
                        earthquakeResult weatherResult) w in
  let d := generateDiagnosis v in
  score (overallHealth v) = overallScore d
  /\ status (overallHealth v)
     = match severity d with
       | Sev_low => Overall_excellent
       | Sev_medium => Overall_good
       | Sev_high => Overall_fair
       | Sev_critical => Overall_poor
       end
  /\ oh_diagnosis (overallHealth v) = diagnosis d
  /\ oh_recommendations (overallHealth v) = recommendations d.
Proof.
  unfold evalState.
  destruct airQualityResult, earthquakeResult as [response |],
    weatherResult; run_assembler;
    try destruct (runState (processEarthquakeData response) w) as [d0 w0];
    run_assembler; repeat split.
Qed.

(** The bands of the severity, over the rationals. *)
Lemma determineSeverity_bands (s : Q) :
  ((determineSeverity s = Sev_low <-> 75 <= s)
   /\ (determineSeverity s = Sev_medium <-> 60 <= s /\ s < 75)
   /\ (determineSeverity s = Sev_high <-> 40 <= s /\ s < 60)
   /\ (determineSeverity s = Sev_critical <-> s < 40))%Q.
Proof.
  unfold determineSeverity. cbn. q_compare; repeat split; q_finish.
Qed.

(** With the earthquake request rejected and the other two fulfilled with
    typed responses: the infections are the default, the temperature and
    the blood oxygen are what the two normalisers produce, the overall
    score is the rounded weighted sum, and three random numbers are
    drawn. *)
Lemma processCityVitals_rejected_earthquake
    {num : Type} {N : JSNumber num} {F : JSNumberFormat num}
    (location : LocationData num) (air : OpenAQResponse num)
    (reason : string) (weather : WeatherResponse num) (w : World num) :
  let run := runState (processCityVitals location (fulfilled air)
                         (rejected reason) (fulfilled weather)) w in
  let v := fst run in
  infections v = defaultInfections
  /\ temp_value (temperature v) = temp (main weather)
  /\ temp_status (temperature v)
     = determineTemperatureStatus (temp (main weather))
  /\ bo_value (bloodOxygen v) = aqi (processAirQualityData air)
  /\ bo_status (bloodOxygen v) = aq_status (processAirQualityData air)
  /\ score (overallHealth v)
     = Math_round
         (lit 0 + calculateHeartRateScore (heartRate v) * lit 0.15
          + calculateTemperatureScore (temperature v) * lit 0.20
          + calculateAirQualityScore (bloodOxygen v) * lit 0.25
          + calculateGreenSpaceScore (immuneSystem v) * lit 0.25
          + calculateInfectionsScore defaultInfections * lit 0.15)%js
  /\ score (overallHealth v) = overallScore (generateDiagnosis v)
  /\ snd run
     = {| clock := clock w; entropy := entropy w;
          drawn := S (S (S (drawn w))) |}.
Proof.
  intros run v. subst v run. run_assembler. repeat split.
Qed.

(** Which bodies the two normalisers read without a throw. *)
Lemma asWeatherResponse_Normal {num : Type}
    (body : option (WeatherBody num)) :
  (exists weather, asWeatherResponse body = Normal weather)
  <-> (exists b m t, body = Some b /\ body_main b = Some m
                     /\ body_temp m = Some t).
Proof.
  unfold asWeatherResponse. split.
  - intros [weather H]. destruct body as [b |]; [| discriminate].
    destruct (body_main b) as [m |] eqn:Hm; [| discriminate].
    destruct (body_temp m) as [t |] eqn:Ht; [| discriminate].
    now exists b, m, t.
  - intros (b & m & t & -> & -> & ->). eexists. reflexivity.
Qed.

Lemma stationsOf_Some {num : Type} (results : list (OpenAQResultBody num)) :
  (exists stations, stationsOf results = Some stations)
  <-> Forall (fun r => exists ms, body_measurements r = Some ms) results.
Proof.
  induction results as [| r rs IH]; cbn.
  - split; [constructor | intros _; now eexists].
  - split.
    + intros [stations H].
      destruct (body_measurements r) as [ms |] eqn:Hms; [| discriminate].
      destruct (stationsOf rs) as [ss |]; [| discriminate].
      constructor; [now exists ms | apply IH; now eexists].
    + intros H. inversion H as [| r' rs' [ms Hms] Hrest]; subst.
      apply IH in Hrest. destruct Hrest as [ss ->]. rewrite Hms.
      now eexists.
Qed.

Lemma asOpenAQResponse_Normal {num : Type}
    (body : option (OpenAQBody num)) :
  (exists air, asOpenAQResponse body = Normal air)
  <-> (exists b, body = Some b
                 /\ match body_results b with
                    | None => True
                    | Some results =>
                        Forall (fun r => exists ms,
                                    body_measurements r = Some ms) results
                    end).
Proof.
  unfold asOpenAQResponse. split.
  - intros [air H]. destruct body as [b |]; [| discriminate].
    exists b. split; [reflexivity |].
    destruct (body_results b) as [results |]; [| exact I].
    apply stationsOf_Some.
    destruct (stationsOf results) as [ss |]; [now eexists | discriminate].
  - intros (b & -> & H).
    destruct (body_results b) as [results |]; [| now eexists].
    apply stationsOf_Some in H. destruct H as [ss ->]. now eexists.
Qed.

(** C5, as the claim has it, fails: the weather request is fulfilled, with a
    body that has no [main]; the earthquake request is rejected and the
    air-quality request fulfilled.  The assembler throws a TypeError on
    reading [temp], and returns no [CityVitals].  It does the same on
    reading [toFixed] when [main] has no [temp], and on reading [parameter]
    when the air-quality body has a station without [measurements]. *)
Lemma processCityVitals_any_throws :
  evalState (processCityVitals_any sampleLocation
               (fulfilled (Some sampleAirBody)) (rejected "timeout")
               (fulfilled (Some weatherBodyWithoutMain))) sampleWorld
  = Throw_TypeError "temp"
  /\ evalState (processCityVitals_any sampleLocation
                  (fulfilled (Some sampleAirBody)) (rejected "timeout")
                  (fulfilled (Some weatherBodyWithoutTemp))) sampleWorld
     = Throw_TypeError "toFixed"
  /\ evalState (processCityVitals_any sampleLocation
                  (fulfilled (Some airBodyWithoutMeasurements))
                  (rejected "timeout")
                  (fulfilled (Some (sampleWeatherBody 36.26)))) sampleWorld
     = Throw_TypeError "parameter".
Proof. repeat split. Qed.

(** C5, amended.  When the earthquake request is rejected and the other two
    are fulfilled with bodies that have what the normalisers read (a
    weather body with [main.temp]; an air-quality body each of whose
    stations has [measurements]), the assembler does not throw: it returns
    a record whose infections are the default {disasterEvents: 0,
    pollutionHotspots: 0, status: 'clean'}, whose temperature and blood
    oxygen are the ones the two normalisers produce, and whose overall
    score is the rounded weighted sum of the four other category scores and
    of the score of that default, which is 100 (in rational and in binary64
    arithmetic); the run draws its three random numbers and changes nothing
    else.  The assembler returns a record exactly for such bodies: when a
    fulfilled body is undefined, a weather body has no [main] or no
    [main.temp], or a station has no [measurements], it throws a TypeError,
    before any random number is drawn. *)
Theorem processCityVitals_any_seismic_rejected :
  (forall (num : Type) (N : JSNumber num) (F : JSNumberFormat num)
          (location : LocationData num)
          (airBody : option (OpenAQBody num)) (air : OpenAQResponse num)
          (reason : string)
          (weatherBody : option (WeatherBody num))
          (weather : WeatherResponse num) (w : World num),
      asOpenAQResponse airBody = Normal air ->
      asWeatherResponse weatherBody = Normal weather ->
      let run := runState (processCityVitals_any location (fulfilled airBody)
                             (rejected reason) (fulfilled weatherBody)) w in
      exists v : CityVitals num,
        fst run = Normal v
        /\ infections v = defaultInfections
        /\ temp_value (temperature v) = temp (main weather)
        /\ temp_status (temperature v)
           = determineTemperatureStatus (temp (main weather))
        /\ bo_value (bloodOxygen v) = aqi (processAirQualityData air)
        /\ bo_status (bloodOxygen v) = aq_status (processAirQualityData air)
        /\ score (overallHealth v)
           = Math_round
               (lit 0 + calculateHeartRateScore (heartRate v) * lit 0.15
                + calculateTemperatureScore (temperature v) * lit 0.20
                + calculateAirQualityScore (bloodOxygen v) * lit 0.25
                + calculateGreenSpaceScore (immuneSystem v) * lit 0.25
                + calculateInfectionsScore defaultInfections * lit 0.15)%js
        /\ score (overallHealth v) = overallScore (generateDiagnosis v)
        /\ snd run
           = {| clock := clock w; entropy := entropy w;
                drawn := S (S (S (drawn w))) |})
  /\ (forall (num : Type) (N : JSNumber num) (F : JSNumberFormat num)
             (location : LocationData num)
             (airBody : option (OpenAQBody num)) (reason : string)
             (weatherBody : option (WeatherBody num)) (w : World num),
      let run := runState (processCityVitals_any location (fulfilled airBody)
                             (rejected reason) (fulfilled weatherBody)) w in
      ((exists v, fst run = Normal v)
       <-> (exists b, airBody = Some b
                      /\ match body_results b with
                         | None => True
                         | Some results =>
                             Forall (fun r => exists ms,
                                         body_measurements r = Some ms)
                                    results
                         end)
           /\ (exists b m t, weatherBody = Some b /\ body_main b = Some m
                             /\ body_temp m = Some t))
      /\ ((exists reading, fst run = Throw_TypeError reading) -> snd run = w))
  /\ (disasterEvents (@defaultInfections Q _) = 0%Q
      /\ pollutionHotspots (@defaultInfections Q _) = 0%Q
      /\ inf_status (@defaultInfections Q _) = Inf_clean
      /\ calculateInfectionsScore (@defaultInfections Q _) = 100%Q)
  /\ (disasterEvents (@defaultInfections float _) = 0%float
      /\ pollutionHotspots (@defaultInfections float _) = 0%float
      /\ inf_status (@defaultInfections float _) = Inf_clean
      /\ calculateInfectionsScore (@defaultInfections float _) = 100%float)
  /\ (exists v : CityVitals Q,
      evalState (processCityVitals_any sampleLocation
                   (fulfilled (Some sampleAirBody)) (rejected "timeout")
                   (fulfilled (Some (sampleWeatherBody 36.26)))) sampleWorld
      = Normal v
      /\ score (overallHealth v) = 42%Q
      /\ status (overallHealth v) = Overall_fair
      /\ List.length (oh_recommendations (overallHealth v)) = 5%nat).
Proof.
  split; [| split; [| split; [| split]]].
  - intros num N F location airBody air reason weatherBody weather w
      Hair Hweather run.
    pose proof (processCityVitals_rejected_earthquake
                  location air reason weather w) as H.
    cbv zeta in H.
    assert (Hany :
      run = (Normal (fst (runState (processCityVitals location (fulfilled air)
                                      (rejected reason) (fulfilled weather))
                            w)),
             snd (runState (processCityVitals location (fulfilled air)
                              (rejected reason) (fulfilled weather)) w))).
    { subst run. unfold processCityVitals_any, settled.
      rewrite Hair, Hweather. cbn.
      destruct (runState (processCityVitals location (fulfilled air)
                            (rejected reason) (fulfilled weather)) w).
      reflexivity. }
    rewrite Hany. cbn [fst snd].
    eexists. split; [reflexivity | exact H].
  - intros num N F location airBody reason weatherBody w run. subst run.
    rewrite <- asOpenAQResponse_Normal, <- asWeatherResponse_Normal.
    unfold processCityVitals_any, settled.
    destruct (asOpenAQResponse airBody) as [air | r1];
      [destruct (asWeatherResponse weatherBody) as [weather | r2] |].
    + split.
      * split; [intros _; split; eexists; reflexivity |].
        intros _. cbn.
        destruct (runState (processCityVitals location (fulfilled air)
                              (rejected reason) (fulfilled weather)) w).
        eexists. reflexivity.
      * intros [reading H]. cbn in H.
        destruct (runState (processCityVitals location (fulfilled air)
                              (rejected reason) (fulfilled weather)) w).
        discriminate.
    + split; [| reflexivity].
      split; [intros [v H]; discriminate |].
      intros [_ [weather H]]. discriminate.
    + split; [| reflexivity].
      split; [intros [v H]; discriminate |].
      intros [[air H] _]. discriminate.
  - repeat split.
  - repeat split; vm_compute; reflexivity.
  - eexists. split; [reflexivity |]. vm_compute. repeat split.
Qed.

(** The theorem at the sample bodies. *)
Lemma processCityVitals_any_seismic_rejected_witness :
  exists v : CityVitals Q,
    fst (runState (processCityVitals_any sampleLocation
                     (fulfilled (Some sampleAirBody)) (rejected "timeout")
                     (fulfilled (Some (sampleWeatherBody 36.26))))
           sampleWorld)
    = Normal v
    /\ infections v = defaultInfections.
Proof.
  destruct (proj1 processCityVitals_any_seismic_rejected
              Q _ _ sampleLocation (Some sampleAirBody) sampleAirQuality
              "timeout"%string (Some (sampleWeatherBody 36.26))
              (sampleWeather 36.26) sampleWorld eq_refl eq_refl)
    as (v & Hv & Hinf & _).
  exists v. split; assumption.
Defined.

(** C10.  For every combination of settled results and every world, the
    status of [overallHealth] is read off the severity of the diagnosis:
    'excellent' exactly when it is 'low', 'good' exactly when 'medium',
    'fair' exactly when 'high', 'poor' exactly when 'critical'; so it is
    one of these four and never 'critical'.  Over the rationals the status
    is 'poor' exactly when the score is below 40, a score of 0 included,
    'fair' from 40, 'good' from 60 and 'excellent' from 75; a run that
    scores 39 is 'poor'. *)
Theorem processCityVitals_status_never_critical :
  (forall (num : Type) (N : JSNumber num) (F : JSNumberFormat num)
          (location : LocationData num)
          (airQualityResult : PromiseSettledResult (OpenAQResponse num))
          (earthquakeResult :
             PromiseSettledResult (USGSEarthquakeResponse num))
          (weatherResult : PromiseSettledResult (WeatherResponse num))
          (w : World num),
      let v := evalState (processCityVitals location airQualityResult
                            earthquakeResult weatherResult) w in
      let d := generateDiagnosis v in
      (status (overallHealth v) = Overall_excellent <-> severity d = Sev_low)
      /\ (status (overallHealth v) = Overall_good <-> severity d = Sev_medium)
      /\ (status (overallHealth v) = Overall_fair <-> severity d = Sev_high)
      /\ (status (overallHealth v) = Overall_poor
          <-> severity d = Sev_critical)
      /\ status (overallHealth v) <> Overall_critical)
  /\ (forall (location : LocationData Q)
             (airQualityResult : PromiseSettledResult (OpenAQResponse Q))
             (earthquakeResult :
                PromiseSettledResult (USGSEarthquakeResponse Q))
             (weatherResult : PromiseSettledResult (WeatherResponse Q))
             (w : World Q),
      let v := evalState (processCityVitals location airQualityResult
                            earthquakeResult weatherResult) w in
      ((status (overallHealth v) = Overall_excellent
        <-> 75 <= score (overallHealth v))
       /\ (status (overallHealth v) = Overall_good
           <-> 60 <= score (overallHealth v) /\ score (overallHealth v) < 75)
       /\ (status (overallHealth v) = Overall_fair
           <-> 40 <= score (overallHealth v) /\ score (overallHealth v) < 60)
       /\ (status (overallHealth v) = Overall_poor
           <-> score (overallHealth v) < 40))%Q)
  /\ (let v := evalState (processCityVitals sampleLocation
                            (fulfilled sampleAirQuality) (rejected "timeout")
                            (fulfilled (sampleWeather 45))) sampleWorld in
      score (overallHealth v) = 39%Q
      /\ status (overallHealth v) = Overall_poor).
Proof.
  split; [| split].
  - intros num N F location a e t w v d.
    destruct (processCityVitals_overallHealth location a e t w)
      as (_ & Hs & _).
    fold v in Hs. fold d in Hs. rewrite Hs.
    destruct (severity d); repeat split; intros; try discriminate;
      reflexivity.
  - intros location a e t w v.
    destruct (processCityVitals_overallHealth location a e t w)
      as (Hscore & Hs & _).
    fold v in Hscore, Hs. rewrite Hs, generateDiagnosis_severity, <- Hscore.
    destruct (determineSeverity_bands (score (overallHealth v)))
      as (Hlow & Hmed & Hhigh & Hcrit).
    destruct (determineSeverity (score (overallHealth v)));
      repeat match goal with
             | H : ?s = ?s <-> _ |- _ => apply proj1 in H; specialize (H eq_refl)
             | H : _ = _ <-> _ |- _ => clear H
             end;
      repeat split; q_finish; exfalso; lra.
  - vm_compute. repeat split.
Qed.

(* ===================================================================== *)
(** * Further properties: more facts about numbers *)
(* ===================================================================== *)

Lemma Qfloor_bounds (x : Q) (lo hi : Z) :
  (inject_Z lo <= x -> x < inject_Z hi ->
   inject_Z lo <= inject_Z (Qfloor x) /\ inject_Z (Qfloor x) <= inject_Z (hi - 1))%Q.
Proof.
  intros Hlo Hhi.
  assert (H1 := Qfloor_le x). assert (H2 := Qlt_floor x).
  split; rewrite <- Zle_Qle.
  - apply Z.lt_succ_r. rewrite Zlt_Qlt. unfold Z.succ.
    eapply Qle_lt_trans; [exact Hlo | exact H2].
  - apply Z.lt_le_pred. rewrite Zlt_Qlt.
    eapply Qle_lt_trans; [exact H1 | exact Hhi].
Qed.

(** [Math.round] does not change the order. *)
Lemma Q_round_le (x y : Q) : (x <= y -> Q_round x <= Q_round y)%Q.
Proof.
  intros H. unfold Q_round. rewrite <- Zle_Qle.
  apply Qfloor_resp_le. lra.
Qed.

(** [Math.round] stays within integer bounds. *)
Lemma Q_round_bounds (x : Q) (lo hi : Z) :
  (inject_Z lo <= x -> x <= inject_Z hi ->
   inject_Z lo <= Q_round x /\ Q_round x <= inject_Z hi)%Q.
Proof.
  intros Hlo Hhi. split.
  - rewrite <- (Q_round_integer lo). now apply Q_round_le.
  - rewrite <- (Q_round_integer hi). now apply Q_round_le.
Qed.

(** The comparisons of the goal turned into their cases, innermost
    first, so that no case is left with a conditional in it. *)
Ltac q_cases :=
  repeat match goal with
         | |- context [Qle_bool ?a ?b] =>
             lazymatch a with
             | context [Qle_bool _ _] => fail
             | _ =>
                 lazymatch b with
                 | context [Qle_bool _ _] => fail
                 | _ => destruct (Qle_bool_spec a b); cbn [negb andb orb]
                 end
             end
         end.

(** What the scores end with: a value between 0 and 100. *)
Lemma clamp_range (s : Q) :
  (0 <= Math_max 0 (Math_min 100 s) <= 100)%Q.
Proof. cbn. q_cases; cbn; lra. Qed.

Lemma clamp_inside (s : Q) :
  (0 <= s <= 100 -> Math_max 0 (Math_min 100 s) == s)%Q.
Proof. intros H. cbn. q_cases; cbn; lra. Qed.

(** ** Binary64: the clamp *)

(** Below is at most. *)
Lemma float_ltb_leb (a b : float) :
  PrimFloat.ltb a b = true -> PrimFloat.leb a b = true.
Proof.
  rewrite FloatAxioms.ltb_spec, FloatAxioms.leb_spec.
  unfold SpecFloat.SFltb, SpecFloat.SFleb.
  destruct (SpecFloat.SFcompare (Prim2SF a) (Prim2SF b)) as [[]|];
    simpl; congruence.
Qed.

Lemma float_is_nan_eqb (a : float) :
  PrimFloat.is_nan a = false -> PrimFloat.eqb a a = true.
Proof.
  unfold PrimFloat.is_nan. destruct (PrimFloat.eqb a a); [reflexivity |].
  discriminate.
Qed.

(** What the scores end with, in binary64: NaN, or a value between 0 and
    100. *)
Lemma float_clamp_range (s : float) :
  let r := float_max 0 (float_min 100 s) in
  PrimFloat.is_nan r = true
  \/ (PrimFloat.leb 0 r = true /\ PrimFloat.leb r 100 = true).
Proof.
  intros r. subst r. unfold float_min.
  change (PrimFloat.is_nan 100) with false. cbv iota.
  change (PrimFloat.get_sign 100) with false. cbv iota.
  destruct (PrimFloat.is_nan s) eqn:Hnan.
  - left. unfold float_max. change (PrimFloat.is_nan 0) with false.
    cbv iota. rewrite Hnan. exact Hnan.
  - right. pose proof (float_is_nan_eqb s Hnan) as Hs.
    destruct (PrimFloat.ltb 100 s) eqn:Hhi.
    + vm_compute. split; reflexivity.
    + assert (Hle : PrimFloat.leb s 100 = true).
      { apply float_not_ltb_leb; [exact Hhi | reflexivity | exact Hs]. }
      assert (Hmin : (if PrimFloat.ltb s 100 then s else s) = s)
        by (destruct (PrimFloat.ltb s 100); reflexivity).
      rewrite Hmin. unfold float_max.
      change (PrimFloat.is_nan 0) with false. cbv iota. rewrite Hnan.
      change (PrimFloat.get_sign 0) with false. cbv iota.
      destruct (PrimFloat.ltb 0 s) eqn:Hpos.
      * split; [now apply float_ltb_leb | exact Hle].
      * assert (H0 : (if PrimFloat.ltb s 0 then 0%float else 0%float)
                     = 0%float)
          by (destruct (PrimFloat.ltb s 0); reflexivity).
        rewrite H0. vm_compute. split; reflexivity.
Qed.

(* ===================================================================== *)
(** * Further properties: the air-quality normaliser *)
(* ===================================================================== *)

(** What [getAverageMeasurement] computes, in terms of the values it
    averages. *)
Lemma getAverageMeasurement_values {num : Type} {N : JSNumber num}
    (ms : list (Measurement num)) (param : string) :
  getAverageMeasurement ms param
  = match valuesOf ms param with
    | [] => lit 0
    | vs => (fold_left (fun sum val => sum + val) vs (lit 0)
             / of_length (List.length vs))%js
    end.
Proof.
  unfold getAverageMeasurement. fold (valuesOf ms param).
  destruct (valuesOf ms param); reflexivity.
Qed.

Lemma getAverageMeasurement_nil {num : Type} {N : JSNumber num}
    (ms : list (Measurement num)) (param : string) :
  valuesOf ms param = [] -> getAverageMeasurement ms param = lit 0.
Proof.
  intros H. rewrite getAverageMeasurement_values, H. reflexivity.
Qed.

Lemma valuesOf_app {num : Type} (ms1 ms2 : list (Measurement num))
    (param : string) :
  valuesOf (ms1 ++ ms2) param = valuesOf ms1 param ++ valuesOf ms2 param.
Proof.
  unfold valuesOf, defined.
  now rewrite filter_app, map_app, flat_map_app.
Qed.

(** The values averaged are those of the measurements of the parameter,
    null and undefined left out. *)
Lemma valuesOf_In {num : Type} (ms : list (Measurement num))
    (param : string) (v : num) :
  In v (valuesOf ms param)
  <-> exists m, In m ms /\ parameter m = param /\ value m = Some v.
Proof.
  unfold valuesOf, defined. rewrite in_flat_map. split.
  - intros (o & Ho & Hv). apply in_map_iff in Ho.
    destruct Ho as (m & <- & Hm). apply filter_In in Hm.
    destruct Hm as [Hm Hp]. apply String.eqb_eq in Hp.
    destruct (value m) as [x |] eqn:E; [| destruct Hv].
    destruct Hv as [<- | []]. now exists m.
  - intros (m & Hm & Hp & Hv). exists (Some v). split; [| now left].
    rewrite <- Hv. apply in_map. apply filter_In. split; [exact Hm |].
    now apply String.eqb_eq.
Qed.

(** X1.  [getAverageMeasurement] is 0 when no measurement of the parameter
    carries a value; otherwise it is the sum of the values that are there,
    added to 0 from left to right, divided by their number, in every model
    of numbers.  The values are those of the measurements of the parameter,
    null left out; measurements of other parameters, and null values, do
    not change the result.  In binary64 the result is rounded: three
    readings of 0.1 average 0.10000000000000002, and readings of +Infinity
    and -Infinity average NaN. *)
Theorem getAverageMeasurement_mean :
  (forall (num : Type) (N : JSNumber num)
          (ms : list (Measurement num)) (param : string),
      valuesOf ms param = [] -> getAverageMeasurement ms param = lit 0)
  /\ (forall (num : Type) (N : JSNumber num)
             (ms : list (Measurement num)) (param : string),
      valuesOf ms param <> [] ->
      getAverageMeasurement ms param
      = (fold_left (fun sum val => sum + val) (valuesOf ms param) (lit 0)
         / of_length (List.length (valuesOf ms param)))%js)
  /\ (forall (num : Type) (ms : list (Measurement num)) (param : string)
             (v : num),
      In v (valuesOf ms param)
      <-> exists m, In m ms /\ parameter m = param /\ value m = Some v)
  /\ (forall (num : Type) (N : JSNumber num)
             (ms1 ms2 : list (Measurement num)) (m : Measurement num)
             (param : string),
      String.eqb (parameter m) param = false \/ value m = None ->
      getAverageMeasurement (ms1 ++ m :: ms2) param
      = getAverageMeasurement (ms1 ++ ms2) param)
  /\ (getAverageMeasurement
        [reading "pm25" (Some 40); reading "no2" (Some 20);
         reading "pm25" None; reading "pm25" (Some 50)] "pm25" == 45)%Q
  /\ (getAverageMeasurement
        [reading "pm25" (Some 0.1); reading "pm25" (Some 0.1);
         reading "pm25" (Some 0.1)] "pm25" = 0.10000000000000002
      /\ PrimFloat.is_nan
           (getAverageMeasurement
              [reading "pm25" (Some infinity);
               reading "pm25" (Some neg_infinity)] "pm25") = true)%float.
Proof.
  split; [| split; [| split; [| split; [| split]]]].
  - intros num N ms param. apply getAverageMeasurement_nil.
  - intros num N ms param Hne. rewrite getAverageMeasurement_values.
    destruct (valuesOf ms param); [congruence | reflexivity].
  - intros num ms param v. apply valuesOf_In.
  - intros num N ms1 ms2 m param Hm.
    rewrite !getAverageMeasurement_values.
    replace (valuesOf (ms1 ++ m :: ms2) param)
      with (valuesOf (ms1 ++ ms2) param); [reflexivity |].
    rewrite !valuesOf_app. f_equal.
    unfold valuesOf. cbn [filter].
    destruct Hm as [Hm | Hm].
    + now rewrite Hm.
    + destruct (String.eqb (parameter m) param); [| reflexivity].
      cbn. now rewrite Hm.
  - vm_compute. reflexivity.
  - split; vm_compute; reflexivity.
Qed.

(** The theorem at the sample readings, whose PM2.5 values are 40 and 50:
    their sum, 90, divided by 2. *)
Lemma getAverageMeasurement_mean_witness :
  let ms := [reading "pm25" (Some 40%Q); reading "no2" (Some 20%Q);
             reading "pm25" None; reading "pm25" (Some 50%Q)] in
  getAverageMeasurement ms "pm25"
  = (fold_left (fun sum val => sum + val) (valuesOf ms "pm25") (lit 0)
     / of_length (List.length (valuesOf ms "pm25")))%js.
Proof.
  intros ms.
  apply (proj1 (proj2 getAverageMeasurement_mean) Q _ ms "pm25"%string).
  vm_compute. discriminate.
Defined.

(** X2.  The status of a normalised response is always the status of the
    index it carries, the default of an empty response included (rational
    and binary64 arithmetic).  The trend is not treated alike: a response
    with no station gets 'stable', while a response whose stations carry no
    usable measurement gets index 0, zero pollutants, 'healthy' and, from
    [determineTrend], 'improving'. *)
Theorem processAirQualityData_status_and_default :
  (forall response : OpenAQResponse Q,
      aq_status (processAirQualityData response)
      = determineAirQualityStatus (aqi (processAirQualityData response)))
  /\ (forall response : OpenAQResponse float,
      aq_status (processAirQualityData response)
      = determineAirQualityStatus (aqi (processAirQualityData response)))
  /\ (forall (num : Type) (N : JSNumber num) (response : OpenAQResponse num),
      results response = None \/ results response = Some [] ->
      processAirQualityData response = noAirQualityData
      /\ aq_trend (processAirQualityData response) = AirTrend_stable)
  /\ (forall (response : OpenAQResponse Q) (r : OpenAQResult Q)
             (rs : list (OpenAQResult Q)),
      results response = Some (r :: rs) ->
      (forall param, valuesOf (flat_map measurements (r :: rs)) param = []) ->
      (aqi (processAirQualityData response) == 0)%Q
      /\ aq_pollutants (processAirQualityData response)
         = {| no2 := 0; pm25 := 0; o3 := 0 |}
      /\ aq_status (processAirQualityData response) = Air_healthy
      /\ aq_trend (processAirQualityData response) = AirTrend_improving).
Proof.
  split; [| split; [| split]].
  - intros response. unfold processAirQualityData.
    destruct (results response) as [[| r rs] |]; reflexivity.
  - intros response. unfold processAirQualityData.
    destruct (results response) as [[| r rs] |];
      try reflexivity; vm_compute; reflexivity.
  - intros num N response [H | H]; unfold processAirQualityData;
      rewrite H; split; reflexivity.
  - intros response r rs H Hnone. unfold processAirQualityData. rewrite H.
    cbn -[getAverageMeasurement flat_map calculateAQI
          determineAirQualityStatus determineTrend].
    rewrite !getAverageMeasurement_nil by apply Hnone.
    repeat split; vm_compute; reflexivity.
Qed.

(** The theorem at a response of two stations, one without measurements
    and one whose only reading is null. *)
Lemma processAirQualityData_status_and_default_witness :
  let response : OpenAQResponse Q :=
    {| results := Some [station []; station [reading "pm25" None]] |} in
  (aqi (processAirQualityData response) == 0)%Q
  /\ aq_pollutants (processAirQualityData response)
     = {| no2 := 0; pm25 := 0; o3 := 0 |}
  /\ aq_status (processAirQualityData response) = Air_healthy
  /\ aq_trend (processAirQualityData response) = AirTrend_improving.
Proof.
  intros response.
  apply (proj2 (proj2 (proj2 processAirQualityData_status_and_default))
           response (station []) [station [reading "pm25" None]]).
  - reflexivity.
  - intros param. unfold valuesOf. cbn -[String.eqb].
    destruct (String.eqb "pm25" param); reflexivity.
Defined.

(** X3.  The trend compares the mean of the pollutants, (no2 + pm25 + o3)
    / 3 as binary64 computes it, with 10 and 30: 'improving' exactly when
    the mean is below 10, 'worsening' exactly when it is above 30, and
    'stable' otherwise, both ends and a NaN mean included.  Pollutants of
    10, 10 and 9.999999999999998 have a computed mean of 10 and are
    'stable'. *)
Theorem determineTrend_thresholds :
  (forall p : Pollutants float,
      let avgPollution := ((no2 p + pm25 p + o3 p) / 3)%float in
      (determineTrend p = AirTrend_improving
       <-> PrimFloat.ltb avgPollution 10 = true)
      /\ (determineTrend p = AirTrend_worsening
          <-> PrimFloat.ltb 30 avgPollution = true)
      /\ (determineTrend p = AirTrend_stable
          <-> PrimFloat.ltb avgPollution 10 = false
              /\ PrimFloat.ltb 30 avgPollution = false))
  /\ (determineTrend {| no2 := 10; pm25 := 10; o3 := 9.999999999999998 |}
      = AirTrend_stable
      /\ determineTrend {| no2 := 10; pm25 := 10; o3 := 9.99 |}
         = AirTrend_improving
      /\ determineTrend {| no2 := 10; pm25 := 10; o3 := 10 |}
         = AirTrend_stable
      /\ determineTrend {| no2 := 30; pm25 := 30; o3 := 30 |}
         = AirTrend_stable
      /\ determineTrend {| no2 := 30; pm25 := 30; o3 := 30.01 |}
         = AirTrend_worsening
      /\ determineTrend {| no2 := nan; pm25 := 30; o3 := 30 |}
         = AirTrend_stable)%float.
Proof.
  split; [| repeat split; vm_compute; reflexivity].
  intros p avgPollution. unfold determineTrend.
  cbn [lit add div ltb float_JSNumber].
  change (float_lit 3) with 3%float.
  change (float_lit 10) with 10%float.
  change (float_lit 30) with 30%float.
  fold avgPollution.
  destruct (PrimFloat.ltb avgPollution 10) eqn:E10.
  - assert (E30 : PrimFloat.ltb 30 avgPollution = false).
    { destruct (PrimFloat.ltb 30 avgPollution) eqn:E; [| reflexivity].
      pose proof (float_ltb_trans _ _ _ E E10) as H.
      vm_compute in H. discriminate. }
    rewrite E30. repeat split; intros; try discriminate; try reflexivity.
    destruct H; discriminate.
  - destruct (PrimFloat.ltb 30 avgPollution) eqn:E30;
      repeat split; intros; try discriminate; try reflexivity.
    destruct H; discriminate.
Qed.

(** X4.  Status as a function of PM2.5, whatever NO2 and O3 are.  For a
    PM2.5 level that is a number, the index is 'healthy' exactly up to 12;
    it is 'unhealthy' above 12 and up to 55.4, and 'hazardous' from 55.5 on
    and nowhere up to 55.4.  Between 55.4 and 55.5 the rounding decides: in
    binary64 the level 55.400000000000006 has the index 150 and is
    'unhealthy'.  A level that is NaN is 'hazardous'. *)
Theorem calculateAQI_status_by_pm25 :
  (forall p : Pollutants Q,
    ((determineAirQualityStatus (calculateAQI p) = Air_healthy
      <-> pm25 p <= 12)
     /\ (12 < pm25 p /\ pm25 p <= 55.4 ->
         determineAirQualityStatus (calculateAQI p) = Air_unhealthy)
     /\ (determineAirQualityStatus (calculateAQI p) = Air_unhealthy ->
         12 < pm25 p /\ pm25 p < 55.5)
     /\ (55.5 <= pm25 p ->
         determineAirQualityStatus (calculateAQI p) = Air_hazardous)
     /\ (determineAirQualityStatus (calculateAQI p) = Air_hazardous ->
         55.4 < pm25 p))%Q)
  /\ (forall n o : float,
      let status (x : float) :=
        determineAirQualityStatus
          (calculateAQI {| no2 := n; pm25 := x; o3 := o |}) in
      status 12 = Air_healthy
      /\ status 12.000000000000002 = Air_unhealthy
      /\ status 55.4 = Air_unhealthy
      /\ calculateAQI {| no2 := n; pm25 := 55.400000000000006; o3 := o |}
         = 150
      /\ status 55.400000000000006 = Air_unhealthy
      /\ status 55.5 = Air_hazardous
      /\ status nan = Air_hazardous)%float.
Proof.
  split.
  - intros p. unfold determineAirQualityStatus, calculateAQI. cbn.
    generalize (pm25 p) as x. intros x.
    q_cases; cbn; q_cases; repeat split; q_finish; try q_lra;
      exfalso; q_lra.
  - intros n o status. subst status. repeat split; vm_compute; reflexivity.
Qed.

(** The theorem at a PM2.5 level of 40. *)
Lemma calculateAQI_status_by_pm25_witness :
  determineAirQualityStatus
    (calculateAQI {| no2 := 0; pm25 := 40; o3 := 0 |}) = Air_unhealthy.
Proof.
  apply (proj1 (proj2 (proj1 calculateAQI_status_by_pm25
                         {| no2 := 0%Q; pm25 := 40%Q; o3 := 0%Q |}))).
  split; vm_compute; [reflexivity | discriminate].
Defined.

(* ===================================================================== *)
(** * Further properties: the weather normaliser *)
(* ===================================================================== *)

(** X5.  The estimated heat-island effect takes the five values 0, 0.5,
    1.5, 3 and 5 only, stepping up just above 20, 25, 30 and 35 degrees, and
    never falls as the temperature rises. *)
Theorem estimateHeatIslandEffect_steps :
  (forall t : Q,
      (t <= 20 <-> estimateHeatIslandEffect t == 0)
      /\ (20 < t /\ t <= 25 <-> estimateHeatIslandEffect t == 0.5)
      /\ (25 < t /\ t <= 30 <-> estimateHeatIslandEffect t == 1.5)
      /\ (30 < t /\ t <= 35 <-> estimateHeatIslandEffect t == 3)
      /\ (35 < t <-> estimateHeatIslandEffect t == 5))%Q
  /\ (forall t1 t2 : Q,
      t1 <= t2 -> estimateHeatIslandEffect t1 <= estimateHeatIslandEffect t2)%Q.
Proof.
  split.
  - intros t. unfold estimateHeatIslandEffect. cbn.
    q_cases; cbn; repeat split; intros;
      repeat match goal with H : _ /\ _ |- _ => destruct H end;
      try lra; try (exfalso; lra);
      match goal with
      | H : (_ == _)%Q |- _ => exfalso; revert H; vm_compute; discriminate
      | |- (_ == _)%Q => reflexivity
      end.
  - intros t1 t2 H. unfold estimateHeatIslandEffect. cbn.
    q_cases; cbn; try lra; vm_compute; discriminate.
Qed.

(** The theorem at 28 and 33 degrees. *)
Lemma estimateHeatIslandEffect_steps_witness :
  (estimateHeatIslandEffect 28 <= estimateHeatIslandEffect 33)%Q.
Proof.
  apply (proj2 estimateHeatIslandEffect_steps). vm_compute. discriminate.
Defined.

(** X6.  The fields of a normalised temperature go together: the status
    leaves 'normal' exactly above 35 degrees, and then the heat-island
    effect is 5 and the trend 'increasing'; the trend is 'increasing'
    exactly above 30 degrees and 'decreasing' exactly below 15, and then
    the status is 'normal' and the heat-island effect 0. *)
Theorem processWeatherData_coherent :
  forall (F : JSNumberFormat Q) (response : WeatherResponse Q),
    let d := processWeatherData response in
    let t := temp (main response) in
    ((td_status d <> Temp_normal <-> 35 < t)
     /\ (td_status d <> Temp_normal ->
         td_heatIslandEffect d == 5 /\ td_trend d = Trend_increasing)
     /\ (td_trend d = Trend_increasing <-> 30 < t)
     /\ (td_trend d = Trend_decreasing <-> t < 15)
     /\ (td_trend d = Trend_decreasing ->
         td_status d = Temp_normal /\ td_heatIslandEffect d == 0))%Q.
Proof.
  intros F response d t. subst d.
  unfold processWeatherData, determineTemperatureStatus,
    determineTemperatureTrend, estimateHeatIslandEffect.
  fold t. cbn -[generateTemperatureDescription].
  q_cases; cbn; repeat split; intros; try discriminate; try reflexivity;
    try congruence; try lra; exfalso; lra.
Qed.

(** The theorem at 38 degrees: 'fever', so a heat-island effect of 5 and
    an increasing trend. *)
Lemma processWeatherData_coherent_witness :
  (td_heatIslandEffect (processWeatherData (sampleWeather 38)) == 5)%Q
  /\ td_trend (processWeatherData (sampleWeather 38)) = Trend_increasing.
Proof.
  apply (proj1 (proj2 (processWeatherData_coherent _ (sampleWeather 38)))).
  vm_compute. discriminate.
Defined.

(* ===================================================================== *)
(** * Further properties: the diagnostic engine *)
(* ===================================================================== *)

Lemma calculateHeartRateScore_range (h : HeartRate Q) :
  (0 <= calculateHeartRateScore h <= 100)%Q.
Proof. unfold calculateHeartRateScore. apply clamp_range. Qed.

Lemma calculateTemperatureScore_range (t : Temperature Q) :
  (0 <= calculateTemperatureScore t <= 100)%Q.
Proof. unfold calculateTemperatureScore. apply clamp_range. Qed.

Lemma calculateAirQualityScore_range (b : BloodOxygen Q) :
  (0 <= calculateAirQualityScore b <= 100)%Q.
Proof. unfold calculateAirQualityScore. apply clamp_range. Qed.

Lemma calculateGreenSpaceScore_range (i : ImmuneSystem Q) :
  (0 <= calculateGreenSpaceScore i <= 100)%Q.
Proof. unfold calculateGreenSpaceScore. apply clamp_range. Qed.

Lemma calculateInfectionsScore_range (i : Infections Q) :
  (0 <= calculateInfectionsScore i <= 100)%Q.
Proof. unfold calculateInfectionsScore. apply clamp_range. Qed.

(** The overall score, as the rounded weighted sum. *)
Lemma overallScore_weighted (v : CityVitals Q) :
  overallScore (generateDiagnosis v)
  = Q_round
      (0 + calculateHeartRateScore (heartRate v) * 0.15
       + calculateTemperatureScore (temperature v) * 0.20
       + calculateAirQualityScore (bloodOxygen v) * 0.25
       + calculateGreenSpaceScore (immuneSystem v) * 0.25
       + calculateInfectionsScore (infections v) * 0.15)%Q.
Proof. reflexivity. Qed.

Lemma overallScore_range (v : CityVitals Q) :
  (0 <= overallScore (generateDiagnosis v) <= 100)%Q.
Proof.
  rewrite overallScore_weighted.
  assert (H1 := calculateHeartRateScore_range (heartRate v)).
  assert (H2 := calculateTemperatureScore_range (temperature v)).
  assert (H3 := calculateAirQualityScore_range (bloodOxygen v)).
  assert (H4 := calculateGreenSpaceScore_range (immuneSystem v)).
  assert (H5 := calculateInfectionsScore_range (infections v)).
  apply (Q_round_bounds _ 0 100);
    change (inject_Z 0) with 0%Q; change (inject_Z 100) with 100%Q; lra.
Qed.

(** In binary64 each category score is NaN or lies between 0 and 100. *)
Lemma categoryScores_float_range (v : CityVitals float) :
  Forall (fun c => PrimFloat.is_nan (hs_score c) = true
                   \/ (PrimFloat.leb 0 (hs_score c) = true
                       /\ PrimFloat.leb (hs_score c) 100 = true))
         (categoryScores (generateDiagnosis v)).
Proof.
  unfold generateDiagnosis, calculateCategoryScores. cbn [categoryScores].
  repeat (apply Forall_cons;
          [cbn [hs_score];
           unfold calculateHeartRateScore, calculateTemperatureScore,
             calculateAirQualityScore, calculateGreenSpaceScore,
             calculateInfectionsScore;
           cbv zeta; apply float_clamp_range |]).
  apply Forall_nil.
Qed.

(** X7.  Each of the five category scores ends in Math.max(0,
    Math.min(100, score)): in binary64 it is NaN or lies between 0 and 100,
    whatever the record.  Where every value is a finite number, as in
    exact arithmetic, the five scores lie between 0 and 100 and so does the
    overall score, which is a whole number.  A NaN is not caught: a record
    whose AQI is NaN has a NaN air-quality score and a NaN overall
    score. *)
Theorem scores_between_0_and_100 :
  (forall v : CityVitals float,
      Forall (fun c => PrimFloat.is_nan (hs_score c) = true
                       \/ (PrimFloat.leb 0 (hs_score c) = true
                           /\ PrimFloat.leb (hs_score c) 100 = true))
             (categoryScores (generateDiagnosis v))
      /\ List.length (categoryScores (generateDiagnosis v)) = 5%nat)
  /\ (forall v : CityVitals Q,
      ((0 <= calculateHeartRateScore (heartRate v) <= 100)
       /\ (0 <= calculateTemperatureScore (temperature v) <= 100)
       /\ (0 <= calculateAirQualityScore (bloodOxygen v) <= 100)
       /\ (0 <= calculateGreenSpaceScore (immuneSystem v) <= 100)
       /\ (0 <= calculateInfectionsScore (infections v) <= 100)
       /\ (0 <= overallScore (generateDiagnosis v) <= 100)
       /\ Forall (fun c => 0 <= hs_score c <= 100)
                 (categoryScores (generateDiagnosis v)))%Q
      /\ exists z : Z, overallScore (generateDiagnosis v) = inject_Z z)
  /\ (let v : CityVitals float :=
        {| heartRate :=
             {| hr_value := 80; hr_status := HR_normal;
                hr_trend := Trend_stable; hr_description := "steady" |};
           temperature :=
             {| temp_value := 18; heatIslandEffect := 0.5;
                temp_status := Temp_normal; temp_trend := Trend_stable;
                temp_description := "mild" |};
           bloodOxygen :=
             {| bo_value := nan;
                pollutants := {| no2 := 0; pm25 := nan; o3 := 0 |};
                bo_status := Air_hazardous; bo_trend := AirTrend_stable;
                bo_description := "unknown" |};
           immuneSystem :=
             {| greenSpaceCoverage := 30; ndvi := 0.6;
                im_status := Green_strong; im_trend := GreenTrend_stable;
                im_description := "green" |};
           infections :=
             {| disasterEvents := 0; pollutionHotspots := 0;
                inf_status := Inf_clean; inf_description := "none" |};
           overallHealth :=
             {| score := 0; status := Overall_fair;
                oh_diagnosis := "pending"; oh_recommendations := [] |} |} in
      PrimFloat.is_nan (calculateAirQualityScore (bloodOxygen v)) = true
      /\ PrimFloat.is_nan (overallScore (generateDiagnosis v)) = true
      /\ severity (generateDiagnosis v) = Sev_critical)%float.
Proof.
  split; [| split].
  - intros v. split; [apply categoryScores_float_range | reflexivity].
  - intros v.
    assert (H1 := calculateHeartRateScore_range (heartRate v)).
    assert (H2 := calculateTemperatureScore_range (temperature v)).
    assert (H3 := calculateAirQualityScore_range (bloodOxygen v)).
    assert (H4 := calculateGreenSpaceScore_range (immuneSystem v)).
    assert (H5 := calculateInfectionsScore_range (infections v)).
    repeat split; try tauto; try apply overallScore_range.
    + repeat constructor; cbn [hs_score]; tauto.
    + rewrite overallScore_weighted. unfold Q_round. eexists. reflexivity.
  - vm_compute. repeat split.
Qed.

(** X8.  The diagnosis text and the severity are read off the same score
    but cut it differently: the text opens with CRITICAL exactly when the
    severity is 'critical' (score below 40), the 'poor health' text goes
    with 'high' and the 'fair' text with 'medium', while severity 'low'
    covers both the 'excellent health' text (score 90 and more) and the
    'good overall health' text (75 up to 90).  In binary64 a score that is
    NaN gets the CRITICAL text and severity 'critical'. *)
Theorem generateDiagnosis_text_and_severity :
  (forall v : CityVitals Q,
      let d := generateDiagnosis v in
      (String.prefix "CRITICAL:" (diagnosis d) = true
       <-> severity d = Sev_critical)
      /\ (String.prefix "The city is showing signs of poor health"
                        (diagnosis d) = true
          <-> severity d = Sev_high)
      /\ (String.prefix "The city's health is fair" (diagnosis d) = true
          <-> severity d = Sev_medium)
      /\ (String.prefix "This city is in excellent health!" (diagnosis d)
            = true
          \/ String.prefix "The city shows good overall health"
                           (diagnosis d) = true
          <-> severity d = Sev_low)
      /\ (String.prefix "This city is in excellent health!" (diagnosis d)
            = true
          <-> (90 <= overallScore d)%Q))
  /\ (forall v : CityVitals float,
      String.prefix "CRITICAL:" (generateDiagnosisText nan v) = true)
  /\ determineSeverity nan = Sev_critical.
Proof.
  split; [| split].
  - intros v d. subst d.
    unfold generateDiagnosis, generateDiagnosisText, determineSeverity.
    cbn -[calculateOverallScore String.prefix].
    generalize (calculateOverallScore (calculateCategoryScores v)) as s.
    intros s.
    q_cases; try (exfalso; lra); cbn; repeat split; intros;
      try discriminate; try reflexivity; try lra; try (exfalso; lra);
      try (left; reflexivity); try (right; reflexivity);
      match goal with H : _ \/ _ |- _ => destruct H; discriminate end.
  - intros v. vm_compute. reflexivity.
  - vm_compute. reflexivity.
Qed.

(** X9.  The recommendations are three or five, never another number: the
    blocks of three are appended in the order air quality, heat island,
    green space, disasters, urban activity, the general advice standing in
    when no block is due, and the list is cut after five.  So with
    unhealthy or hazardous air the first three are the air-quality advice;
    with a fever or critical temperature besides, the list is the
    air-quality advice and the first two pieces of heat-island advice,
    whatever the other statuses; with good air and temperature, green-space
    advice comes before disaster advice, and both before urban-activity
    advice; and the general advice comes out only when all five statuses
    are good. *)
Theorem generateRecommendations_blocks :
  forall (num : Type) (N : JSNumber num) (v : CityVitals num),
    let recs := recommendations (generateDiagnosis v) in
    let air := match bo_status (bloodOxygen v) with
               | Air_healthy => []
               | _ => airQualityAdvice
               end in
    let heat := match temp_status (temperature v) with
                | Temp_normal => []
                | _ => heatIslandAdvice
                end in
    let green := match im_status (immuneSystem v) with
                 | Green_strong => []
                 | _ => greenSpaceAdvice
                 end in
    let disasters := match inf_status (infections v) with
                     | Inf_clean => []
                     | _ => disasterAdvice
                     end in
    let urban := match hr_status (heartRate v) with
                 | HR_normal => []
                 | _ => urbanActivityAdvice
                 end in
    (List.length recs = 3%nat \/ List.length recs = 5%nat)
    /\ recs = firstn 5 (match air ++ heat ++ green ++ disasters ++ urban with
                        | [] => generalAdvice
                        | due => due
                        end)%list
    /\ (bo_status (bloodOxygen v) <> Air_healthy ->
        firstn 3 recs = airQualityAdvice)
    /\ (bo_status (bloodOxygen v) <> Air_healthy ->
        temp_status (temperature v) <> Temp_normal ->
        recs = (airQualityAdvice ++ firstn 2 heatIslandAdvice)%list)
    /\ (bo_status (bloodOxygen v) = Air_healthy ->
        temp_status (temperature v) <> Temp_normal ->
        firstn 3 recs = heatIslandAdvice)
    /\ (bo_status (bloodOxygen v) = Air_healthy ->
        temp_status (temperature v) = Temp_normal ->
        im_status (immuneSystem v) <> Green_strong ->
        firstn 3 recs = greenSpaceAdvice
        /\ (inf_status (infections v) <> Inf_clean ->
            recs = (greenSpaceAdvice ++ firstn 2 disasterAdvice)%list)
        /\ (inf_status (infections v) = Inf_clean ->
            hr_status (heartRate v) <> HR_normal ->
            recs = (greenSpaceAdvice ++ firstn 2 urbanActivityAdvice)%list))
    /\ (bo_status (bloodOxygen v) = Air_healthy ->
        temp_status (temperature v) = Temp_normal ->
        im_status (immuneSystem v) = Green_strong ->
        inf_status (infections v) <> Inf_clean ->
        firstn 3 recs = disasterAdvice
        /\ (hr_status (heartRate v) <> HR_normal ->
            recs = (disasterAdvice ++ firstn 2 urbanActivityAdvice)%list))
    /\ (recs = generalAdvice
        <-> hr_status (heartRate v) = HR_normal
            /\ bo_status (bloodOxygen v) = Air_healthy
            /\ temp_status (temperature v) = Temp_normal
            /\ im_status (immuneSystem v) = Green_strong
            /\ inf_status (infections v) = Inf_clean).
Proof.
  intros num N v recs air heat green disasters urban.
  subst recs air heat green disasters urban.
  unfold generateDiagnosis, generateRecommendations.
  cbn -[firstn app airQualityAdvice heatIslandAdvice greenSpaceAdvice
        disasterAdvice urbanActivityAdvice generalAdvice List.length Nat.eqb].
  destruct (bo_status (bloodOxygen v)), (temp_status (temperature v)),
    (im_status (immuneSystem v)), (inf_status (infections v)),
    (hr_status (heartRate v));
    (split; [cbn; auto |]; split; [reflexivity |];
     split; [| split; [| split; [| split; [| split; [| split]]]]]);
    intros; repeat match goal with H : _ /\ _ |- _ => destruct H end;
    try congruence; try reflexivity;
    try (repeat split; intros; first [congruence | reflexivity]);
    try (exfalso; match goal with H : _ = generalAdvice |- _ =>
                    cbn in H; discriminate H end).
Qed.

(** The theorem at a record with unhealthy air and a fever. *)
Lemma generateRecommendations_blocks_witness :
  recommendations (generateDiagnosis strainedVitals)
  = (airQualityAdvice ++ firstn 2 heatIslandAdvice)%list.
Proof.
  apply (proj1 (proj2 (proj2 (proj2
           (generateRecommendations_blocks Q _ strainedVitals)))));
    vm_compute; discriminate.
Defined.

(* ===================================================================== *)
(** * Further properties: the earthquake normaliser *)
(* ===================================================================== *)

(** [new Date(t).getTime()] of a whole number of milliseconds within the
    range of dates is that number. *)
Lemma TimeClip_integer (z : Z) :
  (- 8640000000000000 <= z <= 8640000000000000)%Z ->
  exists t : Q, TimeClip (inject_Z z) = Some t /\ (t == inject_Z z)%Q.
Proof.
  intros Hz. unfold TimeClip, ToIntegerOrInfinity. cbn.
  rewrite Z.mul_1_r, !Z.div_1_r.
  assert (H0 : (0 - inject_Z z == inject_Z (- z))%Q).
  { rewrite inject_Z_opp. lra. }
  destruct (Qle_bool_spec 0 (inject_Z z)) as [Hpos | Hneg]; cbn [negb].
  - destruct (Qle_bool_spec (inject_Z z) 8640000000000000) as [_ | Hbig].
    + eexists. split; [reflexivity | reflexivity].
    + exfalso.
      change 8640000000000000%Q with (inject_Z 8640000000000000) in Hbig.
      rewrite <- Zlt_Qlt in Hbig. lia.
  - destruct (Qle_bool_spec (0 - inject_Z z) 8640000000000000) as [_ | Hbig].
    + eexists. split; [reflexivity |]. rewrite inject_Z_opp. lra.
    + exfalso. rewrite H0 in Hbig.
      change 8640000000000000%Q with (inject_Z 8640000000000000) in Hbig.
      rewrite <- Zlt_Qlt in Hbig. lia.
Qed.

(** X10.  Which events count as recent.  An event whose time is a whole
    number of milliseconds within the range of dates counts exactly when
    the clock is at most 2 592 000 000 ms (30 days) past it: an event
    exactly 30 days old counts, one a millisecond older does not, and an
    event dated in the future counts.  An event whose time is outside the
    range of dates (an invalid date) never counts. *)
Theorem withinLast30Days_boundary :
  (forall (now : Q) (e : EarthquakeFeature Q) (z : Z),
      time (properties e) = inject_Z z ->
      (- 8640000000000000 <= z <= 8640000000000000)%Z ->
      (withinLast30Days now e = true
       <-> (now - inject_Z z <= 2592000000)%Q))
  /\ (forall (now : Q) (e : EarthquakeFeature Q),
      (8640000000000000 < Qabs (time (properties e)))%Q ->
      withinLast30Days now e = false).
Proof.
  assert (Hday : (1000 * 60 * 60 * 24 == 86400000)%Q) by reflexivity.
  split.
  - intros now e z Ht Hz. unfold withinLast30Days, daysAgo. rewrite Ht.
    destruct (TimeClip_integer z Hz) as (t & -> & Heq). cbn.
    rewrite <- Heq.
    destruct (Qle_bool_spec
                ((now - t) / (1000 * 60 * 60 * 24)) 30) as [H | H];
      rewrite Hday in H; split; intros H'; try reflexivity;
      try discriminate; q_lra.
  - intros now e Hbig. unfold withinLast30Days, daysAgo, TimeClip. cbn.
    destruct (Qle_bool_spec 0 (time (properties e))) as [Hpos | Hneg];
      cbn [negb].
    + rewrite Qabs_pos in Hbig by exact Hpos.
      destruct (Qle_bool_spec (time (properties e)) 8640000000000000);
        [lra | reflexivity].
    + rewrite Qabs_neg in Hbig by lra.
      destruct (Qle_bool_spec (0 - time (properties e)) 8640000000000000);
        [lra | reflexivity].
Qed.

(** The theorem at an event exactly 30 days before the clock. *)
Lemma withinLast30Days_boundary_witness :
  withinLast30Days 1700000000000%Q (sampleQuake 1697408000000) = true
  <-> (1700000000000 - inject_Z 1697408000000 <= 2592000000)%Q.
Proof.
  apply (proj1 withinLast30Days_boundary); [reflexivity | lia].
Defined.

(* ===================================================================== *)
(** * Further properties: the assembler, field by field *)
(* ===================================================================== *)

Section AssemblerFields.
Context {num : Type} {N : JSNumber num} {F : JSNumberFormat num}.
Variable location : LocationData num.
Variable airQualityResult : PromiseSettledResult (OpenAQResponse num).
Variable earthquakeResult : PromiseSettledResult (USGSEarthquakeResponse num).
Variable weatherResult : PromiseSettledResult (WeatherResponse num).
Variable w : World num.

(** The earthquake normaliser hands the world on as it found it. *)
Lemma processEarthquakeData_world
    (response : USGSEarthquakeResponse num) :
  runState (processEarthquakeData response) w
  = (evalState (processEarthquakeData response) w, w).
Proof.
  unfold evalState.
  destruct (processEarthquakeData_run response w) as (Hw & _).
  destruct (runState (processEarthquakeData response) w) as [d w'].
  cbn in *. now subst w'.
Qed.

(** Splits a run into the cases of its three settled results. *)
Ltac assembler_cases :=
  unfold evalState;
  destruct airQualityResult, earthquakeResult as [response |], weatherResult;
  run_assembler;
  try (rewrite (processEarthquakeData_world response); run_assembler).

Lemma processCityVitals_world :
  execState (processCityVitals location airQualityResult earthquakeResult
               weatherResult) w
  = {| clock := clock w; entropy := entropy w;
       drawn := S (S (S (drawn w))) |}.
Proof. unfold execState. assembler_cases; reflexivity. Qed.

Lemma processCityVitals_heartRate :
  heartRate (evalState (processCityVitals location airQualityResult
                          earthquakeResult weatherResult) w)
  = {| hr_value := (Math_floor (entropy w (drawn w) * lit 40) + lit 60)%js;
       hr_status := HR_normal;
       hr_trend := Trend_stable;
       hr_description :=
         "Urban activity levels are normal based on nighttime light intensity." |}.
Proof. assembler_cases; reflexivity. Qed.

Lemma processCityVitals_immuneSystem :
  immuneSystem (evalState (processCityVitals location airQualityResult
                             earthquakeResult weatherResult) w)
  = {| greenSpaceCoverage :=
         (Math_floor (entropy w (S (drawn w)) * lit 30) + lit 10)%js;
       ndvi := (entropy w (S (S (drawn w))) * lit 0.8 + lit 0.2)%js;
       im_status := Green_strong;
       im_trend := GreenTrend_stable;
       im_description :=
         "Vegetation coverage and health are within normal ranges." |}.
Proof. assembler_cases; reflexivity. Qed.

Lemma processCityVitals_temperature :
  let v := evalState (processCityVitals location airQualityResult
                        earthquakeResult weatherResult) w in
  let d := match weatherResult with
           | fulfilled value => processWeatherData value
           | rejected _ =>
               {| td_temperature := lit 20;
                  td_heatIslandEffect := lit 0;
                  td_status := Temp_normal;
                  td_trend := Trend_stable;
                  td_description := "Temperature data unavailable." |}
           end in
  temp_value (temperature v) = td_temperature d
  /\ heatIslandEffect (temperature v) = td_heatIslandEffect d
  /\ temp_status (temperature v) = td_status d
  /\ temp_trend (temperature v) = td_trend d
  /\ temp_description (temperature v) = td_description d.
Proof. assembler_cases; repeat split. Qed.

Lemma processCityVitals_bloodOxygen :
  let v := evalState (processCityVitals location airQualityResult
                        earthquakeResult weatherResult) w in
  let d := match airQualityResult with
           | fulfilled value => processAirQualityData value
           | rejected _ => noAirQualityData
           end in
  bo_value (bloodOxygen v) = aqi d
  /\ pollutants (bloodOxygen v) = aq_pollutants d
  /\ bo_status (bloodOxygen v) = aq_status d
  /\ bo_trend (bloodOxygen v) = aq_trend d.
Proof. assembler_cases; repeat split. Qed.

Lemma processCityVitals_infections :
  let v := evalState (processCityVitals location airQualityResult
                        earthquakeResult weatherResult) w in
  let d := match earthquakeResult with
           | fulfilled value => evalState (processEarthquakeData value) w
           | rejected _ =>
               {| dd_disasterEvents := lit 0;
                  dd_pollutionHotspots := lit 0;
                  dd_status := Inf_clean;
                  dd_description := "No recent natural disasters detected." |}
           end in
  disasterEvents (infections v) = dd_disasterEvents d
  /\ pollutionHotspots (infections v) = dd_pollutionHotspots d
  /\ inf_status (infections v) = dd_status d
  /\ inf_description (infections v) = dd_description d.
Proof. assembler_cases; repeat split. Qed.

End AssemblerFields.

(** X11.  A response none of whose events is recent is normalised like a
    response without events: from the count on, the early return and the
    general path agree.  The assembler's own default for a rejected
    request differs from both in its description, so the record tells a
    failed request from a quiet month. *)
Theorem processEarthquakeData_quiet :
  (forall (num : Type) (N : JSNumber num)
          (response : USGSEarthquakeResponse num) (w : World num),
      recentEvents (clock w) response = 0%nat ->
      evalState (processEarthquakeData response) w = noDisasterData)
  /\ (forall (num : Type) (N : JSNumber num) (F : JSNumberFormat num)
             (location : LocationData num)
             (a : PromiseSettledResult (OpenAQResponse num))
             (t : PromiseSettledResult (WeatherResponse num))
             (response : USGSEarthquakeResponse num) (reason : string)
             (w : World num),
      recentEvents (clock w) response = 0%nat ->
      inf_description
        (infections (evalState (processCityVitals location a
                                  (fulfilled response) t) w))
      = "No recent natural disasters detected in the area."%string
      /\ inf_description
           (infections (evalState (processCityVitals location a
                                     (rejected reason) t) w))
         = "No recent natural disasters detected."%string).
Proof.
  assert (Hquiet : forall (num : Type) (N : JSNumber num)
            (response : USGSEarthquakeResponse num) (w : World num),
            recentEvents (clock w) response = 0%nat ->
            evalState (processEarthquakeData response) w = noDisasterData).
  { intros num N response w. unfold recentEvents, eventsOf, evalState,
      processEarthquakeData.
    destruct (features response) as [[| e l] |]; try reflexivity.
    intros H. cbn -[filterM filter]. rewrite (filterM_isRecent (e :: l) w).
    cbn -[filter]. rewrite H. reflexivity. }
  split; [exact Hquiet |].
  intros num N F location a t response reason w H. split.
  - destruct (processCityVitals_infections location a (fulfilled response)
                t w) as (_ & _ & _ & Hd).
    rewrite Hd, Hquiet by exact H. reflexivity.
  - destruct (processCityVitals_infections location a (rejected reason)
                t w) as (_ & _ & _ & Hd).
    rewrite Hd. reflexivity.
Qed.

(** The theorem at a response whose two events are 40 and 50 days old. *)
Lemma processEarthquakeData_quiet_witness :
  evalState (processEarthquakeData
               (sampleQuakes [1696544000000; 1695680000000])) sampleWorld
  = noDisasterData.
Proof.
  apply (proj1 processEarthquakeData_quiet). vm_compute. reflexivity.
Defined.

(** X12.  The infections score of an assembled record, by the number of
    recent earthquakes: 100 for none, 42.5 for one, 35 for two, 11 for
    three, then 8, 5 and 2, and 0 from seven on.  One event more than
    halves the score. *)
Theorem processCityVitals_infections_score :
  forall (location : LocationData Q)
         (a : PromiseSettledResult (OpenAQResponse Q))
         (response : USGSEarthquakeResponse Q)
         (t : PromiseSettledResult (WeatherResponse Q)) (w : World Q),
    let v := evalState (processCityVitals location a (fulfilled response) t)
                       w in
    (calculateInfectionsScore (infections v)
     == match recentEvents (clock w) response with
        | 0%nat => 100
        | 1%nat => 42.5
        | 2%nat => 35
        | 3%nat => 11
        | 4%nat => 8
        | 5%nat => 5
        | 6%nat => 2
        | _ => 0
        end)%Q.
Proof.
  intros location a response t w v. subst v.
  destruct (processCityVitals_infections location a (fulfilled response) t w)
    as (Hd & Hp & Hs & _).
  unfold calculateInfectionsScore. rewrite Hd, Hp, Hs.
  destruct (processEarthquakeData_run response w) as (_ & He & Hh & Hst).
  unfold evalState. rewrite He, Hh, Hst.
  destruct (recentEvents (clock w) response)
    as [| [| [| [| [| [| [| n]]]]]]]; try reflexivity.
  assert (Hn : (7 <= @of_length Q _ (S (S (S (S (S (S (S n))))))))%Q).
  { unfold of_length. cbn [lit Q_JSNumber].
    change 7%Q with (inject_Z 7). rewrite <- Zle_Qle. lia. }
  revert Hn.
  generalize (@of_length Q _ (S (S (S (S (S (S (S n)))))))) as m.
  intros m Hm. cbn. q_cases; cbn; q_lra.
Qed.

(* ===================================================================== *)
(** * Further properties: the assembler *)
(* ===================================================================== *)

(** X13.  The temperature score of an assembled record is a step function
    of the provider's temperature: 100 up to 25 degrees, 85 up to 30, 65 up
    to 35, 27 up to 40 and 13.5 above.  The normaliser's heat-island
    estimate never exceeds 5, so the engine's penalty of 25 for an effect
    above 5 is never applied on this path.  With the weather request
    rejected the score is 100. *)
Theorem processCityVitals_temperature_score :
  (forall (location : LocationData Q)
          (a : PromiseSettledResult (OpenAQResponse Q))
          (e : PromiseSettledResult (USGSEarthquakeResponse Q))
          (weather : WeatherResponse Q) (w : World Q),
      let v := evalState (processCityVitals location a e (fulfilled weather))
                         w in
      let t := temp (main weather) in
      ((t <= 25 -> calculateTemperatureScore (temperature v) == 100)
       /\ (25 < t -> t <= 30 ->
           calculateTemperatureScore (temperature v) == 85)
       /\ (30 < t -> t <= 35 ->
           calculateTemperatureScore (temperature v) == 65)
       /\ (35 < t -> t <= 40 ->
           calculateTemperatureScore (temperature v) == 27)
       /\ (40 < t -> calculateTemperatureScore (temperature v) == 13.5)
       /\ heatIslandEffect (temperature v) <= 5)%Q)
  /\ (forall (location : LocationData Q)
             (a : PromiseSettledResult (OpenAQResponse Q))
             (e : PromiseSettledResult (USGSEarthquakeResponse Q))
             (reason : string) (w : World Q),
      (calculateTemperatureScore
         (temperature (evalState (processCityVitals location a e
                                    (rejected reason)) w)) == 100)%Q).
Proof.
  split.
  - intros location a e weather w v t. subst v.
    destruct (processCityVitals_temperature location a e (fulfilled weather)
                w) as (Hv & Hh & Hs & Ht & _).
    unfold calculateTemperatureScore. rewrite Hv, Hh, Hs, Ht.
    unfold processWeatherData, determineTemperatureStatus,
      determineTemperatureTrend, estimateHeatIslandEffect.
    fold t. cbn -[generateTemperatureDescription].
    generalize t as x. intros x.
    repeat split; intros;
      repeat match goal with
             | |- context [Qle_bool ?a ?b] =>
                 lazymatch a with
                 | context [Qle_bool _ _] => fail
                 | _ =>
                     lazymatch b with
                     | context [Qle_bool _ _] => fail
                     | _ =>
                         destruct (Qle_bool_spec a b);
                         try (exfalso; lra); cbn
                     end
                 end
             end;
      try reflexivity; try lra;
      try (exfalso; match goal with
                    | H : (_ <= _)%Q |- _ => revert H; vm_compute; tauto
                    | H : (_ < _)%Q |- _ => revert H; vm_compute; discriminate
                    end).
  - intros location a e reason w.
    destruct (processCityVitals_temperature location a e (rejected reason)
                w) as (Hv & Hh & Hs & Ht & _).
    unfold calculateTemperatureScore. rewrite Hv, Hh, Hs, Ht.
    vm_compute. reflexivity.
Qed.

(** The theorem at 45 degrees. *)
Lemma processCityVitals_temperature_score_witness :
  (calculateTemperatureScore
     (temperature
        (evalState (processCityVitals sampleLocation
                      (fulfilled sampleAirQuality) (rejected "timeout")
                      (fulfilled (sampleWeather 45))) sampleWorld))
   == 13.5)%Q.
Proof.
  apply (proj1 processCityVitals_temperature_score sampleLocation
           (fulfilled sampleAirQuality) (rejected "timeout")
           (sampleWeather 45) sampleWorld).
  vm_compute. reflexivity.
Defined.

(** The earthquake normaliser reads the clock of the world and nothing
    else. *)
Lemma processEarthquakeData_clock {num : Type} {N : JSNumber num}
    (response : USGSEarthquakeResponse num) (w w' : World num) :
  clock w = clock w' ->
  evalState (processEarthquakeData response) w
  = evalState (processEarthquakeData response) w'.
Proof.
  intros H. unfold evalState, processEarthquakeData.
  destruct (features response) as [[| e l] |]; try reflexivity.
  cbn -[filterM filter].
  rewrite (filterM_isRecent (e :: l) w), (filterM_isRecent (e :: l) w'), H.
  cbn -[filter].
  set (n := List.length (filter (withinLast30Days (clock w')) (e :: l))).
  destruct (Nat.eqb n 0); [| destruct (Nat.leb n 2)]; reflexivity.
Qed.

(** X14.  What a run of the assembler reads and writes.  It draws exactly
    three random numbers and leaves the clock alone, whatever the settled
    results; its result does not depend on the location it is given; and
    of the world it depends on the clock and on the three numbers it draws
    only. *)
Theorem processCityVitals_effects :
  forall (num : Type) (N : JSNumber num) (F : JSNumberFormat num)
         (a : PromiseSettledResult (OpenAQResponse num))
         (e : PromiseSettledResult (USGSEarthquakeResponse num))
         (t : PromiseSettledResult (WeatherResponse num)),
    (forall (location : LocationData num) (w : World num),
        execState (processCityVitals location a e t) w
        = {| clock := clock w; entropy := entropy w;
             drawn := S (S (S (drawn w))) |})
    /\ (forall (location location' : LocationData num) (w : World num),
        evalState (processCityVitals location a e t) w
        = evalState (processCityVitals location' a e t) w)
    /\ (forall (location : LocationData num) (w w' : World num),
        clock w = clock w' ->
        entropy w (drawn w) = entropy w' (drawn w') ->
        entropy w (S (drawn w)) = entropy w' (S (drawn w')) ->
        entropy w (S (S (drawn w))) = entropy w' (S (S (drawn w'))) ->
        evalState (processCityVitals location a e t) w
        = evalState (processCityVitals location a e t) w').
Proof.
  intros num N F a e t. split; [| split].
  - intros location w. apply processCityVitals_world.
  - intros location location' w. reflexivity.
  - intros location w w' Hc H0 H1 H2. unfold evalState.
    destruct a, e as [response |], t; run_assembler;
      try (rewrite (processEarthquakeData_world w response),
             (processEarthquakeData_world w' response),
             (processEarthquakeData_clock response w w' Hc));
      run_assembler; rewrite H0, H1, H2; reflexivity.
Qed.

(** The theorem at two worlds that differ in the draws already made and
    agree on the clock and on the next three. *)
Lemma processCityVitals_effects_witness :
  let w' := {| clock := 1700000000000;
               entropy := fun n => match n with
                                   | 2%nat => 0.5
                                   | 3%nat => 0.25
                                   | _ => 0.75
                                   end;
               drawn := 2 |} in
  evalState (processCityVitals sampleLocation (fulfilled sampleAirQuality)
               (rejected "timeout") (fulfilled (sampleWeather 22)))
            sampleWorld
  = evalState (processCityVitals sampleLocation (fulfilled sampleAirQuality)
                 (rejected "timeout") (fulfilled (sampleWeather 22))) w'.
Proof.
  intros w'.
  apply (proj2 (proj2 (processCityVitals_effects Q _ _
                         (fulfilled sampleAirQuality) (rejected "timeout")
                         (fulfilled (sampleWeather 22)))));
    reflexivity.
Defined.

(** The two synthetic categories, for random numbers in [0, 1). *)
Lemma synthetic_ranges (r1 r2 r3 : Q) :
  (0 <= r1 /\ r1 < 1 -> 0 <= r2 /\ r2 < 1 -> 0 <= r3 /\ r3 < 1 ->
   (60 <= Math_floor (r1 * 40) + 60 /\ Math_floor (r1 * 40) + 60 <= 99)
   /\ (10 <= Math_floor (r2 * 30) + 10 /\ Math_floor (r2 * 30) + 10 <= 39)
   /\ (0.2 <= r3 * 0.8 + 0.2 /\ r3 * 0.8 + 0.2 < 1))%Q.
Proof.
  intros [H1 H1'] [H2 H2'] [H3 H3'].
  destruct (Qfloor_bounds (r1 * 40) 0 40) as [Ha Ha'].
  { change (inject_Z 0) with 0%Q. lra. }
  { change (inject_Z 40) with 40%Q. lra. }
  destruct (Qfloor_bounds (r2 * 30) 0 30) as [Hb Hb'].
  { change (inject_Z 0) with 0%Q. lra. }
  { change (inject_Z 30) with 30%Q. lra. }
  change (inject_Z 0) with 0%Q in Ha, Hb.
  change (inject_Z (40 - 1)) with 39%Q in Ha'.
  change (inject_Z (30 - 1)) with 29%Q in Hb'.
  change (Math_floor (r1 * 40)) with (inject_Z (Qfloor (r1 * 40))).
  change (Math_floor (r2 * 30)) with (inject_Z (Qfloor (r2 * 30))).
  repeat split; lra.
Qed.

(** The synthetic fields of an assembled record, for random numbers in
    [0, 1). *)
Lemma processCityVitals_synthetic_ranges_fields
    (location : LocationData Q)
    (a : PromiseSettledResult (OpenAQResponse Q))
    (e : PromiseSettledResult (USGSEarthquakeResponse Q))
    (t : PromiseSettledResult (WeatherResponse Q)) (w : World Q) :
  unitEntropy w ->
  let v := evalState (processCityVitals location a e t) w in
  ((60 <= hr_value (heartRate v) /\ hr_value (heartRate v) <= 99)
   /\ (10 <= greenSpaceCoverage (immuneSystem v)
       /\ greenSpaceCoverage (immuneSystem v) <= 39)
   /\ (0.2 <= ndvi (immuneSystem v) /\ ndvi (immuneSystem v) < 1))%Q.
Proof.
  intros Hw v. subst v.
  rewrite (processCityVitals_heartRate location a e t w),
    (processCityVitals_immuneSystem location a e t w).
  cbn [hr_value greenSpaceCoverage ndvi].
  exact (synthetic_ranges _ _ _ (Hw (drawn w)) (Hw (S (drawn w)))
           (Hw (S (S (drawn w))))).
Qed.

(** X15.  With random numbers in [0, 1), the synthetic heart rate of an
    assembled record is a whole number from 60 to 99 and the green-space
    coverage one from 10 to 39, the NDVI lies between 0.2 and 1, and the
    heart-rate score is the heart rate itself; the statuses are always
    'normal' and 'strong', the trends 'stable'.  The upper ends are
    reached in binary64: with the largest number below 1 drawn three times
    the heart rate is 99, the coverage 39, and the NDVI rounds to 1. *)
Theorem processCityVitals_synthetic_ranges :
  (forall (location : LocationData Q)
          (a : PromiseSettledResult (OpenAQResponse Q))
          (e : PromiseSettledResult (USGSEarthquakeResponse Q))
          (t : PromiseSettledResult (WeatherResponse Q)) (w : World Q),
    unitEntropy w ->
    let v := evalState (processCityVitals location a e t) w in
    ((60 <= hr_value (heartRate v) /\ hr_value (heartRate v) <= 99)
     /\ (exists z : Z, hr_value (heartRate v) == inject_Z z)
     /\ (10 <= greenSpaceCoverage (immuneSystem v)
         /\ greenSpaceCoverage (immuneSystem v) <= 39)
     /\ (exists z : Z, greenSpaceCoverage (immuneSystem v) == inject_Z z)
     /\ (0.2 <= ndvi (immuneSystem v) /\ ndvi (immuneSystem v) <= 1)
     /\ calculateHeartRateScore (heartRate v) == hr_value (heartRate v))%Q
    /\ hr_status (heartRate v) = HR_normal
    /\ hr_trend (heartRate v) = Trend_stable
    /\ im_status (immuneSystem v) = Green_strong
    /\ im_trend (immuneSystem v) = GreenTrend_stable)
  /\ (forall (F : JSNumberFormat float) (location : LocationData float)
             (a : PromiseSettledResult (OpenAQResponse float))
             (e : PromiseSettledResult (USGSEarthquakeResponse float))
             (t : PromiseSettledResult (WeatherResponse float))
             (now : float),
      let w := {| clock := now;
                  entropy := fun _ => 0.99999999999999989%float;
                  drawn := 0 |} in
      let v := evalState (processCityVitals location a e t) w in
      (hr_value (heartRate v) = 99
       /\ greenSpaceCoverage (immuneSystem v) = 39
       /\ ndvi (immuneSystem v) = 1
       /\ calculateHeartRateScore (heartRate v) = 99)%float).
Proof.
  split.
  - intros location a e t w Hw v. subst v.
    rewrite (processCityVitals_heartRate location a e t w),
      (processCityVitals_immuneSystem location a e t w).
    cbn [hr_value hr_status hr_trend greenSpaceCoverage ndvi im_status
         im_trend].
    destruct (synthetic_ranges _ _ _ (Hw (drawn w)) (Hw (S (drawn w)))
                (Hw (S (S (drawn w))))) as (Hh & Hg & Hn).
    change (lit 40) with 40%Q in *. change (lit 60) with 60%Q in *.
    change (lit 30) with 30%Q in *. change (lit 10) with 10%Q in *.
    change (lit 0.8) with 0.8%Q in *. change (lit 0.2) with 0.2%Q in *.
    repeat split; try tauto.
    + exists (Qfloor (entropy w (drawn w) * 40) + 60)%Z.
      rewrite inject_Z_plus. reflexivity.
    + exists (Qfloor (entropy w (S (drawn w)) * 30) + 10)%Z.
      rewrite inject_Z_plus. reflexivity.
    + change (entropy w (S (S (drawn w))) * 0.8 + 0.2 <= 1)%Q. lra.
    + unfold calculateHeartRateScore.
      cbn [hr_value hr_status hr_trend].
      apply clamp_inside.
      change (Math_floor (entropy w (drawn w) * 40) + 60)%js
        with (Math_floor (entropy w (drawn w) * 40) + 60)%Q.
      lra.
  - intros F location a e t now w v. subst v.
    rewrite (processCityVitals_heartRate location a e t w),
      (processCityVitals_immuneSystem location a e t w).
    repeat split; vm_compute; reflexivity.
Qed.

(** The theorem at the sample world, whose draws are 0.5, 0.25 and
    0.75. *)
Lemma processCityVitals_synthetic_ranges_witness :
  let v := evalState (processCityVitals sampleLocation
                        (fulfilled sampleAirQuality) (rejected "timeout")
                        (fulfilled (sampleWeather 22))) sampleWorld in
  (60 <= hr_value (heartRate v) /\ hr_value (heartRate v) <= 99)%Q.
Proof.
  intros v.
  apply (proj1 processCityVitals_synthetic_ranges sampleLocation
           (fulfilled sampleAirQuality) (rejected "timeout")
           (fulfilled (sampleWeather 22)) sampleWorld).
  intros [| [| n]]; vm_compute; split; congruence.
Defined.

(** The green-space score of the synthetic category: the coverage, plus 20
    above an NDVI of 0.7 and 10 above 0.5. *)
Lemma synthetic_green_score (c n : Q) (d : string) :
  (10 <= c -> c <= 39 -> 0.2 <= n -> n < 1 ->
   10 <= calculateGreenSpaceScore
           {| greenSpaceCoverage := c; ndvi := n; im_status := Green_strong;
              im_trend := GreenTrend_stable; im_description := d |}
   /\ calculateGreenSpaceScore
        {| greenSpaceCoverage := c; ndvi := n; im_status := Green_strong;
           im_trend := GreenTrend_stable; im_description := d |}
      <= 59)%Q.
Proof.
  intros Hc Hc' Hn Hn'. unfold calculateGreenSpaceScore. cbn.
  q_cases; lra.
Qed.

(** The scores of the two synthetic categories of an assembled record. *)
Lemma processCityVitals_synthetic_scores
    (location : LocationData Q)
    (a : PromiseSettledResult (OpenAQResponse Q))
    (e : PromiseSettledResult (USGSEarthquakeResponse Q))
    (t : PromiseSettledResult (WeatherResponse Q)) (w : World Q) :
  unitEntropy w ->
  let v := evalState (processCityVitals location a e t) w in
  ((60 <= calculateHeartRateScore (heartRate v)
    /\ calculateHeartRateScore (heartRate v) <= 99)
   /\ (10 <= calculateGreenSpaceScore (immuneSystem v)
       /\ calculateGreenSpaceScore (immuneSystem v) <= 59))%Q.
Proof.
  intros Hw v. subst v.
  rewrite (processCityVitals_heartRate location a e t w),
    (processCityVitals_immuneSystem location a e t w).
  destruct (synthetic_ranges _ _ _ (Hw (drawn w)) (Hw (S (drawn w)))
              (Hw (S (S (drawn w))))) as (Hh & Hg & Hn).
  split.
  - unfold calculateHeartRateScore. cbn [hr_value hr_status hr_trend].
    rewrite clamp_inside;
      change (Math_floor (entropy w (drawn w) * lit 40) + lit 60)%js
        with (Math_floor (entropy w (drawn w) * 40) + 60)%Q; lra.
  - apply synthetic_green_score; tauto.
Qed.

(** The scores of the categories whose request was rejected. *)
Lemma processCityVitals_default_scores
    (location : LocationData Q) (r1 r2 r3 : string) (w : World Q) :
  let v := evalState (processCityVitals location (rejected r1)
                        (rejected r2) (rejected r3)) w in
  (calculateTemperatureScore (temperature v) == 100
   /\ calculateAirQualityScore (bloodOxygen v) == 100
   /\ calculateInfectionsScore (infections v) == 100)%Q
  /\ temp_status (temperature v) = Temp_normal
  /\ bo_status (bloodOxygen v) = Air_healthy
  /\ inf_status (infections v) = Inf_clean.
Proof.
  unfold evalState. run_assembler. repeat split; vm_compute; reflexivity.
Qed.

(** X16.  When all three requests are rejected and the random numbers lie
    in [0, 1), the assembled record still scores between 72 and 90: the
    status is 'good' or 'excellent', never 'fair' or 'poor', and the
    recommendations are the general ones.  A complete outage reads as a
    healthy city. *)
Theorem processCityVitals_all_rejected :
  forall (location : LocationData Q) (r1 r2 r3 : string) (w : World Q),
    unitEntropy w ->
    let v := evalState (processCityVitals location (rejected r1)
                          (rejected r2) (rejected r3)) w in
    (72 <= score (overallHealth v) /\ score (overallHealth v) <= 90)%Q
    /\ (status (overallHealth v) = Overall_good
        \/ status (overallHealth v) = Overall_excellent)
    /\ oh_recommendations (overallHealth v) = generalAdvice.
Proof.
  intros location r1 r2 r3 w Hw v.
  destruct (processCityVitals_overallHealth location (rejected r1)
              (rejected r2) (rejected r3) w) as (Hscore & Hstatus & _ & Hrecs).
  destruct (processCityVitals_synthetic_scores location (rejected r1)
              (rejected r2) (rejected r3) w Hw) as (Hh & Hg).
  destruct (processCityVitals_default_scores location r1 r2 r3 w)
    as ((Ht & Ha & Hi) & Hts & Has & His).
  fold v in Hscore, Hstatus, Hrecs, Hh, Hg, Ht, Ha, Hi, Hts, Has, His.
  assert (Hrange : (72 <= score (overallHealth v)
                    /\ score (overallHealth v) <= 90)%Q).
  { rewrite Hscore, overallScore_weighted. split.
    - change 72%Q with (Q_round 71.5). apply Q_round_le.
      rewrite Ht, Ha, Hi. lra.
    - change 90%Q with (Q_round 89.6). apply Q_round_le.
      rewrite Ht, Ha, Hi. lra. }
  split; [exact Hrange | split].
  - rewrite Hstatus, generateDiagnosis_severity, <- Hscore.
    destruct (determineSeverity_bands (score (overallHealth v)))
      as (Hlow & Hmed & Hhigh & Hcrit).
    destruct (determineSeverity (score (overallHealth v)));
      [right; reflexivity | left; reflexivity | exfalso | exfalso].
    + destruct (proj1 Hhigh eq_refl). lra.
    + assert (H := proj1 Hcrit eq_refl). lra.
  - rewrite Hrecs.
    assert (Hhr : hr_status (heartRate v) = HR_normal).
    { unfold v.
      now rewrite (processCityVitals_heartRate location (rejected r1)
                     (rejected r2) (rejected r3) w). }
    assert (Him : im_status (immuneSystem v) = Green_strong).
    { unfold v.
      now rewrite (processCityVitals_immuneSystem location (rejected r1)
                     (rejected r2) (rejected r3) w). }
    unfold generateDiagnosis, generateRecommendations.
    cbn [recommendations]. rewrite Hhr, Him, Hts, Has, His. reflexivity.
Qed.

(** The theorem at the sample world. *)
Lemma processCityVitals_all_rejected_witness :
  let v := evalState (processCityVitals sampleLocation (rejected "a")
                        (rejected "b") (rejected "c")) sampleWorld in
  (72 <= score (overallHealth v) /\ score (overallHealth v) <= 90)%Q
  /\ (status (overallHealth v) = Overall_good
      \/ status (overallHealth v) = Overall_excellent)
  /\ oh_recommendations (overallHealth v) = generalAdvice.
Proof.
  apply (processCityVitals_all_rejected sampleLocation "a" "b" "c"
           sampleWorld).
  intros [| [| n]]; vm_compute; split; congruence.
Defined.

(** X17.  The assembler fixes the heart-rate status to 'normal' and the
    green-space status to 'strong', so two of the five blocks of advice
    can never reach an assembled record: whatever the settled results and
    the world, no recommendation of the record is one of the green-space
    or of the urban-activity pieces of advice. *)
Theorem processCityVitals_recommendations :
  forall (num : Type) (N : JSNumber num) (F : JSNumberFormat num)
         (location : LocationData num)
         (a : PromiseSettledResult (OpenAQResponse num))
         (e : PromiseSettledResult (USGSEarthquakeResponse num))
         (t : PromiseSettledResult (WeatherResponse num)) (w : World num)
         (advice : string),
    let v := evalState (processCityVitals location a e t) w in
    In advice (oh_recommendations (overallHealth v)) ->
    ~ In advice greenSpaceAdvice /\ ~ In advice urbanActivityAdvice.
Proof.
  intros num N F location a e t w advice v.
  destruct (processCityVitals_overallHealth location a e t w)
    as (_ & _ & _ & Hrecs).
  fold v in Hrecs. rewrite Hrecs.
  assert (Hhr : hr_status (heartRate v) = HR_normal).
  { unfold v.
    now rewrite (processCityVitals_heartRate location a e t w). }
  assert (Him : im_status (immuneSystem v) = Green_strong).
  { unfold v.
    now rewrite (processCityVitals_immuneSystem location a e t w). }
  unfold generateDiagnosis, generateRecommendations.
  cbn [recommendations]. rewrite Hhr, Him.
  destruct (bo_status (bloodOxygen v)), (temp_status (temperature v)),
    (inf_status (infections v)); cbn;
    intros H;
    repeat match goal with
           | H : _ \/ _ |- _ => destruct H
           | H : False |- _ => destruct H
           end;
    subst advice; split; intros H;
    repeat match goal with
           | H : _ \/ _ |- _ => destruct H
           | H : False |- _ => destruct H
           end;
    discriminate.
Qed.

(** The theorem at the sample run, whose first recommendation is the first
    piece of air-quality advice. *)
Lemma processCityVitals_recommendations_witness :
  ~ In "ðŸš— Implement low-emission zones and promote electric vehicle adoption"%string
       greenSpaceAdvice
  /\ ~ In "ðŸš— Implement low-emission zones and promote electric vehicle adoption"%string
          urbanActivityAdvice.
Proof.
  apply (processCityVitals_recommendations Q _ _ sampleLocation
           (fulfilled sampleAirQuality) (rejected "timeout")
           (fulfilled (sampleWeather 36.26)) sampleWorld).
  vm_compute. left. reflexivity.
Defined.

(* ===================================================================== *)
(** * Further properties: the mock data service *)
(* ===================================================================== *)

(** X18.  The mock service and the weather service grade a temperature
    differently: the mock one calls it 'fever' above 30 and 'critical'
    above 35 degrees, the weather service above 35 and 40.  The two agree
    exactly up to 30 and above 40 degrees; in between the mock status is
    one grade worse.  Their air-quality status functions are the same
    function, in every model of numbers. *)
Theorem Mock_status_functions :
  (forall t : Q,
      (Mock_determineTemperatureStatus t = determineTemperatureStatus t
       <-> t <= 30 \/ 40 < t)
      /\ (30 < t -> t <= 35 ->
          Mock_determineTemperatureStatus t = Temp_fever
          /\ determineTemperatureStatus t = Temp_normal)
      /\ (35 < t -> t <= 40 ->
          Mock_determineTemperatureStatus t = Temp_critical
          /\ determineTemperatureStatus t = Temp_fever))%Q
  /\ (forall (num : Type) (N : JSNumber num) (aqi : num),
      Mock_determineAirQualityStatus aqi = determineAirQualityStatus aqi).
Proof.
  split.
  - intros t.
    unfold Mock_determineTemperatureStatus, determineTemperatureStatus. cbn.
    q_cases; repeat split; intros;
      repeat match goal with
             | H : _ \/ _ |- _ => destruct H
             end;
      try discriminate; try reflexivity; try lra;
      try (left; lra); try (right; lra); exfalso; lra.
  - intros num N aqi. reflexivity.
Qed.

(** The theorem at 33 degrees. *)
Lemma Mock_status_functions_witness :
  Mock_determineTemperatureStatus 33%Q = Temp_fever
  /\ determineTemperatureStatus 33%Q = Temp_normal.
Proof.
  apply (proj1 (proj2 (proj1 Mock_status_functions 33%Q)));
    vm_compute; congruence.
Defined.

(** What the test of [getCityName] says about a location and an entry. *)
Lemma nearCity_spec (location : LocationData Q)
    (entry : string * MockLocation Q) :
  nearCity location entry = true
  <-> (- 0.1 < lat location - ml_lat (snd entry)
       /\ lat location - ml_lat (snd entry) < 0.1
       /\ - 0.1 < lon location - ml_lon (snd entry)
       /\ lon location - ml_lon (snd entry) < 0.1)%Q.
Proof.
  unfold nearCity. cbn -[Qabs].
  rewrite andb_true_iff, !negb_true_iff.
  assert (Hlt : forall x : Q,
             Qle_bool 0.1 (Qabs x) = false <-> (- 0.1 < x /\ x < 0.1)%Q).
  { intros x. assert (Habs := Qabs_Qlt_condition x 0.1).
    destruct (Qle_bool_spec 0.1 (Qabs x)) as [H | H]; split; intros H';
      try discriminate; try reflexivity.
    - apply Habs in H'. lra.
    - apply Habs. exact H. }
  rewrite !Hlt. tauto.
Qed.

(** The search of [getCityName] in terms of its test: a city whose entry
    passes it is the one named, and Los Angeles is named when none
    passes. *)
Lemma getCityName_by_test :
  (forall (location : LocationData Q) (cityName : string)
          (cityData : MockLocation Q),
      In (cityName, cityData) MOCK_LOCATIONS ->
      nearCity location (cityName, cityData) = true ->
      getCityName location = cityName)
  /\ (forall location : LocationData Q,
      (forall entry, In entry MOCK_LOCATIONS ->
                     nearCity location entry = false) ->
      getCityName location = "Los Angeles"%string
      /\ getBaseVitalsForCity (getCityName location) = losAngelesVitals).
Proof.
  split.
  - intros location cityName cityData Hin Hnear.
    apply nearCity_spec in Hnear. cbn [snd] in Hnear.
    unfold getCityName, MOCK_LOCATIONS. cbn [find].
    repeat match goal with
           | |- context [nearCity location ?e] =>
               let E := fresh "E" in
               destruct (nearCity location e) eqn:E;
               [apply nearCity_spec in E; cbn [snd ml_lat ml_lon] in E |]
           end;
      cbn in Hin;
      repeat match goal with
             | H : _ \/ _ |- _ => destruct H
             | H : False |- _ => destruct H
             | H : (_, _) = (_, _) |- _ => inversion H; subst; clear H
             end;
      try reflexivity;
      try (exfalso; cbn [ml_lat ml_lon lit Q_JSNumber] in *; lra);
      try (exfalso;
           match goal with
           | E : nearCity _ _ = false |- _ =>
               apply not_true_iff_false in E; apply E; apply nearCity_spec;
               cbn [snd ml_lat ml_lon lit Q_JSNumber] in *; lra
           end).
  - intros location Hnone. unfold getCityName.
    assert (H : find (nearCity location) MOCK_LOCATIONS = None).
    { unfold MOCK_LOCATIONS in *. cbn [find].
      rewrite !Hnone by (cbn; auto 10). reflexivity. }
    rewrite H. split; reflexivity.
Qed.

(** X19.  [getCityName] names the known city within a tenth of a degree
    of the location in latitude and in longitude: a location no more than
    0.0999 degrees off a city in both coordinates gets that city's name
    (the five cities lie far enough apart for at most one to qualify, so
    the order of the search does not matter), and a location at least
    0.1001 degrees off every city in one coordinate is taken for Los
    Angeles and gets the base vitals of Los Angeles.  Within a ten
    thousandth of a degree of the radius the rounding of the difference
    decides.  In binary64 each of the five cities is named at its own
    coordinates, and the point (0, 0) is taken for Los Angeles. *)
Theorem getCityName_nearest :
  (forall (location : LocationData Q) (cityName : string)
          (cityData : MockLocation Q),
      In (cityName, cityData) MOCK_LOCATIONS ->
      (Qabs (lat location - ml_lat cityData) <= 0.0999)%Q ->
      (Qabs (lon location - ml_lon cityData) <= 0.0999)%Q ->
      getCityName location = cityName)
  /\ (forall location : LocationData Q,
      (forall cityName cityData,
          In (cityName, cityData) MOCK_LOCATIONS ->
          (0.1001 <= Qabs (lat location - ml_lat cityData)
           \/ 0.1001 <= Qabs (lon location - ml_lon cityData))%Q) ->
      getCityName location = "Los Angeles"%string
      /\ getBaseVitalsForCity (getCityName location) = losAngelesVitals)
  /\ (let at_ (x y : float) : LocationData float :=
        {| lat := x; lon := y; city := None; country := None;
           timestamp := 1700000000000%float |} in
      Forall (fun entry : string * MockLocation float =>
                getCityName (at_ (ml_lat (snd entry)) (ml_lon (snd entry)))
                = fst entry) MOCK_LOCATIONS
      /\ getCityName (at_ 40.7%float (-74.0)%float) = "New York"%string
      /\ getCityName (at_ 0%float 0%float) = "Los Angeles"%string).
Proof.
  split; [| split].
  - intros location cityName cityData Hin Hlat Hlon.
    apply (proj1 getCityName_by_test location cityName cityData Hin).
    apply nearCity_spec. cbn [snd].
    apply Qabs_Qle_condition in Hlat, Hlon. lra.
  - intros location Hfar.
    apply (proj2 getCityName_by_test location).
    intros [cityName cityData] Hin.
    apply not_true_iff_false. intros Hnear.
    apply nearCity_spec in Hnear. cbn [snd] in Hnear.
    destruct (Hfar cityName cityData Hin) as [H | H];
      revert H; apply Qlt_not_le; apply Qabs_Qlt_condition; lra.
  - vm_compute. repeat constructor.
Qed.

(** The theorem at a location a few hundredths of a degree off Tokyo. *)
Lemma getCityName_nearest_witness :
  getCityName {| lat := 35.70; lon := 139.70; city := None; country := None;
                 timestamp := 1700000000000 |}
  = "Tokyo"%string.
Proof.
  apply (proj1 getCityName_nearest _ "Tokyo"%string
           {| ml_lat := 35.6762; ml_lon := 139.6503;
              ml_city := "Tokyo"; ml_country := "Japan" |}).
  - vm_compute. auto 10.
  - vm_compute. discriminate.
  - vm_compute. discriminate.
Defined.


(** The index [Math.floor(r * 3)] for a random number in [0, 1). *)
Lemma trend_index (r : Q) :
  (0 <= r -> r < 1 ->
   Qfloor (r * 3) = (if Qle_bool (1 # 3) r
                     then if Qle_bool (2 # 3) r then 2 else 1
                     else 0)%Z)%Q.
Proof.
  intros H0 H1.
  destruct (Qle_bool_spec (1 # 3) r) as [Ha | Ha];
    [destruct (Qle_bool_spec (2 # 3) r) as [Hb | Hb] |].
  - destruct (Qfloor_bounds (r * 3) 2 3) as [Hlo Hhi].
    { change (inject_Z 2) with 2%Q. lra. }
    { change (inject_Z 3) with 3%Q. lra. }
    rewrite <- Zle_Qle in Hlo, Hhi. lia.
  - destruct (Qfloor_bounds (r * 3) 1 2) as [Hlo Hhi].
    { change (inject_Z 1) with 1%Q. lra. }
    { change (inject_Z 2) with 2%Q. lra. }
    rewrite <- Zle_Qle in Hlo, Hhi. lia.
  - destruct (Qfloor_bounds (r * 3) 0 1) as [Hlo Hhi].
    { change (inject_Z 0) with 0%Q. lra. }
    { change (inject_Z 1) with 1%Q. lra. }
    rewrite <- Zle_Qle in Hlo, Hhi. lia.
Qed.

Lemma getRandomTrend_run (w : World Q) :
  (0 <= entropy w (drawn w) -> entropy w (drawn w) < 1 ->
   runState getRandomTrend w
   = (Some (if Qle_bool (1 # 3) (entropy w (drawn w))
            then if Qle_bool (2 # 3) (entropy w (drawn w))
                 then Trend_decreasing else Trend_stable
            else Trend_increasing),
      {| clock := clock w; entropy := entropy w; drawn := S (drawn w) |}))%Q.
Proof.
  intros H0 H1. unfold getRandomTrend. cbn -[trendAt Math_floor].
  change (Math_floor (entropy w (drawn w) * inject_Z 3))
    with (inject_Z (Qfloor (entropy w (drawn w) * 3))).
  rewrite (trend_index _ H0 H1).
  destruct (Qle_bool (1 # 3) (entropy w (drawn w)));
    [destruct (Qle_bool (2 # 3) (entropy w (drawn w))) |]; reflexivity.
Qed.

(** X20.  [getRandomTrend] draws one random number and, when it lies in
    [0, 1), always yields a trend, by thirds of the interval: 'increasing'
    up to 0.333, 'stable' from 0.334 to 0.666, 'decreasing' from 0.667.
    Next to 1/3 and 2/3 the rounding of the product by 3 decides: in
    binary64 the draws 0.33333333333333331 and 0.66666666666666663, each
    just below its third, yield 'stable' and 'decreasing'.  A number
    outside the interval can give an index off the array, and then no
    trend at all: a draw of 1 yields undefined. *)
Theorem getRandomTrend_thirds :
  (forall w : World Q,
      let r := entropy w (drawn w) in
      (0 <= r -> r < 1 ->
       (exists trend, evalState getRandomTrend w = Some trend)
       /\ (r <= 0.333 -> evalState getRandomTrend w = Some Trend_increasing)
       /\ (0.334 <= r -> r <= 0.666 ->
           evalState getRandomTrend w = Some Trend_stable)
       /\ (0.667 <= r -> evalState getRandomTrend w = Some Trend_decreasing)
       /\ execState getRandomTrend w
          = {| clock := clock w; entropy := entropy w;
               drawn := S (drawn w) |})%Q)
  /\ evalState getRandomTrend
       {| clock := 0%Q; entropy := fun _ => 1%Q; drawn := 0 |} = None
  /\ (let draw (r : float) : World float :=
        {| clock := 1700000000000%float; entropy := fun _ => r;
           drawn := 0 |} in
      evalState getRandomTrend (draw 0.33333333333333331%float)
      = Some Trend_stable
      /\ evalState getRandomTrend (draw 0.66666666666666663%float)
         = Some Trend_decreasing
      /\ evalState getRandomTrend (draw 0%float) = Some Trend_increasing
      /\ evalState getRandomTrend (draw 0.99999999999999989%float)
         = Some Trend_decreasing
      /\ evalState getRandomTrend (draw 1%float) = None).
Proof.
  split; [| split; [vm_compute; reflexivity | vm_compute; repeat split]].
  intros w r H0 H1. unfold evalState, execState.
  rewrite (getRandomTrend_run w H0 H1). fold r. cbn [fst snd].
  split; [eexists; reflexivity |].
  repeat split; intros;
    destruct (Qle_bool_spec (1 # 3) r); try lra;
    destruct (Qle_bool_spec (2 # 3) r); try lra; reflexivity.
Qed.

(** The theorem at the sample world, whose first draw is 0.5. *)
Lemma getRandomTrend_thirds_witness :
  evalState getRandomTrend sampleWorld = Some Trend_stable.
Proof.
  apply (proj1 (proj2 (proj2 (proj1 getRandomTrend_thirds sampleWorld
                                ltac:(vm_compute; discriminate)
                                ltac:(vm_compute; reflexivity)))));
    vm_compute; discriminate.
Defined.

(** Runs the binds of [generateMockVitals], leaving its pure parts
    folded. *)
Ltac run_mock :=
  cbn -[getCityName getBaseVitalsForCity trendAt determineStatus
        Mock_determineTemperatureStatus Mock_determineAirQualityStatus
        determineGreenSpaceStatus determineInfectionStatus
        generateHeartRateDescription Mock_generateTemperatureDescription
        generateAirQualityDescription generateGreenSpaceDescription
        generateInfectionDescription Math_round Math_floor Math_max
        add sub mul div lit of_length].

(** X21.  A run of the mock generator draws exactly five random numbers
    (the random factor and four trends) and leaves the clock alone.  Its
    record is not diagnosed: the overall health is the placeholder with
    score 0 and status 'fair', without diagnosis or recommendations,
    whatever the vitals.  The two hazard counts are never negative. *)
Theorem generateMockVitals_shape :
  (forall (num : Type) (N : JSNumber num) (T : JSNumberTests num)
          (F : JSNumberFormat num) (S : JSNumberToString num)
          (location : LocationData num) (w : World num),
      execState (generateMockVitals location) w
      = {| clock := clock w; entropy := entropy w;
           drawn := 5 + drawn w |}
      /\ mv_overallHealth (evalState (generateMockVitals location) w)
         = {| score := lit 0; status := Overall_fair;
              oh_diagnosis := EmptyString; oh_recommendations := [] |})
  /\ (forall (S : JSNumberToString Q) (location : LocationData Q)
             (w : World Q),
      let v := evalState (generateMockVitals location) w in
      (0 <= disasterEvents (mv_infections v)
       /\ 0 <= pollutionHotspots (mv_infections v))%Q).
Proof.
  split.
  - intros num N T F S location w. unfold execState, evalState.
    run_mock. split; reflexivity.
  - intros S location w v. subst v. unfold evalState. run_mock.
    cbn [Math_max Q_JSNumber lit]. split; q_cases; lra.
Qed.

(** The base vitals of the five cities. *)
Lemma getBaseVitalsForCity_heartRate (cityName : string) :
  (65 <= b_heartRate (@getBaseVitalsForCity Q _ cityName)
   /\ b_heartRate (@getBaseVitalsForCity Q _ cityName) <= 90)%Q.
Proof.
  unfold getBaseVitalsForCity.
  repeat match goal with
         | |- context [String.eqb ?a ?b] => destruct (String.eqb a b)
         end; cbn; lra.
Qed.

(** X22.  With random numbers in [0, 1), the random factor of the mock
    generator lies in [-0.15, 0.15): the four trends are all defined, and
    the heart rate is a whole number within 15 percent (and the rounding)
    of the city's base value, so between 55 and 104 for the five cities. *)
Theorem generateMockVitals_unit_draws :
  forall (S : JSNumberToString Q) (location : LocationData Q) (w : World Q),
    unitEntropy w ->
    let v := evalState (generateMockVitals location) w in
    let base := b_heartRate (getBaseVitalsForCity (getCityName location)) in
    (mh_trend (mv_heartRate v) <> None
     /\ mt_trend (mv_temperature v) <> None
     /\ mb_trend (mv_bloodOxygen v) <> None
     /\ mi_trend (mv_immuneSystem v) <> None)
    /\ (Q_round (base * 0.85) <= mh_value (mv_heartRate v)
        /\ mh_value (mv_heartRate v) <= Q_round (base * 1.15)
        /\ 55 <= mh_value (mv_heartRate v)
        /\ mh_value (mv_heartRate v) <= 104)%Q.
Proof.
  intros S location w Hw v base. subst v. unfold evalState.
  unfold generateMockVitals.
  cbn -[getCityName getBaseVitalsForCity getRandomTrend determineStatus
        Mock_determineTemperatureStatus Mock_determineAirQualityStatus
        determineGreenSpaceStatus determineInfectionStatus
        generateHeartRateDescription Mock_generateTemperatureDescription
        generateAirQualityDescription generateGreenSpaceDescription
        generateInfectionDescription Math_round Math_floor Math_max
        add sub mul div lit of_length].
  rewrite !getRandomTrend_run by (cbn [entropy drawn]; apply Hw).
  cbn [fst mv_heartRate mv_temperature mv_bloodOxygen mv_immuneSystem
       mh_trend mt_trend mb_trend mi_trend mh_value].
  split; [repeat split; discriminate |].
  destruct (Hw (drawn w)) as [H0 H1].
  destruct (getBaseVitalsForCity_heartRate (getCityName location))
    as [Hlo Hhi].
  fold base in Hlo, Hhi |- *.
  change (Math_round (base * (lit 1 + (entropy w (drawn w) * lit 0.3
                                        - lit 0.15)))%js)
    with (Q_round (base * (1 + (entropy w (drawn w) * 0.3 - 0.15)))%Q).
  generalize dependent (entropy w (drawn w)). intros r H0 H1.
  clearbody base.
  assert (Ha : (Q_round (base * 0.85)
                <= Q_round (base * (1 + (r * 0.3 - 0.15))))%Q).
  { apply Q_round_le. nra. }
  assert (Hb : (Q_round (base * (1 + (r * 0.3 - 0.15)))
                <= Q_round (base * 1.15))%Q).
  { apply Q_round_le. nra. }
  assert (Hc : (55 <= Q_round (base * 0.85))%Q).
  { change 55%Q with (Q_round (65 * 0.85)). apply Q_round_le. lra. }
  assert (Hd : (Q_round (base * 1.15) <= 104)%Q).
  { change 104%Q with (Q_round (90 * 1.15)). apply Q_round_le. lra. }
  repeat split; lra.
Qed.

(** The theorem at the sample world and location. *)
Lemma generateMockVitals_unit_draws_witness :
  let S := {| Number_toString := fun q : Q => toFixed q 2 |} in
  let v := evalState (generateMockVitals sampleLocation) sampleWorld in
  (55 <= mh_value (mv_heartRate v) /\ mh_value (mv_heartRate v) <= 104)%Q.
Proof.
  intros S v.
  destruct (generateMockVitals_unit_draws S sampleLocation sampleWorld)
    as (_ & _ & _ & H55 & H104).
  - intros [| [| n]]; vm_compute; split; congruence.
  - split; [exact H55 | exact H104].
Defined.

(* ===================================================================== *)
(** * Further properties: the data validator *)
(* ===================================================================== *)

(** Whatever a number is at most is no NaN. *)
Lemma float_leb_eqb_r (a b : float) :
  PrimFloat.leb a b = true -> PrimFloat.eqb b b = true.
Proof.
  rewrite FloatAxioms.leb_spec, FloatAxioms.eqb_spec.
  unfold SpecFloat.SFleb, SpecFloat.SFeqb.
  destruct (Prim2SF a) as [sa | sa | | sa ma ea],
           (Prim2SF b) as [sb | sb | | sb mb eb];
    simpl; try congruence; try (destruct sb; reflexivity).
  all: destruct sb; rewrite ?Z.compare_refl, ?Pos.compare_cont_refl;
    reflexivity.
Qed.

(** A binary64 number is within two bounds, themselves no NaN, exactly
    when it is no NaN and neither below the lower nor above the upper
    one. *)
Lemma float_within (x lo hi : float) :
  PrimFloat.eqb lo lo = true -> PrimFloat.eqb hi hi = true ->
  (PrimFloat.is_nan x = false
   /\ PrimFloat.ltb x lo = false /\ PrimFloat.ltb hi x = false
   <-> PrimFloat.leb lo x = true /\ PrimFloat.leb x hi = true).
Proof.
  intros Hlo' Hhi'. split.
  - intros (Hnan & Hlo & Hhi).
    pose proof (float_is_nan_eqb x Hnan) as Hx.
    split; apply float_not_ltb_leb; assumption.
  - intros [Hlo Hhi]. repeat split.
    + pose proof (float_leb_eqb_r _ _ Hlo) as H.
      unfold PrimFloat.is_nan. now rewrite H.
    + destruct (PrimFloat.ltb x lo) eqn:E; [| reflexivity].
      apply float_ltb_not_leb in E. congruence.
    + destruct (PrimFloat.ltb hi x) eqn:E; [| reflexivity].
      apply float_ltb_not_leb in E. congruence.
Qed.

(** X23.  [validateLocation] accepts a location exactly when its latitude
    lies within -90 and 90 and its longitude within -180 and 180, both
    ends included, and none of latitude, longitude and timestamp is NaN.
    A timestamp that is a number has no say in the validity and only earns
    a warning, when the location is more than 24 hours old (exactly 24
    hours is not); a timestamp that is NaN is an error and earns no
    warning.  The location is handed back and the world left alone. *)
Theorem validateLocation_bounds :
  (forall (num : Type) (N : JSNumber num) (T : JSNumberTests num)
          (location : LocationData num) (w : World num),
      let r := evalState (validateLocation location) w in
      (isValid r = true
       <-> (isNaN (lat location) = false
            /\ ltb (lat location) (lit (-90)) = false
            /\ ltb (lit 90) (lat location) = false)
           /\ (isNaN (lon location) = false
               /\ ltb (lon location) (lit (-180)) = false
               /\ ltb (lit 180) (lon location) = false)
           /\ isNaN (timestamp location) = false)
      /\ (warnings r = ["Location data is more than 24 hours old"%string]
          <-> isNaN (timestamp location) = false
              /\ ltb (lit 24 * lit 60 * lit 60 * lit 1000)%js
                     (clock w - timestamp location)%js = true)
      /\ (warnings r = [] \/
          warnings r = ["Location data is more than 24 hours old"%string])
      /\ (isNaN (lat location) = true ->
          In "Latitude must be a valid number"%string (errors r))
      /\ (isNaN (timestamp location) = true ->
          In "Timestamp must be a valid number"%string (errors r)
          /\ warnings r = [])
      /\ data r = Some location
      /\ execState (validateLocation location) w = w)
  /\ (forall (location : LocationData float) (w : World float),
      let r := evalState (validateLocation location) w in
      (isValid r = true
       <-> (PrimFloat.leb (-90) (lat location) = true
            /\ PrimFloat.leb (lat location) 90 = true)
           /\ (PrimFloat.leb (-180) (lon location) = true
               /\ PrimFloat.leb (lon location) 180 = true)
           /\ PrimFloat.is_nan (timestamp location) = false)
      /\ (warnings r = ["Location data is more than 24 hours old"%string]
          <-> PrimFloat.is_nan (timestamp location) = false
              /\ PrimFloat.ltb 86400000
                   (clock w - timestamp location) = true))%float
  /\ (isValid (evalState (validateLocation sampleLocation) sampleWorld)
      = true
      /\ isValid (evalState
                    (validateLocation
                       {| lat := 200; lon := -118.2437; city := None;
                          country := None; timestamp := 1700000000000 |})
                    sampleWorld) = false)
  /\ (let at_ (x y t : float) : LocationData float :=
        {| lat := x; lon := y; city := None; country := None;
           timestamp := t |} in
      let w : World float :=
        {| clock := 1700000000000; entropy := fun _ => 0.5; drawn := 0 |} in
      isValid (evalState (validateLocation (at_ 34.0522 (-118.2437)
                                              1700000000000)) w) = true
      /\ isValid (evalState (validateLocation (at_ 200 (-118.2437)
                                                 1700000000000)) w) = false
      /\ isValid (evalState (validateLocation (at_ 90 (-180)
                                                 1700000000000)) w) = true
      /\ isValid (evalState (validateLocation (at_ 34.0522 (-118.2437) nan))
                            w) = false
      /\ warnings (evalState (validateLocation (at_ 34.0522 (-118.2437)
                                                  1699913600000)) w) = []
      /\ warnings (evalState (validateLocation (at_ 34.0522 (-118.2437)
                                                  1699913599999)) w)
         = ["Location data is more than 24 hours old"%string])%float.
Proof.
  assert (Hgen : forall (num : Type) (N : JSNumber num)
                        (T : JSNumberTests num)
                        (location : LocationData num) (w : World num),
      let r := evalState (validateLocation location) w in
      (isValid r = true
       <-> (isNaN (lat location) = false
            /\ ltb (lat location) (lit (-90)) = false
            /\ ltb (lit 90) (lat location) = false)
           /\ (isNaN (lon location) = false
               /\ ltb (lon location) (lit (-180)) = false
               /\ ltb (lit 180) (lon location) = false)
           /\ isNaN (timestamp location) = false)
      /\ (warnings r = ["Location data is more than 24 hours old"%string]
          <-> isNaN (timestamp location) = false
              /\ ltb (lit 24 * lit 60 * lit 60 * lit 1000)%js
                     (clock w - timestamp location)%js = true)
      /\ (warnings r = [] \/
          warnings r = ["Location data is more than 24 hours old"%string])
      /\ (isNaN (lat location) = true ->
          In "Latitude must be a valid number"%string (errors r))
      /\ (isNaN (timestamp location) = true ->
          In "Timestamp must be a valid number"%string (errors r)
          /\ warnings r = [])
      /\ data r = Some location
      /\ execState (validateLocation location) w = w).
  { intros num N T location w r. subst r.
    unfold validateLocation, evalState, execState, pushIf.
    destruct (isNaN (lat location)), (isNaN (lon location)),
      (isNaN (timestamp location));
      cbn -[lit ltb mul sub];
      repeat match goal with
             | |- context [ltb ?a ?b] => destruct (ltb a b)
             end;
      cbn; repeat split; intros;
      repeat match goal with H : _ /\ _ |- _ => destruct H end;
      try discriminate; try reflexivity; auto;
      try (destruct w; reflexivity). }
  split; [exact Hgen | split; [| split; [| vm_compute; repeat split]]].
  - intros location w r.
    destruct (Hgen float _ _ location w) as (Hvalid & Hwarn & _).
    fold r in Hvalid, Hwarn. split.
    + rewrite Hvalid.
      change (lit (-90)) with (-90)%float. change (lit 90) with 90%float.
      change (lit (-180)) with (-180)%float. change (lit 180) with 180%float.
      change (@isNaN float _) with PrimFloat.is_nan.
      change (@ltb float _) with PrimFloat.ltb.
      rewrite (float_within (lat location) (-90) 90) by reflexivity.
      rewrite (float_within (lon location) (-180) 180) by reflexivity.
      reflexivity.
    + rewrite Hwarn.
      change (lit 24 * lit 60 * lit 60 * lit 1000)%js with 86400000%float.
      reflexivity.
  - vm_compute. split; reflexivity.
Qed.

(** The theorem at a location whose latitude is NaN. *)
Lemma validateLocation_bounds_witness :
  let location := {| lat := nan; lon := 0%float; city := None;
                     country := None; timestamp := 0%float |} in
  let w := {| clock := 0%float; entropy := fun _ => 0%float; drawn := 0 |} in
  In "Latitude must be a valid number"%string
     (errors (evalState (validateLocation location) w)).
Proof.
  intros location w.
  apply (proj1 validateLocation_bounds float _ _ location w).
  vm_compute. reflexivity.
Defined.

Lemma pushIf_length (condition : bool) (message : string) :
  (List.length (pushIf condition message) <= 1)%nat.
Proof. destruct condition; cbn; lia. Qed.

(** At most eleven warnings can be raised about a record. *)
Lemma cityVitalsWarnings_length {num : Type} {N : JSNumber num}
    {T : JSNumberTests num} (v : CityVitals num) :
  (List.length (cityVitalsWarnings v) <= 11)%nat.
Proof.
  unfold cityVitalsWarnings. rewrite !length_app.
  repeat match goal with
         | |- context [List.length (pushIf ?c ?m)] =>
             let H := fresh "H" in
             assert (H := pushIf_length c m);
             generalize dependent (List.length (pushIf c m)); intros
         end.
  lia.
Qed.

(** Over the rationals no value is NaN, so no error is raised. *)
Lemma cityVitalsErrors_Q (v : CityVitals Q) : cityVitalsErrors v = [].
Proof. reflexivity. Qed.

(** X24.  A record is valid exactly when none of its six checked values
    (heart rate, temperature, air-quality index, green-space coverage,
    NDVI, overall score) is NaN, in every model of numbers: a value out
    of range only earns a warning.  Over the rationals, where there is no
    NaN, the quality score is 100 less 5 for each of the at most eleven
    warnings, so at least 45; the report advises to improve data quality
    from five warnings on, to consider other sources from nine on, and
    never to fix validation errors; it carries the clock as its
    timestamp. *)
Theorem generateQualityReport_penalties :
  (forall (num : Type) (N : JSNumber num) (T : JSNumberTests num)
          (v : CityVitals num),
      isValid (validateCityVitals v) = true
      <-> isNaN (hr_value (heartRate v)) = false
          /\ isNaN (temp_value (temperature v)) = false
          /\ isNaN (bo_value (bloodOxygen v)) = false
          /\ isNaN (greenSpaceCoverage (immuneSystem v)) = false
          /\ isNaN (ndvi (immuneSystem v)) = false
          /\ isNaN (score (overallHealth v)) = false)
  /\ (forall (v : CityVitals Q) (w : World Q),
      let r := evalState (generateQualityReport v) w in
      let n := List.length (warnings (validateCityVitals v)) in
      (qr_overallScore r == 100 - 5 * inject_Z (Z.of_nat n))%Q
      /\ (45 <= qr_overallScore r /\ qr_overallScore r <= 100)%Q
      /\ qr_issues r = warnings (validateCityVitals v)
      /\ qr_timestamp r = clock w
      /\ (In "Improve data quality and validation"%string
             (qr_recommendations r) <-> (5 <= n)%nat)
      /\ (In "Consider using alternative data sources"%string
             (qr_recommendations r) <-> (9 <= n)%nat)
      /\ ~ In "Fix critical data validation errors"%string
              (qr_recommendations r)).
Proof.
  split.
  - intros num N T v. unfold validateCityVitals, cityVitalsErrors, pushIf.
    cbn [isValid].
    destruct (isNaN (hr_value (heartRate v))),
      (isNaN (temp_value (temperature v))),
      (isNaN (bo_value (bloodOxygen v))),
      (isNaN (greenSpaceCoverage (immuneSystem v))),
      (isNaN (ndvi (immuneSystem v))),
      (isNaN (score (overallHealth v))); cbn;
      split; intros; repeat match goal with H : _ /\ _ |- _ => destruct H end;
      try discriminate; try reflexivity; repeat split.
  - intros v w r n. subst r.
    assert (Hn := cityVitalsWarnings_length v).
    change (cityVitalsWarnings v) with (warnings (validateCityVitals v)) in Hn.
    fold n in Hn.
    unfold generateQualityReport, evalState.
    cbn -[validateCityVitals pushIf Math_max of_length leb ltb lit sub mul
          Nat.ltb In].
    change (errors (validateCityVitals v)) with (@nil string).
    fold n. cbn [app List.length].
    split; [| split; [| split; [reflexivity | split; [reflexivity |]]]];
      clearbody n;
      do 12 (destruct n as [| n];
             [vm_compute; repeat split; intros;
              repeat match goal with
                     | H : _ \/ _ |- _ => destruct H
                     | H : False |- _ => destruct H
                     end;
              try discriminate; try reflexivity; try lia; auto 8 |]);
      exfalso; lia.
Qed.

(** The theorem at the perfect record, which earns no warning. *)
Lemma generateQualityReport_penalties_witness :
  isValid (validateCityVitals perfectVitals) = true.
Proof.
  apply (proj1 generateQualityReport_penalties Q _ _ perfectVitals).
  repeat split.
Defined.

Lemma outside_false (x lo hi : Q) :
  (lo <= x -> x <= hi -> outside x lo hi = false)%Q.
Proof.
  intros Hlo Hhi. unfold outside. cbn. q_cases; try reflexivity; lra.
Qed.

Lemma negative_false (x : Q) : (0 <= x)%Q -> ltb x 0%Q = false.
Proof. intros H. cbn. q_cases; try reflexivity; lra. Qed.

(** X25.  The validator on the assembler's own output.  With random
    numbers in [0, 1) and provider readings that are finite numbers (every
    rational is), the only warnings an assembled record can earn are the
    one about the temperature and the three about negative pollutant
    averages: heart rate, air-quality index, green space, NDVI, hazard
    counts and overall score are always within their expected ranges.  So
    its quality score is at least 80.  Readings that are not finite break
    this: in binary64, a station that reports a PM2.5 of +Infinity and one
    of -Infinity has the average NaN, the air-quality index of the record
    is NaN, and the record is invalid. *)
Theorem validateCityVitals_of_processCityVitals :
  (forall (location : LocationData Q)
          (a : PromiseSettledResult (OpenAQResponse Q))
          (e : PromiseSettledResult (USGSEarthquakeResponse Q))
          (t : PromiseSettledResult (WeatherResponse Q)) (w w' : World Q),
    unitEntropy w ->
    let v := evalState (processCityVitals location a e t) w in
    (forall message : string,
        In message (warnings (validateCityVitals v)) ->
        message = "Temperature value seems unrealistic"%string
        \/ message = "Invalid NO2 value"%string
        \/ message = "Invalid PM2.5 value"%string
        \/ message = "Invalid O3 value"%string)
    /\ (List.length (warnings (validateCityVitals v)) <= 4)%nat
    /\ isValid (validateCityVitals v) = true
    /\ (80 <= qr_overallScore (evalState (generateQualityReport v) w'))%Q)
  /\ (forall (F : JSNumberFormat float) (location : LocationData float)
             (e : PromiseSettledResult (USGSEarthquakeResponse float))
             (t : PromiseSettledResult (WeatherResponse float))
             (w : World float),
      let a : OpenAQResponse float :=
        {| results := Some [station [reading "pm25" (Some infinity);
                                     reading "pm25" (Some neg_infinity)]] |} in
      let v := evalState (processCityVitals location (fulfilled a) e t) w in
      PrimFloat.is_nan (bo_value (bloodOxygen v)) = true
      /\ In "Invalid air quality value"%string
            (errors (validateCityVitals v))
      /\ isValid (validateCityVitals v) = false).
Proof.
  split.
  2:{ intros F location e t w a v.
      destruct (processCityVitals_bloodOxygen location (fulfilled a) e t w)
        as (Hb & _).
      fold v in Hb.
      assert (Hnan : isNaN (bo_value (bloodOxygen v)) = true).
      { rewrite Hb. vm_compute. reflexivity. }
      split; [exact Hnan |].
      unfold validateCityVitals, cityVitalsErrors. cbn [errors isValid].
      rewrite Hnan. unfold pushIf.
      destruct (isNaN (hr_value (heartRate v))),
        (isNaN (temp_value (temperature v))),
        (isNaN (greenSpaceCoverage (immuneSystem v))),
        (isNaN (ndvi (immuneSystem v))),
        (isNaN (score (overallHealth v))); cbn; split;
        auto 8. }
  intros location a e t w w' Hw v.
  (* the ranges of the fields *)
  destruct (processCityVitals_synthetic_ranges_fields location a e t w Hw)
    as ((Hh & Hh') & (Hg & Hg') & (Hn & Hn')).
  fold v in Hh, Hh', Hg, Hg', Hn, Hn'.
  assert (Hbo : (0 <= bo_value (bloodOxygen v) <= 500)%Q).
  { destruct (processCityVitals_bloodOxygen location a e t w) as (Hb & _).
    unfold v. rewrite Hb.
    destruct a as [response | reason];
      [apply processAirQualityData_range | cbn; lra]. }
  assert (Hd : (0 <= disasterEvents (infections v))%Q
               /\ (0 <= pollutionHotspots (infections v))%Q).
  { destruct (processCityVitals_infections location a e t w)
      as (Hd & Hp & _).
    unfold v. rewrite Hd, Hp.
    destruct e as [response | reason]; [| cbn; lra].
    destruct (processEarthquakeData_run response w) as (_ & He & Hz & _).
    unfold evalState. rewrite He, Hz. unfold of_length.
    cbn [lit Q_JSNumber]. split; [| lra].
    change 0%Q with (inject_Z 0). rewrite <- Zle_Qle. lia. }
  destruct Hd as [Hd Hp].
  assert (Hs : (0 <= score (overallHealth v) <= 100)%Q).
  { destruct (processCityVitals_overallHealth location a e t w)
      as (Hscore & _).
    fold v in Hscore. rewrite Hscore. apply overallScore_range. }
  assert (Hwarn :
    warnings (validateCityVitals v)
    = (pushIf (outside (temp_value (temperature v)) (lit (-50)) (lit 60))
              "Temperature value seems unrealistic"
       ++ pushIf (ltb (no2 (pollutants (bloodOxygen v))) (lit 0))
                 "Invalid NO2 value"
       ++ pushIf (ltb (pm25 (pollutants (bloodOxygen v))) (lit 0))
                 "Invalid PM2.5 value"
       ++ pushIf (ltb (o3 (pollutants (bloodOxygen v))) (lit 0))
                 "Invalid O3 value")%list).
  { unfold validateCityVitals, cityVitalsWarnings. cbn [warnings].
    cbn [lit Q_JSNumber].
    rewrite (outside_false (hr_value (heartRate v)) 0 200) by lra.
    rewrite (outside_false (bo_value (bloodOxygen v)) 0 500) by lra.
    rewrite (outside_false (greenSpaceCoverage (immuneSystem v)) 0 100)
      by lra.
    rewrite (outside_false (ndvi (immuneSystem v)) (-1) 1) by lra.
    rewrite (outside_false (score (overallHealth v)) 0 100) by lra.
    rewrite (negative_false (disasterEvents (infections v)) Hd).
    rewrite (negative_false (pollutionHotspots (infections v)) Hp).
    cbn [pushIf app]. rewrite !app_nil_r. reflexivity. }
  assert (Hlen : (List.length (warnings (validateCityVitals v)) <= 4)%nat).
  { rewrite Hwarn, !length_app.
    repeat match goal with
           | |- context [List.length (pushIf ?c ?m)] =>
               let H := fresh "H" in
               assert (H := pushIf_length c m);
               generalize dependent (List.length (pushIf c m)); intros
           end.
    lia. }
  split; [| split; [exact Hlen | split; [reflexivity |]]].
  - intros message. rewrite Hwarn. unfold pushIf.
    repeat match goal with
           | |- context [if ?b then _ else _] => destruct b
           end; cbn; intuition.
  - unfold generateQualityReport, evalState.
    cbn -[validateCityVitals pushIf Math_max of_length leb ltb lit sub mul
          Nat.ltb In].
    change (errors (validateCityVitals v)) with (@nil string).
    revert Hlen.
    generalize (List.length (warnings (validateCityVitals v))) as n.
    intros n Hlen.
    do 5 (destruct n as [| n]; [vm_compute; discriminate |]).
    exfalso. lia.
Qed.

(** The theorem at the sample run with a reading of 1000 degrees, which
    earns the temperature warning and no other. *)
Lemma validateCityVitals_of_processCityVitals_witness :
  let v := evalState (processCityVitals sampleLocation
                        (fulfilled sampleAirQuality) (rejected "timeout")
                        (fulfilled (sampleWeather 1000))) sampleWorld in
  (List.length (warnings (validateCityVitals v)) <= 4)%nat
  /\ isValid (validateCityVitals v) = true
  /\ (80 <= qr_overallScore (evalState (generateQualityReport v)
                               sampleWorld))%Q.
Proof.
  intros v.
  apply (proj1 validateCityVitals_of_processCityVitals sampleLocation
           (fulfilled sampleAirQuality) (rejected "timeout")
           (fulfilled (sampleWeather 1000)) sampleWorld sampleWorld).
  intros [| [| n]]; vm_compute; split; congruence.
Defined.

(** X26.  Staleness.  Data is stale when the clock is more than the
    maximum age past its timestamp, five minutes (300 000 ms) when no
    maximum is given: at exactly five minutes it is still fresh.  Once
    stale it stays stale as the clock advances, and the check leaves the
    world alone. *)
Theorem isDataStale_threshold :
  forall (timestamp : Q) (maxAgeMs : option Q) (w : World Q),
    let limit := match maxAgeMs with Some m => m | None => 300000%Q end in
    (evalState (isDataStale timestamp maxAgeMs) w = true
     <-> (limit < clock w - timestamp)%Q)
    /\ execState (isDataStale timestamp maxAgeMs) w = w
    /\ (forall w' : World Q,
          (clock w <= clock w')%Q ->
          evalState (isDataStale timestamp maxAgeMs) w = true ->
          evalState (isDataStale timestamp maxAgeMs) w' = true).
Proof.
  intros timestamp maxAgeMs w limit.
  assert (Hrun : forall x : World Q,
             evalState (isDataStale timestamp maxAgeMs) x = true
             <-> (limit < clock x - timestamp)%Q).
  { intros x. unfold evalState, isDataStale. subst limit.
    destruct maxAgeMs as [m |]; cbn; q_cases; split; intros;
      try discriminate; try reflexivity; try lra;
      exfalso; revert H; vm_compute in *; lra. }
  split; [apply Hrun | split].
  - unfold execState, isDataStale. destruct maxAgeMs; destruct w; reflexivity.
  - intros w' Hclock H. apply Hrun. apply Hrun in H. lra.
Qed.

(** The theorem at a timestamp six minutes before the sample clock, read
    again a minute later. *)
Lemma isDataStale_threshold_witness :
  evalState (isDataStale 1699999640000%Q None)
            {| clock := 1700000060000%Q; entropy := entropy sampleWorld;
               drawn := 0 |}
  = true.
Proof.
  apply (proj2 (proj2 (isDataStale_threshold 1699999640000%Q None
                         sampleWorld))).
  - vm_compute. discriminate.
  - vm_compute. reflexivity.
Defined.

(* ===================================================================== *)
(** * Further properties: the API tester *)
(* ===================================================================== *)

Lemma filter_length_le_all {A : Type} (f : A -> bool) (l : list A) :
  (List.length (filter f l) <= List.length l)%nat.
Proof.
  induction l as [| x l IH]; cbn; [lia |].
  destruct (f x); cbn; lia.
Qed.

(** X27.  The overall status of a test suite by the share of successes:
    'healthy' exactly from four fifths on, 'degraded' from one half on,
    'critical' below, and 'critical' for a suite without results (in
    binary64 the rate is then NaN, and every comparison with it fails).
    For the nine results of the full suite, in binary64: 'healthy' with
    eight or nine successes, 'degraded' with five to seven, 'critical'
    with four or fewer. *)
Theorem determineOverallStatus_share :
  (forall results : list (APITestResult Q),
      let s := Z.of_nat (List.length (filter isSuccess results)) in
      let n := Z.of_nat (List.length results) in
      (0 < n)%Z ->
      (determineOverallStatus results = Suite_healthy <-> (4 * n <= 5 * s)%Z)
      /\ (determineOverallStatus results = Suite_degraded
          <-> (n <= 2 * s /\ 5 * s < 4 * n)%Z)
      /\ (determineOverallStatus results = Suite_critical
          <-> (2 * s < n)%Z))
  /\ (@determineOverallStatus Q _ [] = Suite_critical
      /\ @determineOverallStatus float _ [] = Suite_critical)
  /\ (forall results : list (APITestResult float),
      let s := List.length (filter isSuccess results) in
      List.length results = 9%nat ->
      (determineOverallStatus results = Suite_healthy <-> (8 <= s)%nat)
      /\ (determineOverallStatus results = Suite_degraded
          <-> (5 <= s <= 7)%nat)
      /\ (determineOverallStatus results = Suite_critical
          <-> (s <= 4)%nat)).
Proof.
  split; [| split].
  - intros results s n Hn. unfold determineOverallStatus, of_length.
    fold s. fold n. cbn [leb div lit Q_JSNumber].
    assert (Hn' : (0 < inject_Z n)%Q).
    { change 0%Q with (inject_Z 0). now rewrite <- Zlt_Qlt. }
    assert (H8 : (0.8 <= inject_Z s / inject_Z n <-> (4 * n <= 5 * s)%Z)%Q).
    { split; intros H.
      - apply (Qmult_le_r _ _ (inject_Z n)) in H; [| exact Hn'].
        assert (He : (inject_Z s / inject_Z n * inject_Z n == inject_Z s)%Q).
        { field. intros Hz. rewrite Hz in Hn'. lra. }
        rewrite He in H.
        assert (H' : (inject_Z (4 * n) <= inject_Z (5 * s))%Q).
        { rewrite !inject_Z_mult. change (inject_Z 4) with 4%Q.
          change (inject_Z 5) with 5%Q. lra. }
        now rewrite <- Zle_Qle in H'.
      - apply Qle_shift_div_l; [exact Hn' |].
        rewrite Zle_Qle, !inject_Z_mult in H.
        change (inject_Z 4) with 4%Q in H.
        change (inject_Z 5) with 5%Q in H. lra. }
    assert (H5 : (0.5 <= inject_Z s / inject_Z n <-> (n <= 2 * s)%Z)%Q).
    { split; intros H.
      - apply (Qmult_le_r _ _ (inject_Z n)) in H; [| exact Hn'].
        assert (He : (inject_Z s / inject_Z n * inject_Z n == inject_Z s)%Q).
        { field. intros Hz. rewrite Hz in Hn'. lra. }
        rewrite He in H.
        assert (H' : (inject_Z n <= inject_Z (2 * s))%Q).
        { rewrite !inject_Z_mult. change (inject_Z 2) with 2%Q. lra. }
        now rewrite <- Zle_Qle in H'.
      - apply Qle_shift_div_l; [exact Hn' |].
        rewrite Zle_Qle, !inject_Z_mult in H.
        change (inject_Z 2) with 2%Q in H. lra. }
    destruct (Qle_bool_spec 0.8 (inject_Z s / inject_Z n)) as [Ha | Ha];
      [| destruct (Qle_bool_spec 0.5 (inject_Z s / inject_Z n))
           as [Hb | Hb]].
    + apply H8 in Ha. repeat split; intros; try discriminate;
        try reflexivity; lia.
    + assert (Ha' : ~ (4 * n <= 5 * s)%Z) by (intros H; apply H8 in H; lra).
      apply H5 in Hb. repeat split; intros; try discriminate;
        try reflexivity; lia.
    + assert (Ha' : ~ (4 * n <= 5 * s)%Z) by (intros H; apply H8 in H; lra).
      assert (Hb' : ~ (n <= 2 * s)%Z) by (intros H; apply H5 in H; lra).
      repeat split; intros; try discriminate; try reflexivity; lia.
  - split; vm_compute; reflexivity.
  - intros results s Hlen. unfold determineOverallStatus. fold s.
    assert (Hs : (s <= 9)%nat).
    { unfold s. rewrite <- Hlen. apply filter_length_le_all. }
    rewrite Hlen. clearbody s.
    do 10 (destruct s as [| s];
           [vm_compute; repeat split; intros; try discriminate;
            try reflexivity; try lia |]).
    exfalso. lia.
Qed.

(** The theorem at a full suite with one failure. *)
Lemma determineOverallStatus_share_witness :
  determineOverallStatus sampleSuite = Suite_healthy
  <-> (8 <= List.length (filter isSuccess sampleSuite))%nat.
Proof.
  apply (proj2 (proj2 determineOverallStatus_share) sampleSuite).
  reflexivity.
Defined.

Lemma filter_length_cons {A : Type} (f : A -> bool) (x : A) (l : list A) :
  List.length (filter f (x :: l))
  = ((if f x then 1 else 0) + List.length (filter f l))%nat.
Proof. cbn [filter]. destruct (f x); reflexivity. Qed.

(** X28.  The health summary sorts the results of a suite into those that
    succeeded, those that failed within ten seconds and those that failed
    later; a result with status 'timeout' is counted in the total and in
    none of the three.  Without a success the average response time is 0,
    in binary64 too, where 0/0 is NaN and is replaced by 0. *)
Theorem getHealthSummary_counts :
  (forall results : list (APITestResult Q),
      let summary := getHealthSummary results in
      (healthyAPIs summary + degradedAPIs summary + criticalAPIs summary
       + of_length (List.length (timeouts results))
       == totalAPIs summary)%Q)
  /\ (forall results : list (APITestResult float),
      filter isSuccess results = [] ->
      averageResponseTime (getHealthSummary results) = 0%float)
  /\ (forall results : list (APITestResult Q),
      filter isSuccess results = [] ->
      (averageResponseTime (getHealthSummary results) == 0)%Q).
Proof.
  split; [| split].
  - intros results summary. subst summary.
    unfold getHealthSummary, timeouts, of_length.
    cbn [healthyAPIs degradedAPIs criticalAPIs totalAPIs lit Q_JSNumber].
    rewrite <- !inject_Z_plus, <- !Nat2Z.inj_add.
    apply inject_Z_injective. f_equal.
    induction results as [| r results IH]; [reflexivity |].
    rewrite !filter_length_cons. cbn [List.length]. rewrite <- IH.
    unfold isSuccess, isError. cbn [ltb leb Q_JSNumber lit].
    destruct (test_status r), (Qle_bool 10000 (responseTime r)); cbn; lia.
  - intros results H. unfold getHealthSummary. rewrite H.
    vm_compute. reflexivity.
  - intros results H. unfold getHealthSummary. rewrite H.
    vm_compute. reflexivity.
Qed.

(** The theorem at a suite whose two tests both failed. *)
Lemma getHealthSummary_counts_witness :
  averageResponseTime
    (getHealthSummary [sampleResult false; sampleResult false])
  = 0%float.
Proof.
  apply (proj1 (proj2 getHealthSummary_counts)). reflexivity.
Defined.

(* ===================================================================== *)
(** * Further properties: the cache manager *)
(* ===================================================================== *)

Lemma Map_get_set {V : Type} (key : string) (v : V)
    (m : list (string * V)) :
  Map_get key (Map_set key v m) = Some v.
Proof.
  induction m as [| [k x] m IH]; cbn.
  - now rewrite String.eqb_refl.
  - destruct (String.eqb k key) eqn:E; cbn; rewrite E; [reflexivity | exact IH].
Qed.

Lemma Map_delete_length {V : Type} (key : string) (m : list (string * V)) :
  List.length (Map_delete key m)
  = match Map_get key m with
    | Some _ => Nat.pred (List.length m)
    | None => List.length m
    end.
Proof.
  induction m as [| [k x] m IH]; cbn; [reflexivity |].
  destruct (String.eqb k key); cbn; [reflexivity |].
  rewrite IH. destruct (Map_get key m) eqn:E; [| reflexivity].
  destruct m; [discriminate | reflexivity].
Qed.

Lemma Map_set_length {V : Type} (key : string) (v : V)
    (m : list (string * V)) :
  List.length (Map_set key v m)
  = match Map_get key m with
    | Some _ => List.length m
    | None => S (List.length m)
    end.
Proof.
  induction m as [| [k x] m IH]; cbn; [reflexivity |].
  destruct (String.eqb k key); cbn; [reflexivity |].
  rewrite IH. destruct (Map_get key m); reflexivity.
Qed.

(** [ttl || this.config.defaultTTL] over the rationals: the time to live
    given, unless it is left out or 0. *)
Lemma ttlOrDefault_Q {D : Type} (ttl' : option Q)
    (this : CacheManager.Manager Q D) :
  CacheManager.ttlOrDefault ttl' this
  = match ttl' with
    | Some t => if Qeq_bool t 0
                then CacheManager.defaultTTL (CacheManager.config this)
                else t
    | None => CacheManager.defaultTTL (CacheManager.config this)
    end.
Proof.
  destruct ttl' as [t |]; [| reflexivity].
  unfold CacheManager.ttlOrDefault, CacheManager.truthy.
  cbn [isNaN Q_JSNumberTests leb lit Q_JSNumber orb].
  destruct (Qeq_bool t 0) eqn:E.
  - apply Qeq_bool_iff in E.
    destruct (Qle_bool_spec t 0), (Qle_bool_spec 0 t);
      cbn [andb negb]; try reflexivity; exfalso; lra.
  - apply Qeq_bool_neq in E.
    destruct (Qle_bool_spec t 0), (Qle_bool_spec 0 t);
      cbn [andb negb]; try reflexivity; exfalso; apply E; lra.
Qed.

(** X29.  What is set can be got back until it expires: after
    [set(key, data, ttl)] at a time [now], [get(key)] at a time [now']
    returns the data exactly when [now' - now] is at most the time to
    live, the limit included; past it [get] returns null.  The time to
    live is the [ttl] given, and the default of the configuration (five
    minutes unless configured) when [ttl] is left out, 0 or NaN.  A [get]
    counts one request, as a hit or as a miss, so that hits and misses add
    up to the requests before and after, and [set] counts nothing.  In
    binary64, an entry set with a [ttl] of NaN, of 0 or of none is got
    back 300 000 ms later and not a millisecond after that, and one set
    with a negative [ttl] is never got back. *)
Theorem CacheManager_get_after_set :
  (forall (D : Type) (now now' : Q) (key : string) (d : D)
          (ttl' : option Q) (this : CacheManager.Manager Q D),
    let this' := CacheManager.set now key d ttl' this in
    let limit :=
      match ttl' with
      | Some t => if Qeq_bool t 0
                  then CacheManager.defaultTTL (CacheManager.config this)
                  else t
      | None => CacheManager.defaultTTL (CacheManager.config this)
      end in
    (fst (CacheManager.get now' key this') = Some d
     <-> (now' - now <= limit)%Q)
    /\ (fst (CacheManager.get now' key this') = None
        <-> (limit < now' - now)%Q)
    /\ CacheManager.stats this' = CacheManager.stats this
    /\ (countersAddUp (CacheManager.stats this) ->
        countersAddUp
          (CacheManager.stats (snd (CacheManager.get now' key this'))))
    /\ CacheManager.totalRequests
         (CacheManager.stats (snd (CacheManager.get now' key this')))
       = S (CacheManager.totalRequests (CacheManager.stats this)))
  /\ (forall (num : Type) (N : JSNumber num) (T : JSNumberTests num)
             (D : Type) (this : CacheManager.Manager num D),
      CacheManager.ttlOrDefault None this
      = CacheManager.defaultTTL (CacheManager.config this)
      /\ (forall t : num,
             isNaN t = true ->
             CacheManager.ttlOrDefault (Some t) this
             = CacheManager.defaultTTL (CacheManager.config this)))
  /\ (CacheManager.defaultTTL
        (CacheManager.config
           (@CacheManager.new Q _ string None None None)) == 300000)%Q
  /\ (let fresh : CacheManager.Manager float string :=
        CacheManager.new None None None in
      let got (ttl' : option float) (age : float) : option string :=
        fst (CacheManager.get (1700000000000 + age)%float "test_key"%string
               (CacheManager.set 1700000000000%float "test_key"%string
                  "data"%string ttl' fresh)) in
      CacheManager.defaultTTL (CacheManager.config fresh) = 300000%float
      /\ (got None 300000 = Some "data"%string /\ got None 300001 = None)
      /\ (got (Some nan) 300000 = Some "data"%string
          /\ got (Some nan) 300001 = None)
      /\ (got (Some 0) 300000 = Some "data"%string
          /\ got (Some 0) 300001 = None)
      /\ (got (Some 60000) 60000 = Some "data"%string
          /\ got (Some 60000) 60001 = None)
      /\ got (Some (-1)) 0 = None)%float.
Proof.
  split; [| split; [| split; [reflexivity | vm_compute; repeat split]]].
  - intros D now now' key d ttl' this this' limit.
    assert (Hstats : CacheManager.stats this' = CacheManager.stats this).
    { unfold this', CacheManager.set, CacheManager.evictOldest.
      repeat match goal with
             | |- context [if ?b then _ else _] => destruct b
             end; reflexivity. }
    assert (Hlimit : CacheManager.ttlOrDefault ttl'
                       (if CacheManager.maxSize (CacheManager.config this)
                             <=? of_length
                                   (List.length (CacheManager.cache this))
                        then CacheManager.evictOldest now this else this)%js
                     = limit).
    { unfold limit. rewrite ttlOrDefault_Q.
      unfold CacheManager.evictOldest.
      repeat match goal with
             | |- context [if ?b then _ else _] => destruct b
             end; reflexivity. }
    unfold CacheManager.get.
    replace (Map_get key (CacheManager.cache this'))
      with (Some {| CacheManager.data := d; CacheManager.timestamp := now;
                    CacheManager.ttl := limit |}).
    2:{ unfold this', CacheManager.set. cbn [CacheManager.cache].
        rewrite Map_get_set, Hlimit. reflexivity. }
    unfold CacheManager.expired.
    cbn [CacheManager.timestamp CacheManager.ttl CacheManager.data
         ltb sub Q_JSNumber].
    destruct (Qle_bool_spec (now' - now) limit) as [H | H];
      cbn [negb fst snd CacheManager.stats]; rewrite ?Hstats;
      unfold countersAddUp, CacheManager.countHit, CacheManager.countMiss;
      cbn [CacheManager.hits CacheManager.misses CacheManager.totalRequests];
      repeat split; intros; try discriminate; try reflexivity; try lra;
      try lia; exfalso; lra.
  - intros num N T D this. split; [reflexivity |].
    intros t Ht. unfold CacheManager.ttlOrDefault, CacheManager.truthy.
    rewrite Ht. reflexivity.
Qed.

(** The theorem at a fresh cache, read in the millisecond of the write, as
    the repository's cache test does. *)
Lemma CacheManager_get_after_set_witness :
  countersAddUp
    (CacheManager.stats
       (snd (CacheManager.get 1700000000000%Q "test_key"
               (CacheManager.set 1700000000000%Q "test_key"
                  "data"%string None (CacheManager.new None None None))))).
Proof.
  apply (proj1 (proj2 (proj2 (proj2
           (proj1 CacheManager_get_after_set string 1700000000000%Q
              1700000000000%Q "test_key"%string "data"%string None
              (CacheManager.new None None None)))))).
  reflexivity.
Defined.

Lemma Map_get_In {V : Type} (key : string) (v : V) (m : list (string * V)) :
  In (key, v) m -> Map_get key m <> None.
Proof.
  induction m as [| [k x] m IH]; cbn; [tauto |].
  intros [H | H].
  - inversion H; subst. now rewrite String.eqb_refl.
  - destruct (String.eqb k key); [discriminate | now apply IH].
Qed.

Lemma Q_ltb_spec (a b : Q) : BoolSpec (a < b)%Q (b <= a)%Q (ltb a b).
Proof. cbn. destruct (Qle_bool_spec b a); constructor; assumption. Qed.

(** The loop of [evictOldest], from any starting key and time: it ends on
    a time that is below every entry's and at most the starting one; and
    either it ends where it started, no entry being older than the start,
    or on the key and time of an entry older than the start. *)
Lemma oldest_loop {D : Type}
    (entries : list (string * CacheManager.CacheEntry Q D)) :
  forall (k0 : string) (t0 : Q),
    let result :=
      fold_left
        (fun (acc : string * Q) (e : string * CacheManager.CacheEntry Q D) =>
           if ltb (CacheManager.timestamp (snd e)) (snd acc)
           then (fst e, CacheManager.timestamp (snd e)) else acc)
        entries (k0, t0) in
    (snd result <= t0)%Q
    /\ (forall k e, In (k, e) entries ->
                    (snd result <= CacheManager.timestamp e)%Q)
    /\ ((result = (k0, t0)
         /\ forall k e, In (k, e) entries ->
                        (t0 <= CacheManager.timestamp e)%Q)
        \/ (exists e, In (fst result, e) entries
                      /\ CacheManager.timestamp e = snd result
                      /\ (snd result < t0)%Q)).
Proof.
  induction entries as [| [k x] entries IH]; intros k0 t0.
  - cbn. split; [lra | split; [tauto | left; split; [reflexivity | tauto]]].
  - cbn [fold_left fst snd].
    destruct (Q_ltb_spec (CacheManager.timestamp x) t0) as [H | H].
    2:{
      destruct (IH k0 t0) as (Ha & Hb & Hc).
      split; [exact Ha | split].
      * intros k' e' [He | He]; [inversion He; subst; lra | eauto].
      * destruct Hc as [[Hc1 Hc2] | (e & He1 & He2 & He3)].
        -- left. split; [exact Hc1 |].
           intros k' e' [He | He]; [inversion He; subst; lra | eauto].
        -- right. exists e. repeat split; try assumption. now right. }
    destruct (IH k (CacheManager.timestamp x)) as (Ha & Hb & Hc).
    split; [lra | split].
    + intros k' e' [He | He]; [inversion He; subst; lra | eauto].
    + right.
      destruct Hc as [[Hc1 Hc2] | (e & He1 & He2 & He3)].
      * exists x. rewrite Hc1. cbn [fst snd].
        repeat split; try assumption. now left.
      * exists e. repeat split; try assumption; [now right | lra].
Qed.

(** X30.  Eviction.  [evictOldest] touches neither the configuration nor
    the counters and removes at most one entry.  It compares the entries
    with the clock, strictly: when no entry is older than the clock it
    removes nothing, so that a [set] of a new key into such a cache makes
    it one entry larger whatever [maxSize] is; when some entry is older
    than the clock and no key is empty, it removes exactly one entry, one
    of the oldest.  An oldest entry under the empty key stops the eviction:
    nothing is removed then, although a younger entry could be. *)
Theorem CacheManager_evictOldest :
  (forall (D : Type) (now : Q) (this : CacheManager.Manager Q D),
      let this' := CacheManager.evictOldest now this in
      CacheManager.config this' = CacheManager.config this
      /\ CacheManager.stats this' = CacheManager.stats this
      /\ (List.length (CacheManager.cache this')
          = List.length (CacheManager.cache this)
          \/ S (List.length (CacheManager.cache this'))
             = List.length (CacheManager.cache this))
      /\ ((forall k e, In (k, e) (CacheManager.cache this) ->
                       (now <= CacheManager.timestamp e)%Q) ->
          this' = this
          /\ forall (key : string) (d : D) (ttl' : option Q),
               Map_get key (CacheManager.cache this) = None ->
               List.length
                 (CacheManager.cache (CacheManager.set now key d ttl' this))
               = S (List.length (CacheManager.cache this)))
      /\ ((exists k e, In (k, e) (CacheManager.cache this)
                       /\ (CacheManager.timestamp e < now)%Q) ->
          ~ In EmptyString (map fst (CacheManager.cache this)) ->
          exists k e,
            In (k, e) (CacheManager.cache this)
            /\ (CacheManager.timestamp e < now)%Q
            /\ (forall k' e', In (k', e') (CacheManager.cache this) ->
                              (CacheManager.timestamp e
                               <= CacheManager.timestamp e')%Q)
            /\ CacheManager.cache this'
               = Map_delete k (CacheManager.cache this)
            /\ S (List.length (CacheManager.cache this'))
               = List.length (CacheManager.cache this)))
  /\ CacheManager.evictOldest 10%Q
       (smallCache [(EmptyString, sampleEntry 1); ("b"%string, sampleEntry 5)])
     = smallCache [(EmptyString, sampleEntry 1); ("b"%string, sampleEntry 5)].
Proof.
  split; [| reflexivity].
  intros D now this this'.
  destruct (oldest_loop (CacheManager.cache this) EmptyString now)
    as (Ha & Hb & Hc).
  fold (CacheManager.oldest now (CacheManager.cache this)) in Ha, Hb, Hc.
  unfold this', CacheManager.evictOldest.
  split; [| split; [| split; [| split]]].
  - destruct (String.eqb _ _); reflexivity.
  - destruct (String.eqb _ _); reflexivity.
  - destruct (String.eqb _ _); [left; reflexivity |].
    cbn [CacheManager.cache]. rewrite Map_delete_length.
    destruct (Map_get _ _) eqn:E; [| left; reflexivity].
    destruct (CacheManager.cache this); [discriminate | right; reflexivity].
  - intros Hall.
    assert (Hk : fst (CacheManager.oldest now (CacheManager.cache this))
                 = EmptyString).
    { destruct Hc as [[Hc _] | (e & He1 & He2 & He3)].
      - now rewrite Hc.
      - exfalso. specialize (Hall _ _ He1). rewrite He2 in Hall. lra. }
    rewrite Hk. cbn [String.eqb]. split; [reflexivity |].
    intros key d ttl' Hnew. unfold CacheManager.set, CacheManager.evictOldest.
    rewrite Hk. cbn [String.eqb].
    destruct (leb _ _); cbn [CacheManager.cache];
      rewrite Map_set_length, Hnew; reflexivity.
  - intros (k1 & e1 & Hin1 & Hold1) Hempty.
    destruct Hc as [[_ Hc] | (e & He1 & He2 & He3)].
    { exfalso. specialize (Hc _ _ Hin1). lra. }
    set (k := fst (CacheManager.oldest now (CacheManager.cache this))) in *.
    assert (Hk : String.eqb k EmptyString = false).
    { apply String.eqb_neq. intros Hk. apply Hempty. rewrite <- Hk.
      apply (in_map fst _ _ He1). }
    rewrite Hk. cbn [CacheManager.cache].
    exists k, e. repeat split.
    + exact He1.
    + rewrite He2. exact He3.
    + intros k' e' Hin. rewrite He2. eauto.
    + rewrite Map_delete_length.
      destruct (Map_get k (CacheManager.cache this)) eqn:E.
      * destruct (CacheManager.cache this); [destruct He1 | reflexivity].
      * exfalso. exact (Map_get_In _ _ _ He1 E).
Qed.

(** The theorem at a full cache of two entries, written 9 and 5 ms before
    the clock: the older one goes. *)
Lemma CacheManager_evictOldest_witness :
  exists k e,
    In (k, e) [("a"%string, sampleEntry 1); ("b"%string, sampleEntry 5)]
    /\ (CacheManager.timestamp e < 10)%Q
    /\ (forall k' e',
          In (k', e') [("a"%string, sampleEntry 1); ("b"%string, sampleEntry 5)] ->
          (CacheManager.timestamp e <= CacheManager.timestamp e')%Q)
    /\ CacheManager.cache
         (CacheManager.evictOldest 10%Q
            (smallCache [("a"%string, sampleEntry 1);
                         ("b"%string, sampleEntry 5)]))
       = Map_delete k [("a"%string, sampleEntry 1); ("b"%string, sampleEntry 5)]
    /\ S (List.length
            (CacheManager.cache
               (CacheManager.evictOldest 10%Q
                  (smallCache [("a"%string, sampleEntry 1);
                               ("b"%string, sampleEntry 5)]))))
       = List.length [("a"%string, sampleEntry 1); ("b"%string, sampleEntry 5)].
Proof.
  apply (proj2 (proj2 (proj2 (proj2
           (proj1 CacheManager_evictOldest string 10%Q
              (smallCache [("a"%string, sampleEntry 1);
                           ("b"%string, sampleEntry 5)])))))).
  - exists "a"%string, (sampleEntry 1). split; [now left | reflexivity].
  - cbn. intros [H | [H | []]]; discriminate.
Defined.
